(** * CityFix (model_web1): client-side state synchronisation

    A shallow embedding of the two client scripts of the repository:

    - the full CityFix client (state record, push-channel listener, REST
      fetchers, Leaflet map renderer, feed renderer, report form and the
      debounced location search), embedded in [Module CityFix];
    - the earlier, smaller client [src/app.js] (no push channel, no main
      map), embedded in [Module AppJs].

    JavaScript values that the code tests for truthiness are kept as
    JavaScript values, exceptions are kept as exceptions that leave the
    mutations made so far in place, and every asynchronous function is split
    at its [await]: the part that runs inside the calling reaction, and the
    part that resumes when the response arrives. *)

From Stdlib Require Import String Ascii List Bool Arith ZArith QArith Lia.
Import ListNotations.
Close Scope Q_scope.
Open Scope string_scope.
Open Scope list_scope.
Open Scope nat_scope.

Set Implicit Arguments.

(* ------------------------------------------------------------------ *)
(** ** JavaScript values                                                *)
(* ------------------------------------------------------------------ *)

Module Js.

(** The values a coordinate field or a form field can hold.  Numbers are
    rationals: every finite double is one, and the code only ever asks
    whether a number is zero. *)
Inductive value : Type :=
| undefined
| null
| number (q : Q)
| str (s : string).

(** [ToBoolean]: [undefined], [null], [0] and the empty string are falsy. *)
Definition truthy (v : value) : bool :=
  match v with
  | undefined | null => false
  | number q => negb (Qeq_bool q 0)
  | str s => negb (String.eqb s "")
  end.

(** [a && b]: the left operand when it is falsy, the right one otherwise. *)
Definition and (a b : value) : value := if truthy a then b else a.

(** A field is present when it holds a value, whatever the value. *)
Definition present (v : value) : bool :=
  match v with
  | undefined | null => false
  | _ => true
  end.

(** [s || d] for an optional string. *)
Definition or_default (s : option string) (d : string) : string :=
  match s with
  | Some x => if String.eqb x "" then d else x
  | None => d
  end.

(** White space removed by [String.prototype.trim], among the code units
    below 256 that a [string] holds: TAB, LF, VT, FF, CR, SP and NBSP. *)
Definition isWhitespace (c : ascii) : bool :=
  let n := nat_of_ascii c in
  ((9 <=? n) && (n <=? 13)) || (n =? 32) || (n =? 160).

Fixpoint trimStart (s : string) : string :=
  match s with
  | EmptyString => EmptyString
  | String c r => if isWhitespace c then trimStart r else s
  end.

Fixpoint trimEnd (s : string) : string :=
  match s with
  | EmptyString => EmptyString
  | String c r =>
      let r' := trimEnd r in
      if isWhitespace c && String.eqb r' "" then EmptyString else String c r'
  end.

Definition trim (s : string) : string := trimStart (trimEnd s).

(** [s.charAt(0)], the initial of a name.  The page shows it through
    [toUpperCase], whose letter table is the browser's: a region that holds
    an initial holds the character that is put into upper case. *)
Definition initial (s : string) : string :=
  match s with
  | EmptyString => EmptyString
  | String c _ => String c EmptyString
  end.

(** *** [isNaN]

    [isNaN(v)] converts [v] to a number first.  A string converts to [NaN]
    unless, white space at both ends apart, it is empty or a
    [StrNumericLiteral] of the language: a decimal literal with an optional
    sign, fraction and exponent, [Infinity] with an optional sign, or an
    unsigned binary, octal or hexadecimal integer. *)

Definition between (lo hi : nat) (c : ascii) : bool :=
  let n := nat_of_ascii c in (lo <=? n) && (n <=? hi).

Definition isDigit : ascii -> bool := between 48 57.
Definition isBinaryDigit : ascii -> bool := between 48 49.
Definition isOctalDigit : ascii -> bool := between 48 55.
Definition isHexDigit (c : ascii) : bool :=
  isDigit c || between 65 70 c || between 97 102 c.

Fixpoint dropWhile (p : ascii -> bool) (s : string) : string :=
  match s with
  | EmptyString => EmptyString
  | String c r => if p c then dropWhile p r else s
  end.

(** One or more characters, all of one class. *)
Definition allOf (p : ascii -> bool) (s : string) : bool :=
  negb (String.eqb s "") && String.eqb (dropWhile p s) "".

(** [DecimalDigits] at the head of a string: what follows them. *)
Definition decimalDigits (s : string) : option string :=
  match s with
  | String c r => if isDigit c then Some (dropWhile isDigit r) else None
  | EmptyString => None
  end.

(** An optional [ExponentPart] at the head of a string: what follows it. *)
Definition exponentPart (s : string) : option string :=
  match s with
  | String c r =>
      if Ascii.eqb c "e"%char || Ascii.eqb c "E"%char then
        match r with
        | String d r' =>
            if Ascii.eqb d "+"%char || Ascii.eqb d "-"%char then decimalDigits r'
            else decimalDigits r
        | EmptyString => None
        end
      else Some s
  | EmptyString => Some EmptyString
  end.

(** The text ends after an optional exponent. *)
Definition endsWithExponent (s : string) : bool :=
  match exponentPart s with
  | Some EmptyString => true
  | _ => false
  end.

(** [StrUnsignedDecimalLiteral] *)
Definition strUnsignedDecimalLiteral (s : string) : bool :=
  if String.eqb s "Infinity" then true
  else
    match s with
    | String "."%char r =>
        match decimalDigits r with
        | Some r' => endsWithExponent r'
        | None => false
        end
    | _ =>
        match decimalDigits s with
        | Some (String "."%char r) => endsWithExponent (dropWhile isDigit r)
        | Some r => endsWithExponent r
        | None => false
        end
    end.

(** [StrDecimalLiteral] *)
Definition strDecimalLiteral (s : string) : bool :=
  match s with
  | String c r =>
      if Ascii.eqb c "+"%char || Ascii.eqb c "-"%char then strUnsignedDecimalLiteral r
      else strUnsignedDecimalLiteral s
  | EmptyString => false
  end.

(** [NonDecimalIntegerLiteral] *)
Definition nonDecimalIntegerLiteral (s : string) : bool :=
  match s with
  | String "0"%char (String c r) =>
      if Ascii.eqb c "b"%char || Ascii.eqb c "B"%char then allOf isBinaryDigit r
      else if Ascii.eqb c "o"%char || Ascii.eqb c "O"%char then allOf isOctalDigit r
      else if Ascii.eqb c "x"%char || Ascii.eqb c "X"%char then allOf isHexDigit r
      else false
  | _ => false
  end.

(** [StringNumericLiteral] *)
Definition stringNumericLiteral (s : string) : bool :=
  let t := trim s in
  String.eqb t "" || nonDecimalIntegerLiteral t || strDecimalLiteral t.

(** [isNaN(v)].  A number of this embedding is never [NaN]; [null] converts
    to [0] and [undefined] to [NaN]. *)
Definition isNaN (v : value) : bool :=
  match v with
  | undefined => true
  | null => false
  | number _ => false
  | str s => negb (stringNumericLiteral s)
  end.

End Js.

(* ------------------------------------------------------------------ *)
(** ** Data model                                                       *)
(* ------------------------------------------------------------------ *)

Module Issue.
Record t : Type := mk {
  id : string;
  type : string;
  location : string;
  lat : Js.value;
  lng : Js.value;
  description : string;
  image : option string;
  date : option string;
  status : string;
  reporter_name : option string;
  points_awarded : Z
}.

Definition set_status (s : string) (i : t) : t :=
  mk (id i) (type i) (location i) (lat i) (lng i) (description i)
     (image i) (date i) s (reporter_name i) (points_awarded i).
End Issue.

Module User.
Record t : Type := mk {
  id : string;
  username : string;
  points : Z;
  total_reports : Z;
  solved_reports : Z
}.

Definition set_points (p : Z) (u : t) : t :=
  mk (id u) (username u) p (total_reports u) (solved_reports u).
End User.

(** What [res.json()] can resolve to when the list of issues is fetched: an
    array of issue records, or some other JSON document, of which an object
    with string fields is kept. *)
Inductive Json : Type :=
| JArray (l : list Issue.t)
| JObject (fields : list (string * string)).

(** The payloads of the push events. *)
Record StatusUpdated : Type := {
  su_issue_id : string;
  su_status : string;
  su_points_awarded : Z
}.

Record IssueDeleted : Type := { del_issue_id : string }.

Record PointsUpdated : Type := {
  pu_user_id : string;
  pu_points : Z;
  pu_added : Z
}.

(** How a [fetch] followed by [res.json()] can end. *)
Inductive FetchResult (A : Type) : Type :=
| NetworkFailure                              (* fetch rejects *)
| Response (http_status : nat) (body : option A).
                                 (* [None]: the body is not JSON *)
Arguments NetworkFailure {A}.

(** [res.ok] *)
Definition ok (http_status : nat) : bool :=
  (200 <=? http_status) && (http_status <=? 299).

(* ------------------------------------------------------------------ *)
(** ** The CityFix client                                               *)
(* ------------------------------------------------------------------ *)

Module STATE.
(** [const STATE]: the fields the modelled functions read or write (the
    rewards list is only read by the rewards renderer).  [issues] holds
    whatever the last list fetch parsed. *)
Record t : Type := mk {
  issues : Json;
  users : list User.t;
  currentUser : option User.t;
  isAdmin : bool;
  filter : string
}.

Definition set_issues (v : Json) (s : t) : t :=
  mk v (users s) (currentUser s) (isAdmin s) (filter s).
Definition set_users (v : list User.t) (s : t) : t :=
  mk (issues s) v (currentUser s) (isAdmin s) (filter s).
Definition set_currentUser (v : option User.t) (s : t) : t :=
  mk (issues s) (users s) v (isAdmin s) (filter s).
Definition set_filter (v : string) (s : t) : t :=
  mk (issues s) (users s) (currentUser s) (isAdmin s) v.
End STATE.

Module Leaflet.
Record Popup : Type := { popup_type : string; popup_location : string; popup_status : string }.

(** A marker is an object: [stamp] is its identity ([L.stamp]), [latlng]
    the two coordinates [L.marker] was given, which Leaflet reads as
    numbers. *)
Record Marker : Type := {
  stamp : nat;
  latlng : Js.value * Js.value;
  color : string;
  popup : Popup
}.

Inductive Layer : Type :=
| TileLayer (stamp : nat)
| MarkerLayer (m : Marker).

Definition layer_stamp (l : Layer) : nat :=
  match l with
  | TileLayer s => s
  | MarkerLayer m => stamp m
  end.

Inductive View : Type :=
| SetView (zoom : nat)                             (* centred on INDIA_CENTER *)
| FitBounds (points : list (Js.value * Js.value)). (* bounds of the points, padded by 0.1 *)

Record Map : Type := { layers : list Layer; view : View }.

Definition addLayer (l : Layer) (m : Map) : Map :=
  {| layers := layers m ++ [l]; view := view m |}.

Definition removeLayer (mk : Marker) (m : Map) : Map :=
  {| layers := List.filter (fun l => negb (layer_stamp l =? stamp mk)) (layers m);
     view := view m |}.

Definition fitBounds (pts : list (Js.value * Js.value)) (m : Map) : Map :=
  {| layers := layers m; view := FitBounds pts |}.

(** The markers currently shown on a map. *)
Definition markers (m : Map) : list Marker :=
  flat_map (fun l => match l with MarkerLayer k => [k] | TileLayer _ => [] end)
           (layers m).
End Leaflet.

Module CityFix.

(** *** Rendered regions *)

(** [textContent] of a counter: a number, a string, or nothing (what
    assigning [undefined] leaves). *)
Inductive Text : Type :=
| Num (n : nat)
| Str (s : string)
| Blank.

Record Card : Type := {
  card_id : string;                       (* onclick="viewIssue(id)" *)
  card_image : string;
  card_status : string;
  card_type : string;
  card_location : string;
  card_map_link : option (Js.value * Js.value);
  card_date : option string;              (* formatDate: 'N/A' when absent *)
  card_reporter : option string;
  card_desc : string
}.

Inductive Feed : Type :=
| Cards (cards : list Card)
| EmptyMessage.                 (* 'No issues found matching criteria.' *)

Record AdminRow : Type := {
  row_id : string;                        (* first six characters of the id *)
  row_type : string;
  row_location : string;
  row_reporter : string;
  row_date : option string;
  row_status : string;
  row_points : Z;
  row_actions : string                    (* id passed to updateStatus / deleteIssue *)
}.

Inductive AdminTable : Type :=
| Rows (rows : list AdminRow)
| NoIssuesRow.                  (* 'No issues reported yet.' *)

Record LeaderItem : Type := {
  item_rank : nat;
  item_medal : bool;                      (* ranks 1 to 3 *)
  item_is_me : bool;
  item_avatar : string;                   (* the initial, shown in upper case *)
  item_username : string;
  item_total_reports : Z;
  item_solved_reports : Z;
  item_points : Z
}.

Inductive Leaderboard : Type :=
| Items (items : list LeaderItem)
| NoReporters.                  (* 'No reporters yet. Be the first!' *)

Inductive UserUI : Type :=
| Guest
| Profile (name : string) (points : Z) (avatar : string).
                                (* the avatar: the initial, shown in upper case *)

Record Dom : Type := mkDom {
  total_issues : Text;
  progress_issues : Text;
  solved_issues : Text;
  issue_feed : Feed;
  admin_issues_list : AdminTable;
  leaderboard_list : Leaderboard;
  user_ui : UserUI;
  issue_type : string;
  issue_location : string;
  issue_lat : string;
  issue_lng : string;
  issue_desc : string
}.

Definition set_total_issues (v : Text) (d : Dom) : Dom :=
  mkDom v (progress_issues d) (solved_issues d) (issue_feed d) (admin_issues_list d)
        (leaderboard_list d) (user_ui d) (issue_type d) (issue_location d)
        (issue_lat d) (issue_lng d) (issue_desc d).
Definition set_progress_issues (v : Text) (d : Dom) : Dom :=
  mkDom (total_issues d) v (solved_issues d) (issue_feed d) (admin_issues_list d)
        (leaderboard_list d) (user_ui d) (issue_type d) (issue_location d)
        (issue_lat d) (issue_lng d) (issue_desc d).
Definition set_solved_issues (v : Text) (d : Dom) : Dom :=
  mkDom (total_issues d) (progress_issues d) v (issue_feed d) (admin_issues_list d)
        (leaderboard_list d) (user_ui d) (issue_type d) (issue_location d)
        (issue_lat d) (issue_lng d) (issue_desc d).
Definition set_issue_feed (v : Feed) (d : Dom) : Dom :=
  mkDom (total_issues d) (progress_issues d) (solved_issues d) v (admin_issues_list d)
        (leaderboard_list d) (user_ui d) (issue_type d) (issue_location d)
        (issue_lat d) (issue_lng d) (issue_desc d).
Definition set_admin_issues_list (v : AdminTable) (d : Dom) : Dom :=
  mkDom (total_issues d) (progress_issues d) (solved_issues d) (issue_feed d) v
        (leaderboard_list d) (user_ui d) (issue_type d) (issue_location d)
        (issue_lat d) (issue_lng d) (issue_desc d).
Definition set_leaderboard_list (v : Leaderboard) (d : Dom) : Dom :=
  mkDom (total_issues d) (progress_issues d) (solved_issues d) (issue_feed d)
        (admin_issues_list d) v (user_ui d) (issue_type d) (issue_location d)
        (issue_lat d) (issue_lng d) (issue_desc d).
Definition set_user_ui (v : UserUI) (d : Dom) : Dom :=
  mkDom (total_issues d) (progress_issues d) (solved_issues d) (issue_feed d)
        (admin_issues_list d) (leaderboard_list d) v (issue_type d) (issue_location d)
        (issue_lat d) (issue_lng d) (issue_desc d).

(** *** Effects that leave the page *)

Inductive Message : Type :=
| Plain (s : string)
| PointsAwarded (n : Z)         (* `${n} points awarded!` *)
| StatusUpdatedTo (s : string). (* `Status updated to ${s}` *)

(** The JSON body of [POST /api/issues]. *)
Record NewIssue : Type := {
  ni_user_id : option string;
  ni_type : string;
  ni_location : string;
  ni_lat : string;                        (* sent as parseFloat of this text *)
  ni_lng : string;
  ni_description : string;
  ni_image : option string;
  ni_date : string
}.

Inductive Effect : Type :=
| Toast (message : Message) (type : string)        (* showToast *)
| Request (method url : string) (body : option NewIssue)   (* fetch *)
| ConsoleError (label : string)
| PointsAnimation (added : Z)                      (* showPointsAnimation *)
| FormReset                                        (* report-form reset() *)
| GoHome.                                          (* hash := '#home' after 1 s *)

Definition isToast (e : Effect) : bool :=
  match e with Toast _ _ => true | _ => false end.

Definition isRequest (e : Effect) : bool :=
  match e with Request _ _ _ => true | _ => false end.

(** *** The page: every global the modelled functions read or write *)

Record World : Type := mkWorld {
  state : STATE.t;                        (* const STATE *)
  dom : Dom;
  cityfix_user : option User.t;           (* localStorage['cityfix_user'] *)
  mainMap : option Leaflet.Map;           (* let mainMap = null *)
  issueMarkers : list Leaflet.Marker;     (* let issueMarkers = [] *)
  currentImageBase64 : option string;
  lastId : nat;                           (* Leaflet's stamp counter *)
  trace : list Effect                     (* oldest first *)
}.

Definition set_state (v : STATE.t) (w : World) : World :=
  mkWorld v (dom w) (cityfix_user w) (mainMap w) (issueMarkers w)
          (currentImageBase64 w) (lastId w) (trace w).
Definition set_dom (v : Dom) (w : World) : World :=
  mkWorld (state w) v (cityfix_user w) (mainMap w) (issueMarkers w)
          (currentImageBase64 w) (lastId w) (trace w).
Definition set_cityfix_user (v : option User.t) (w : World) : World :=
  mkWorld (state w) (dom w) v (mainMap w) (issueMarkers w)
          (currentImageBase64 w) (lastId w) (trace w).
Definition set_mainMap (v : option Leaflet.Map) (w : World) : World :=
  mkWorld (state w) (dom w) (cityfix_user w) v (issueMarkers w)
          (currentImageBase64 w) (lastId w) (trace w).
Definition set_issueMarkers (v : list Leaflet.Marker) (w : World) : World :=
  mkWorld (state w) (dom w) (cityfix_user w) (mainMap w) v
          (currentImageBase64 w) (lastId w) (trace w).
Definition set_currentImageBase64 (v : option string) (w : World) : World :=
  mkWorld (state w) (dom w) (cityfix_user w) (mainMap w) (issueMarkers w)
          v (lastId w) (trace w).
Definition set_lastId (v : nat) (w : World) : World :=
  mkWorld (state w) (dom w) (cityfix_user w) (mainMap w) (issueMarkers w)
          (currentImageBase64 w) v (trace w).
Definition emit (e : Effect) (w : World) : World :=
  mkWorld (state w) (dom w) (cityfix_user w) (mainMap w) (issueMarkers w)
          (currentImageBase64 w) (lastId w) (trace w ++ [e]).

Definition showToast (message : Message) (type : string) : World -> World :=
  emit (Toast message type).

(** *** Exceptions

    A computation returns or throws; either way the page keeps the
    mutations made so far. *)

Inductive Exn : Type :=
| TypeError (what : string)
| SyntaxError (what : string)
| Error (what : string).

Inductive Res (A : Type) : Type :=
| Ret (a : A)
| Throw (e : Exn).
Arguments Throw {A}.

Definition M (A : Type) : Type := World -> Res A * World.

Definition ret {A} (a : A) : M A := fun w => (Ret a, w).
Definition throw {A} (e : Exn) : M A := fun w => (Throw e, w).
Definition bind {A B} (c : M A) (k : A -> M B) : M B :=
  fun w => match c w with
           | (Ret a, w') => k a w'
           | (Throw e, w') => (Throw e, w')
           end.
Definition act (f : World -> World) : M unit := fun w => (Ret tt, f w).
(** [try { c } catch (e) { h }] *)
Definition try_catch (c : M unit) (h : World -> World) : M unit :=
  fun w => match c w with
           | (Ret a, w') => (Ret a, w')
           | (Throw _, w') => (Ret tt, h w')
           end.
Definition when (b : bool) (c : M unit) : M unit := if b then c else ret tt.

Notation "c1 ;; c2" := (bind c1 (fun _ => c2))
  (at level 61, right associativity).

(** The page a reaction leaves, and whether it returned. *)
Definition after {A} (c : M A) (w : World) : World := snd (c w).
Definition returns {A} (c : M A) (w : World) : bool :=
  match fst (c w) with Ret _ => true | Throw _ => false end.

(** *** View renderers *)

Definition default_image : string :=
  "https://images.unsplash.com/photo-1598228723793-52759bba239c?q=80&w=400&auto=format&fit=crop".

(** [i.status === s] *)
Definition statusIs (s : string) (i : Issue.t) : bool :=
  String.eqb (Issue.status i) s.

(** [i.id === id] *)
Definition idIs (id : string) (i : Issue.t) : bool :=
  String.eqb (Issue.id i) id.

(** An optional string used as a condition: absent and empty are falsy. *)
Definition nonempty (s : option string) : option string :=
  match s with
  | Some x => if String.eqb x "" then None else Some x
  | None => None
  end.

(** One card of the feed template. *)
Definition issueCard (issue : Issue.t) : Card :=
  {| card_id := Issue.id issue;
     card_image := Js.or_default (Issue.image issue) default_image;
     card_status := Issue.status issue;
     card_type := Issue.type issue;
     card_location := Issue.location issue;
     card_map_link :=
       if Js.truthy (Issue.lat issue)
       then Some (Issue.lat issue, Issue.lng issue) else None;
     card_date := nonempty (Issue.date issue);
     card_reporter := nonempty (Issue.reporter_name issue);
     card_desc := Issue.description issue |}.

(** The display subset: [STATE.filter === 'all' ? issues : issues.filter(...)]. *)
Definition filteredIssues (filter : string) (issues : list Issue.t) : list Issue.t :=
  if String.eqb filter "all" then issues
  else List.filter (statusIs filter) issues.

Definition feedHtml (shown : list Issue.t) : Feed :=
  match length shown with
  | 0 => EmptyMessage
  | _ => Cards (map issueCard shown)
  end.

(** [o.length] of a JSON object: its "length" field, if it has one. *)
Definition objectLength (fields : list (string * string)) : Text :=
  match List.find (fun kv => String.eqb (fst kv) "length") fields with
  | Some kv => Str (snd kv)
  | None => Blank
  end.

(** [renderHome]: the three counters over [STATE.issues], then the cards of
    the display subset.  On a value that is not an array the first counter
    is written and [.filter] throws. *)
Definition renderHome : M unit :=
  fun w =>
    match STATE.issues (state w) with
    | JArray issues =>
        let d1 := set_total_issues (Num (length issues)) (dom w) in
        let d2 := set_progress_issues
                    (Num (length (List.filter (statusIs "in-progress") issues))) d1 in
        let d3 := set_solved_issues
                    (Num (length (List.filter (statusIs "solved") issues))) d2 in
        let shown := filteredIssues (STATE.filter (state w)) issues in
        (Ret tt, set_dom (set_issue_feed (feedHtml shown) d3) w)
    | JObject fields =>
        (Throw (TypeError "STATE.issues.filter is not a function"),
         set_dom (set_total_issues (objectLength fields) (dom w)) w)
    end.

(** The click listener of a filter button: [STATE.filter = btn.dataset.filter],
    then the feed is rendered again. *)
Definition on_filter_click (filter : string) : M unit :=
  act (fun w => set_state (STATE.set_filter filter (state w)) w) ;;
  renderHome.

Definition adminRow (issue : Issue.t) : AdminRow :=
  {| row_id := substring 0 6 (Issue.id issue);
     row_type := Issue.type issue;
     row_location := Issue.location issue;
     row_reporter := Js.or_default (Issue.reporter_name issue) "Anonymous";
     row_date := nonempty (Issue.date issue);
     row_status := Issue.status issue;
     row_points := Issue.points_awarded issue;
     row_actions := Issue.id issue |}.

Definition renderAdminTable : M unit :=
  fun w =>
    match STATE.issues (state w) with
    | JArray issues =>
        let table := match issues with
                     | [] => NoIssuesRow
                     | _ => Rows (map adminRow issues)
                     end in
        (Ret tt, set_dom (set_admin_issues_list table (dom w)) w)
    | JObject _ => (Throw (TypeError "STATE.issues.map is not a function"), w)
    end.

Definition isMe (me : option User.t) (user : User.t) : bool :=
  match me with
  | Some u => String.eqb (User.id u) (User.id user)
  | None => false
  end.

Fixpoint leaderItems (me : option User.t) (index : nat) (users : list User.t)
  : list LeaderItem :=
  match users with
  | [] => []
  | user :: rest =>
      {| item_rank := index + 1;
         item_medal := index + 1 <=? 3;
         item_is_me := isMe me user;
         item_avatar := Js.initial (User.username user);
         item_username := User.username user;
         item_total_reports := User.total_reports user;
         item_solved_reports := User.solved_reports user;
         item_points := User.points user |}
      :: leaderItems me (S index) rest
  end.

Definition renderLeaderboard (w : World) : World :=
  let list := match STATE.users (state w) with
              | [] => NoReporters
              | users => Items (leaderItems (STATE.currentUser (state w)) 0 users)
              end in
  set_dom (set_leaderboard_list list (dom w)) w.

Definition updateUserUI (w : World) : World :=
  let ui := match STATE.currentUser (state w) with
            | Some u => Profile (User.username u) (User.points u)
                                (Js.initial (User.username u))
            | None => Guest
            end in
  set_dom (set_user_ui ui (dom w)) w.

(** *** The main map *)

Definition markerColor (status : string) : string :=
  if String.eqb status "solved" then "green"
  else if String.eqb status "in-progress" then "blue"
  else "red".

(** The test of the marker loop: [issue.lat && issue.lng]. *)
Definition hasCoordinates (issue : Issue.t) : bool :=
  Js.truthy (Js.and (Issue.lat issue) (Issue.lng issue)).

(** [L.marker([issue.lat, issue.lng], { icon })] with its popup bound; the
    icon is the pin in the colour of the status. *)
Definition newMarker (stamp : nat) (issue : Issue.t) : Leaflet.Marker :=
  {| Leaflet.stamp := stamp;
     Leaflet.latlng := (Issue.lat issue, Issue.lng issue);
     Leaflet.color := markerColor (Issue.status issue);
     Leaflet.popup := {| Leaflet.popup_type := Issue.type issue;
                         Leaflet.popup_location := Issue.location issue;
                         Leaflet.popup_status := Issue.status issue |} |}.

(** [L.marker(latlng)] builds a [LatLng] from the two values, and the
    constructor of [LatLng] (Leaflet 1.x) throws
    [Error('Invalid LatLng object: (lat, lng)')] when
    [isNaN(lat) || isNaN(lng)]; the exception is kept here without the two
    values of its message. *)
Definition invalidLatLng (issue : Issue.t) : bool :=
  Js.isNaN (Issue.lat issue) || Js.isNaN (Issue.lng issue).

(** One round of the marker loop, on the map, the marker array and the
    stamp counter.  When [L.marker] throws, nothing was added yet. *)
Definition placeMarker (acc : Leaflet.Map * list Leaflet.Marker * nat)
  (issue : Issue.t) : Res unit * (Leaflet.Map * list Leaflet.Marker * nat) :=
  let '(m, placed, n) := acc in
  if hasCoordinates issue then
    if invalidLatLng issue then (Throw (Error "Invalid LatLng object"), acc)
    else
      let marker := newMarker (S n) issue in
      (Ret tt,
       (Leaflet.addLayer (Leaflet.MarkerLayer marker) m, placed ++ [marker], S n))
  else (Ret tt, acc).

(** [array.forEach(f)], the callback working on a state: an exception ends
    the loop, and what the earlier rounds did stays. *)
Fixpoint forEach {A S : Type} (f : S -> A -> Res unit * S) (l : list A) (s : S)
  : Res unit * S :=
  match l with
  | [] => (Ret tt, s)
  | a :: rest =>
      match f s a with
      | (Ret _, s') => forEach f rest s'
      | (Throw e, s') => (Throw e, s')
      end
  end.

(** [issueMarkers.forEach(m => mainMap.removeLayer(m))] *)
Definition clearMarkers (placed : list Leaflet.Marker) (m : Leaflet.Map) : Leaflet.Map :=
  fold_left (fun m k => Leaflet.removeLayer k m) placed m.

Definition renderMainMap : M unit :=
  fun w =>
    match mainMap w with
    | None => (Ret tt, w)
    | Some m =>
        let cleared := clearMarkers (issueMarkers w) m in
        let w1 := set_issueMarkers [] (set_mainMap (Some cleared) w) in
        match STATE.issues (state w) with
        | JObject _ =>
            (Throw (TypeError "STATE.issues.forEach is not a function"), w1)
        | JArray issues =>
            match forEach placeMarker issues (cleared, [], lastId w) with
            | (Ret _, (m2, placed, n)) =>
                let m3 := match placed with
                          | [] => m2
                          | _ => Leaflet.fitBounds (map Leaflet.latlng placed) m2
                          end in
                (Ret tt,
                 set_lastId n (set_issueMarkers placed (set_mainMap (Some m3) w1)))
            | (Throw e, (m2, placed, n)) =>
                (Throw e,
                 set_lastId n (set_issueMarkers placed (set_mainMap (Some m2) w1)))
            end
        end
    end.

(** [initMainMap]: a fresh map with its tile layer, then a first render. *)
Definition initMainMap : M unit :=
  act (fun w =>
         set_lastId (S (lastId w))
           (set_mainMap
              (Some {| Leaflet.layers := [Leaflet.TileLayer (S (lastId w))];
                       Leaflet.view := Leaflet.SetView 5 |}) w)) ;;
  renderMainMap.

(** *** Data fetching

    Each fetcher is split at its [await]: the request goes out inside the
    calling reaction, the rest runs when the response arrives. *)

Definition fetchIssues_request : World -> World :=
  emit (Request "GET" "/api/issues" None).

(** The body of the [try]: [fetch] may reject, [res.json()] may reject, and
    [renderHome] may throw.  [res.ok] is not consulted. *)
Definition fetchIssues_try (r : FetchResult Json) : M unit :=
  match r with
  | NetworkFailure => throw (TypeError "Failed to fetch")
  | Response _ None => throw (SyntaxError "Unexpected token")
  | Response _ (Some parsed) =>
      act (fun w => set_state (STATE.set_issues parsed (state w)) w) ;;
      renderHome
  end.

Definition fetchIssues_resume (r : FetchResult Json) : M unit :=
  try_catch (fetchIssues_try r) (emit (ConsoleError "Error fetching issues:")).

Definition fetchLeaderboard_request : World -> World :=
  emit (Request "GET" "/api/leaderboard" None).

Definition fetchLeaderboard_try (r : FetchResult (list User.t)) : M unit :=
  match r with
  | NetworkFailure => throw (TypeError "Failed to fetch")
  | Response _ None => throw (SyntaxError "Unexpected token")
  | Response _ (Some parsed) =>
      act (fun w => set_state (STATE.set_users parsed (state w)) w) ;;
      act renderLeaderboard
  end.

Definition fetchLeaderboard_resume (r : FetchResult (list User.t)) : M unit :=
  try_catch (fetchLeaderboard_try r) (emit (ConsoleError "Error fetching leaderboard:")).

(** *** The push-channel listener ([initSocket]) *)

(** [STATE.issues.unshift(issue)] *)
Definition unshift (issue : Issue.t) : M unit :=
  fun w =>
    match STATE.issues (state w) with
    | JArray issues =>
        (Ret tt, set_state (STATE.set_issues (JArray (issue :: issues)) (state w)) w)
    | JObject _ => (Throw (TypeError "STATE.issues.unshift is not a function"), w)
    end.

Definition on_new_issue (issue : Issue.t) : M unit :=
  unshift issue ;;
  renderHome ;;
  renderMainMap ;;
  act (showToast (Plain "New issue reported!") "info").

(** [issue.status = status] on the object that [find] returned: the first
    element with the id, changed in place. *)
Fixpoint assignStatus (issue_id status : string) (issues : list Issue.t)
  : list Issue.t :=
  match issues with
  | [] => []
  | i :: rest =>
      if idIs issue_id i then Issue.set_status status i :: rest
      else i :: assignStatus issue_id status rest
  end.

Definition on_status_updated (data : StatusUpdated) : M unit :=
  (fun w =>
     match STATE.issues (state w) with
     | JObject _ => (Throw (TypeError "STATE.issues.find is not a function"), w)
     | JArray issues =>
         match List.find (idIs (su_issue_id data)) issues with
         | Some _ =>
             (act (fun w =>
                     set_state
                       (STATE.set_issues
                          (JArray (assignStatus (su_issue_id data) (su_status data) issues))
                          (state w)) w) ;;
              renderHome ;;
              when (STATE.isAdmin (state w)) renderAdminTable) w
         | None => (Ret tt, w)
         end
     end) ;;
  when (0 <? su_points_awarded data)%Z
       (act (showToast (PointsAwarded (su_points_awarded data)) "success")).

Definition on_issue_deleted (data : IssueDeleted) : M unit :=
  (fun w =>
     match STATE.issues (state w) with
     | JObject _ => (Throw (TypeError "STATE.issues.filter is not a function"), w)
     | JArray issues =>
         (Ret tt,
          set_state
            (STATE.set_issues
               (JArray (List.filter (fun i => negb (idIs (del_issue_id data) i)) issues))
               (state w)) w)
     end) ;;
  renderHome ;;
  renderMainMap.

(** [STATE.currentUser && STATE.currentUser.id === data.user_id] *)
Definition isSessionUser (w : World) (user_id : string) : bool :=
  match STATE.currentUser (state w) with
  | Some u => String.eqb (User.id u) user_id
  | None => false
  end.

(** The guarded block of [points_updated]. *)
Definition applyPoints (data : PointsUpdated) (w : World) : World :=
  match STATE.currentUser (state w) with
  | None => w
  | Some u =>
      let u' := User.set_points (pu_points data) u in
      let w1 := set_state (STATE.set_currentUser (Some u') (state w)) w in
      let w2 := set_cityfix_user (STATE.currentUser (state w1)) w1 in
      let w3 := updateUserUI w2 in
      if (pu_added data =? 0)%Z then w3
      else emit (PointsAnimation (pu_added data)) w3
  end.

Definition on_points_updated (data : PointsUpdated) (w : World) : World :=
  let w1 := if isSessionUser w (pu_user_id data) then applyPoints data w else w in
  fetchLeaderboard_request w1.

(** *** The report form *)

(** The submit handler up to its [await]: [now] is [new Date().toISOString()].
    The inputs hold strings, so [!lat] asks whether the text is empty. *)
Definition report_submit (now : string) (w : World) : World :=
  let lat := Js.str (issue_lat (dom w)) in
  let lng := Js.str (issue_lng (dom w)) in
  if negb (Js.truthy lat) || negb (Js.truthy lng) then
    showToast (Plain "Please click on the map to select a location") "warning" w
  else
    emit (Request "POST" "/api/issues"
            (Some {| ni_user_id := option_map User.id (STATE.currentUser (state w));
                     ni_type := issue_type (dom w);
                     ni_location := issue_location (dom w);
                     ni_lat := issue_lat (dom w);
                     ni_lng := issue_lng (dom w);
                     ni_description := issue_desc (dom w);
                     ni_image := currentImageBase64 w;
                     ni_date := now |})) w.

(** The rest of the handler, once the POST has settled.  What [reset()]
    does to each input depends on the markup, so it stays an effect; the pin
    of the picker map is outside this model. *)
Definition report_submit_resume (r : FetchResult unit) (w : World) : World :=
  match r with
  | NetworkFailure =>
      emit (ConsoleError "") (showToast (Plain "Server error") "danger" w)
  | Response http_status _ =>
      if ok http_status then
        let w1 := showToast (Plain "Issue reported successfully!") "success" w in
        let w2 := set_currentImageBase64 None (emit FormReset w1) in
        let w3 := match STATE.currentUser (state w2) with
                  | None => showToast (Plain "Login to earn points for your reports!") "info" w2
                  | Some _ => w2
                  end in
        emit GoHome w3
      else showToast (Plain "Failed to submit report") "danger" w
  end.

End CityFix.

(* ------------------------------------------------------------------ *)
(** ** The location search of the report form                           *)
(* ------------------------------------------------------------------ *)

Module Autocomplete.

(** A scheduled call [setTimeout(() => searchLocation(query), 400)]. *)
Record Timer : Type := { handle : nat; due : nat; query : string }.

Record Place : Type := {
  place_lat : string;
  place_lon : string;
  display_name : string;
  place_type : string
}.

(** What the suggestions container shows. *)
Inductive Panel : Type :=
| AsLoaded
| NoPlaces                        (* 'No places found. Try a different search.' *)
| Places (results : list Place)   (* one item per result, the first one active *)
| SearchFailed.                   (* 'Search failed. Please try again.' *)

Record Page : Type := mkPage {
  searchTimeout : option nat;     (* let searchTimeout = null *)
  timers : list Timer;            (* scheduled and not yet fired, oldest first *)
  clock : nat;                    (* milliseconds *)
  nextHandle : nat;
  suggestions_hidden : bool;      (* class 'hidden' of #location-suggestions *)
  loading_hidden : bool;          (* class 'hidden' of #search-loading *)
  suggestions : Panel;
  searches : list string          (* requests sent to the geocoder, oldest first *)
}.

(** The quiet period of the debounce. *)
Definition quiet : nat := 400.

(** The page once the script has run: no timer was ever scheduled.  Timer
    handles are positive integers. *)
Definition loaded : Page :=
  mkPage None [] 0 1 true true AsLoaded [].

Definition clearTimeout (h : nat) (p : Page) : Page :=
  mkPage (searchTimeout p)
         (List.filter (fun t => negb (handle t =? h)) (timers p))
         (clock p) (nextHandle p) (suggestions_hidden p) (loading_hidden p)
         (suggestions p) (searches p).

(** [searchTimeout = setTimeout(() => searchLocation(q), delay)] *)
Definition setSearchTimeout (q : string) (delay : nat) (p : Page) : Page :=
  mkPage (Some (nextHandle p))
         (timers p ++ [{| handle := nextHandle p; due := clock p + delay; query := q |}])
         (clock p) (S (nextHandle p)) (suggestions_hidden p) (loading_hidden p)
         (suggestions p) (searches p).

Definition hideSuggestions (p : Page) : Page :=
  mkPage (searchTimeout p) (timers p) (clock p) (nextHandle p) true
         (loading_hidden p) (suggestions p) (searches p).

(** [searchLocation(query)] up to its [await]: the loading indicator is
    shown and the request leaves. *)
Definition searchLocation (q : string) (p : Page) : Page :=
  mkPage (searchTimeout p) (timers p) (clock p) (nextHandle p)
         (suggestions_hidden p) false (suggestions p) (searches p ++ [q]).

(** The rest of [searchLocation], once the geocoder has answered. *)
Definition searchLocation_resume (r : FetchResult (list Place)) (p : Page) : Page :=
  let panel := match r with
               | Response _ (Some []) => NoPlaces
               | Response _ (Some results) => Places results
               | _ => SearchFailed
               end in
  mkPage (searchTimeout p) (timers p) (clock p) (nextHandle p)
         false true panel (searches p).

(** The [input] listener: [value] is the text of the search box. *)
Definition on_input (value : string) (p : Page) : Page :=
  let q := Js.trim value in
  let p1 := match searchTimeout p with
            | Some (S h) => clearTimeout (S h) p       (* if (searchTimeout) *)
            | _ => p
            end in
  if String.length q <? 3 then hideSuggestions p1
  else setSearchTimeout q quiet p1.

(** The timers that are due run, oldest first; all of them were scheduled
    with the same delay, so this is the order in which they fall due. *)
Definition fire (p : Page) : Page :=
  let '(dueNow, later) := List.partition (fun t => due t <=? clock p) (timers p) in
  fold_left (fun p t => searchLocation (query t) p) dueNow
    (mkPage (searchTimeout p) later (clock p) (nextHandle p)
            (suggestions_hidden p) (loading_hidden p) (suggestions p) (searches p)).

Definition elapse (ms : nat) (p : Page) : Page :=
  fire (mkPage (searchTimeout p) (timers p) (clock p + ms) (nextHandle p)
               (suggestions_hidden p) (loading_hidden p) (suggestions p)
               (searches p)).

Inductive Event : Type :=
| Input (value : string)
| Elapse (ms : nat)
| Answer (r : FetchResult (list Place)).

Definition step (p : Page) (e : Event) : Page :=
  match e with
  | Input value => on_input value p
  | Elapse ms => elapse ms p
  | Answer r => searchLocation_resume r p
  end.

Definition run (events : list Event) (p : Page) : Page :=
  fold_left step events p.

(** Keystrokes that follow one another within the quiet period: each entry
    is the time since the previous keystroke and the text after it. *)
Definition burst (keys : list (nat * string)) : list Event :=
  flat_map (fun k => [Elapse (fst k); Input (snd k)]) keys.

Definition withinQuiet (keys : list (nat * string)) : Prop :=
  Forall (fun k => fst k < quiet) keys.

(** The searches sent while [events] ran from [p]. *)
Definition sent (events : list Event) (p : Page) : list string :=
  skipn (length (searches p)) (searches (run events p)).

(** What the pending timers have to satisfy between two events. *)
Definition consistent (p : Page) : Prop :=
  0 < nextHandle p /\
  (timers p = [] \/
   exists t, timers p = [t] /\ searchTimeout p = Some (handle t) /\
             0 < handle t /\ due t <= clock p + quiet /\ clock p < due t /\
             3 <= String.length (query t)) /\
  (forall h, searchTimeout p = Some h -> 0 < h < nextHandle p).

(** A page on which [value] is the last text typed: the searches sent so
    far are [sofar], the keystroke came at [since], and the search for the
    trimmed text is pending, due a full quiet period after the keystroke,
    exactly when that text has three characters or more. *)
Definition typed (value : string) (sofar : list string) (since : nat) (p : Page) : Prop :=
  consistent p /\
  searches p = sofar /\
  clock p = since /\
  if String.length (Js.trim value) <? 3 then timers p = []
  else exists t, timers p = [t] /\ due t = since + quiet /\ query t = Js.trim value.

End Autocomplete.

(* ------------------------------------------------------------------ *)
(** ** The earlier client, [src/app.js]                                 *)
(* ------------------------------------------------------------------ *)

Module AppJs.

(** [const STATE = { issues, isAdmin, filter }] *)
Record State : Type := mkState {
  issues : Json;
  isAdmin : bool;
  filter : string
}.

Record Card : Type := {
  card_image : string;
  card_status : string;
  card_type : string;
  card_location : string;
  card_map_link : option (Js.value * Js.value);
  card_date : option string;
  card_desc : string
}.

Inductive Feed : Type :=
| Cards (cards : list Card)
| EmptyMessage.

(** The JSON body of [POST /api/issues]: the two coordinates are the raw
    texts of the inputs. *)
Record NewIssue : Type := {
  ni_type : string;
  ni_location : string;
  ni_lat : string;
  ni_lng : string;
  ni_description : string;
  ni_image : option string;
  ni_date : string
}.

Inductive Effect : Type :=
| Toast (message type : string)
| Request (method url : string) (body : option NewIssue)
| ConsoleError
| FormReset
| GoHome.

Definition isWarning (e : Effect) : bool :=
  match e with Toast _ type => String.eqb type "warning" | _ => false end.

Record World : Type := mkWorld {
  STATE : State;
  totalIssuesEl : CityFix.Text;
  solvedIssuesEl : CityFix.Text;
  issueFeed : Feed;
  issue_type : string;
  issue_location : string;
  issue_lat : string;
  issue_lng : string;
  issue_desc : string;
  currentImageBase64 : option string;
  trace : list Effect
}.

Definition emit (e : Effect) (w : World) : World :=
  mkWorld (STATE w) (totalIssuesEl w) (solvedIssuesEl w) (issueFeed w)
          (issue_type w) (issue_location w) (issue_lat w) (issue_lng w)
          (issue_desc w) (currentImageBase64 w) (trace w ++ [e]).

Definition showToast (message type : string) : World -> World :=
  emit (Toast message type).

Definition set_issues (v : Json) (w : World) : World :=
  mkWorld (mkState v (isAdmin (STATE w)) (filter (STATE w)))
          (totalIssuesEl w) (solvedIssuesEl w) (issueFeed w)
          (issue_type w) (issue_location w) (issue_lat w) (issue_lng w)
          (issue_desc w) (currentImageBase64 w) (trace w).

Definition default_image : string :=
  "https://images.unsplash.com/photo-1598228723793-52759bba239c?q=80&w=2574&auto=format&fit=crop".

Definition issueCard (issue : Issue.t) : Card :=
  {| card_image := Js.or_default (Issue.image issue) default_image;
     card_status := Issue.status issue;
     card_type := Issue.type issue;
     card_location := Issue.location issue;
     card_map_link :=
       if Js.truthy (Issue.lat issue)
       then Some (Issue.lat issue, Issue.lng issue) else None;
     card_date := Issue.date issue;
     card_desc := Issue.description issue |}.

(** [renderHome]: two counters, then the cards of the display subset; the
    bool tells whether it returned ([false]: [.filter] threw). *)
Definition renderHome (w : World) : bool * World :=
  match issues (STATE w) with
  | JArray l =>
      let shown := if String.eqb (filter (STATE w)) "all" then l
                   else List.filter (CityFix.statusIs (filter (STATE w))) l in
      let feed := match shown with
                  | [] => EmptyMessage
                  | _ => Cards (map issueCard shown)
                  end in
      (true,
       mkWorld (STATE w) (CityFix.Num (length l))
               (CityFix.Num (length (List.filter (CityFix.statusIs "solved") l)))
               feed
               (issue_type w) (issue_location w) (issue_lat w) (issue_lng w)
               (issue_desc w) (currentImageBase64 w) (trace w))
  | JObject fields =>
      (false,
       mkWorld (STATE w) (CityFix.objectLength fields) (solvedIssuesEl w) (issueFeed w)
               (issue_type w) (issue_location w) (issue_lat w) (issue_lng w)
               (issue_desc w) (currentImageBase64 w) (trace w))
  end.

(** The click listener of a filter button. *)
Definition on_filter_click (f : string) (w : World) : bool * World :=
  renderHome
    (mkWorld (mkState (issues (STATE w)) (isAdmin (STATE w)) f)
             (totalIssuesEl w) (solvedIssuesEl w) (issueFeed w)
             (issue_type w) (issue_location w) (issue_lat w) (issue_lng w)
             (issue_desc w) (currentImageBase64 w) (trace w)).

(** The [catch] of [fetchIssues]. *)
Definition fetchIssues_catch (w : World) : World :=
  emit ConsoleError (showToast "Error connecting to server" "danger" w).

Definition fetchIssues_request : World -> World :=
  emit (Request "GET" "/api/issues" None).

(** [fetchIssues] from the point where the response arrives; [res.ok] is
    not consulted. *)
Definition fetchIssues_resume (r : FetchResult Json) (w : World) : World :=
  match r with
  | NetworkFailure => fetchIssues_catch w
  | Response _ None => fetchIssues_catch w
  | Response _ (Some parsed) =>
      match renderHome (set_issues parsed w) with
      | (true, w') => w'
      | (false, w') => fetchIssues_catch w'
      end
  end.

(** The submit handler of the report form up to its [await]: the request
    is built from the inputs as they are and sent. *)
Definition report_submit (now : string) (w : World) : World :=
  emit (Request "POST" "/api/issues"
          (Some {| ni_type := issue_type w;
                   ni_location := issue_location w;
                   ni_lat := issue_lat w;
                   ni_lng := issue_lng w;
                   ni_description := issue_desc w;
                   ni_image := currentImageBase64 w;
                   ni_date := now |})) w.

End AppJs.

(* ------------------------------------------------------------------ *)
(** ** What the specification counts                                    *)
(* ------------------------------------------------------------------ *)

(** The number of issues of a collection that are in a given status,
    counted one issue at a time. *)
Fixpoint countStatus (s : string) (issues : list Issue.t) : nat :=
  match issues with
  | [] => 0
  | i :: rest =>
      (if String.eqb (Issue.status i) s then 1 else 0) + countStatus s rest
  end.

(** An issue has both coordinate fields when neither is missing. *)
Definition bothPresent (i : Issue.t) : bool :=
  Js.present (Issue.lat i) && Js.present (Issue.lng i).

(** The number of issues of a collection with both coordinate fields. *)
Fixpoint countPresent (issues : list Issue.t) : nat :=
  match issues with
  | [] => 0
  | i :: rest => (if bothPresent i then 1 else 0) + countPresent rest
  end.

(** An issue is shown in a feed when one of the cards is its card. *)
Definition inFeed (i : Issue.t) (f : CityFix.Feed) : Prop :=
  match f with
  | CityFix.Cards cards => In (CityFix.issueCard i) cards
  | CityFix.EmptyMessage => False
  end.

(** An issue has a marker on a map when a marker stands at its coordinates
    with its popup. *)
Definition hasMarker (i : Issue.t) (m : Leaflet.Map) : Prop :=
  exists k, In k (Leaflet.markers m) /\
            Leaflet.latlng k = (Issue.lat i, Issue.lng i) /\
            Leaflet.popup_type (Leaflet.popup k) = Issue.type i /\
            Leaflet.popup_location (Leaflet.popup k) = Issue.location i.

(** The markers one pass of the marker loop creates, the first one stamped
    after [n]. *)
Fixpoint markersFor (n : nat) (issues : list Issue.t) : list Leaflet.Marker :=
  match issues with
  | [] => []
  | i :: rest =>
      if CityFix.hasCoordinates i
      then CityFix.newMarker (S n) i :: markersFor (S n) rest
      else markersFor n rest
  end.

(** The marker loop gets past an issue when the issue fails the test of
    the loop or Leaflet accepts its coordinates ... *)
Definition plottableIssue (i : Issue.t) : bool :=
  negb (CityFix.hasCoordinates i) || negb (CityFix.invalidLatLng i).

(** ... and past a whole collection when it gets past every issue. *)
Definition plottable (issues : list Issue.t) : bool :=
  forallb plottableIssue issues.

(** The issues the marker loop gets past: the ones before the first issue
    whose coordinates Leaflet rejects, all of them when there is none. *)
Fixpoint reached (issues : list Issue.t) : list Issue.t :=
  match issues with
  | [] => []
  | i :: rest => if plottableIssue i then i :: reached rest else []
  end.

(** The markers of a page's main map. *)
Definition markersOnMap (w : CityFix.World) : list Leaflet.Marker :=
  match CityFix.mainMap w with
  | Some m => Leaflet.markers m
  | None => []
  end.

(** Between two reactions the markers on the main map are the ones kept in
    [issueMarkers], and no stamp is ahead of the counter. *)
Definition mapInSync (w : CityFix.World) : Prop :=
  exists m, CityFix.mainMap w = Some m /\
            Leaflet.markers m = CityFix.issueMarkers w /\
            Forall (fun l => Leaflet.layer_stamp l <= CityFix.lastId w) (Leaflet.layers m).

(** The main map rendered again and again: before each render the
    collection is replaced by the next one of the list. *)
Definition rerender (collections : list (list Issue.t)) (w : CityFix.World)
  : CityFix.World :=
  fold_left
    (fun w l =>
       CityFix.after CityFix.renderMainMap
         (CityFix.set_state (STATE.set_issues (JArray l) (CityFix.state w)) w))
    collections w.

(* ------------------------------------------------------------------ *)
(** ** Concrete pages and payloads                                      *)
(* ------------------------------------------------------------------ *)

Module Sample.

Definition a1 : Issue.t :=
  Issue.mk "a1" "pothole" "MG Road" (Js.number (129 # 10)) (Js.number (776 # 10))
           "deep pothole" None (Some "2024-01-15T10:00:00.000Z") "solved"
           (Some "asha") 20.

Definition b2 : Issue.t :=
  Issue.mk "b2" "garbage" "Church Street" Js.null Js.null
           "overflowing bin" None (Some "2024-01-16T08:30:00.000Z") "pending"
           None 0.

(** An issue on the equator: both coordinates are there, one of them is 0. *)
Definition z0 : Issue.t :=
  Issue.mk "z0" "streetlight" "Equator Road" (Js.number 0) (Js.number (7759 # 100))
           "lamp out" None (Some "2024-01-17T19:00:00.000Z") "pending"
           None 0.

Definition asha : User.t := User.mk "u1" "asha" 30 3 1.

Definition blank : CityFix.Dom :=
  CityFix.mkDom CityFix.Blank CityFix.Blank CityFix.Blank CityFix.EmptyMessage
                CityFix.NoIssuesRow CityFix.NoReporters CityFix.Guest
                "" "" "" "" "".

(** The page as the script leaves it before [init]: the initial [STATE], no
    map yet. *)
Definition page0 : CityFix.World :=
  CityFix.mkWorld (STATE.mk (JArray []) [] None false "all") blank None None []
                  None 0 [].

Definition withIssues (l : list Issue.t) (w : CityFix.World) : CityFix.World :=
  CityFix.set_state (STATE.set_issues (JArray l) (CityFix.state w)) w.

Definition withFilter (f : string) (w : CityFix.World) : CityFix.World :=
  CityFix.set_state (STATE.set_filter f (CityFix.state w)) w.

Definition withUser (u : User.t) (w : CityFix.World) : CityFix.World :=
  CityFix.set_cityfix_user (Some u)
    (CityFix.set_state (STATE.set_currentUser (Some u) (CityFix.state w)) w).

(** [page0] with its main map initialised. *)
Definition mapped : CityFix.World := CityFix.after CityFix.initMainMap page0.

(** The report form filled in, with the two coordinate inputs as given. *)
Definition form (lat lng : string) : CityFix.World :=
  CityFix.set_dom
    (CityFix.mkDom CityFix.Blank CityFix.Blank CityFix.Blank CityFix.EmptyMessage
                   CityFix.NoIssuesRow CityFix.NoReporters CityFix.Guest
                   "pothole" "MG Road" lat lng "deep pothole") page0.

Definition appPage (l : Json) (lat lng : string) : AppJs.World :=
  AppJs.mkWorld (AppJs.mkState l false "all") CityFix.Blank CityFix.Blank
                AppJs.EmptyMessage "pothole" "MG Road" lat lng "deep pothole"
                None [].

Definition serverError : FetchResult Json :=
  Response 500 (Some (JObject [("error", "database unavailable")])).

Definition unknownWithPoints : StatusUpdated :=
  {| su_issue_id := "zz"; su_status := "solved"; su_points_awarded := 20 |}.

Definition pointsForOther : PointsUpdated :=
  {| pu_user_id := "u2"; pu_points := 50; pu_added := 20 |}.

(** A page that holds one issue, and the same page for the earlier client. *)
Definition cached : CityFix.World := withIssues [a1] page0.

Definition appCached : AppJs.World := appPage (JArray [a1]) "" "".

(** A page with its map, holding the issue on the equator and one more. *)
Definition equator : CityFix.World := withIssues [z0; a1] mapped.

(** A page on which asha is logged in. *)
Definition session : CityFix.World := withUser asha page0.

End Sample.

(* ------------------------------------------------------------------ *)
(** ** Session, admin mode and navigation of the CityFix client         *)
(* ------------------------------------------------------------------ *)

Module Shell.

(** The parts of the document that the functions below touch and that
    [CityFix.Dom] does not hold. *)
Inductive Modal : Type := LoginModal | RegisterModal | RewardsModal.

Record Modals : Type := mkModals {
  login_modal : bool;             (* class 'active' of #login-modal *)
  register_modal : bool;
  rewards_modal : bool;
  overflow_hidden : bool;         (* document.body.style.overflow = 'hidden' *)
  profile_menu : bool             (* class 'active' of #profile-menu *)
}.

Record AdminDom : Type := mkAdminDom {
  admin_auth_hidden : bool;       (* class 'hidden' of #admin-auth *)
  admin_dash_hidden : bool;       (* class 'hidden' of #admin-dashboard *)
  admin_password : string;        (* value of #admin-password *)
  reward_user_select : string;    (* value of #reward-user-select *)
  reward_select : string          (* value of #reward-select *)
}.

Record Nav : Type := mkNav {
  hash : string;                  (* window.location.hash *)
  links : list (string * bool);   (* data-target and class 'active' of each link *)
  views : list (string * bool)    (* id and class 'active' of each .view *)
}.

Record Page : Type := mkPage {
  world : CityFix.World;
  modals : Modals;
  admin : AdminDom;
  nav : Nav
}.

Definition set_world (v : CityFix.World) (p : Page) : Page :=
  mkPage v (modals p) (admin p) (nav p).
Definition set_modals (v : Modals) (p : Page) : Page :=
  mkPage (world p) v (admin p) (nav p).
Definition set_admin (v : AdminDom) (p : Page) : Page :=
  mkPage (world p) (modals p) v (nav p).
Definition set_nav (v : Nav) (p : Page) : Page :=
  mkPage (world p) (modals p) (admin p) v.

(** A reaction of the CityFix core, run on the page. *)
Definition onWorld (f : CityFix.World -> CityFix.World) (p : Page) : Page :=
  set_world (f (world p)) p.

Definition liftM (c : CityFix.M unit) (p : Page) : CityFix.Res unit * Page :=
  (fst (c (world p)), set_world (snd (c (world p))) p).

(** A request whose body is not a new issue. *)
Inductive Body : Type :=
| Credentials (email password : string)
| Registration (username email password : string)
| NewStatus (status : string)
| RewardFor (user_id reward_id : string)
| NoBody.

Record Call : Type := { call_method : string; call_url : string; call_body : Body }.

(** *** Modals *)

Definition showModal (m : Modal) (p : Page) : Page :=
  let ms := modals p in
  set_modals
    (match m with
     | LoginModal =>
         mkModals true (register_modal ms) (rewards_modal ms) true (profile_menu ms)
     | RegisterModal =>
         mkModals (login_modal ms) true (rewards_modal ms) true (profile_menu ms)
     | RewardsModal =>
         mkModals (login_modal ms) (register_modal ms) true true (profile_menu ms)
     end) p.

Definition hideModal (m : Modal) (p : Page) : Page :=
  let ms := modals p in
  set_modals
    (match m with
     | LoginModal =>
         mkModals false (register_modal ms) (rewards_modal ms) false (profile_menu ms)
     | RegisterModal =>
         mkModals (login_modal ms) false (rewards_modal ms) false (profile_menu ms)
     | RewardsModal =>
         mkModals (login_modal ms) (register_modal ms) false false (profile_menu ms)
     end) p.

Definition toggleProfileMenu (p : Page) : Page :=
  let ms := modals p in
  set_modals
    (mkModals (login_modal ms) (register_modal ms) (rewards_modal ms)
              (overflow_hidden ms) (negb (profile_menu ms))) p.

(** *** Session *)

(** The first lines of [init]: the saved user, when there is one, becomes
    the session user. *)
Definition init_session (w : CityFix.World) : CityFix.World :=
  match CityFix.cityfix_user w with
  | Some u =>
      CityFix.updateUserUI
        (CityFix.set_state (STATE.set_currentUser (Some u) (CityFix.state w)) w)
  | None => w
  end.

(** The globals as the script declares them, on a document whose rendered
    regions are [d], with [stored] in local storage. *)
Definition startWorld (d : CityFix.Dom) (stored : option User.t) : CityFix.World :=
  CityFix.mkWorld (STATE.mk (JArray []) [] None false "all") d stored None [] None 0 [].

(** A reload: the script starts again on the document as the markup gives
    it; only local storage is carried over. *)
Definition reload (markup : Page) (p : Page) : Page :=
  set_world
    (init_session
       (startWorld (CityFix.dom (world markup)) (CityFix.cityfix_user (world p))))
    markup.

(** How the login and register requests can end: [fetch] or [res.json()]
    rejects; the answer is 2xx and carries [data.user]; or it is not 2xx and
    may carry [data.error]. *)
Inductive AuthAnswer : Type :=
| AuthUnreachable
| AuthGranted (user : User.t)
| AuthRefused (error : option string).

Definition login_call (email password : string) : Call :=
  {| call_method := "POST"; call_url := "/api/auth/login";
     call_body := Credentials email password |}.

Definition register_call (username email password : string) : Call :=
  {| call_method := "POST"; call_url := "/api/auth/register";
     call_body := Registration username email password |}.

(** [STATE.currentUser = data.user], stored, and shown. *)
Definition signIn (u : User.t) (w : CityFix.World) : CityFix.World :=
  CityFix.updateUserUI
    (CityFix.set_cityfix_user (Some u)
       (CityFix.set_state (STATE.set_currentUser (Some u) (CityFix.state w)) w)).

Definition login_resume (a : AuthAnswer) (p : Page) : Page :=
  match a with
  | AuthGranted u =>
      onWorld
        (CityFix.showToast
           (CityFix.Plain (String.append "Welcome back, "
                             (String.append (User.username u) "!"))) "success")
        (hideModal LoginModal (onWorld (signIn u) p))
  | AuthRefused error =>
      onWorld (CityFix.showToast (CityFix.Plain (Js.or_default error "Login failed"))
                 "danger") p
  | AuthUnreachable =>
      onWorld (CityFix.showToast (CityFix.Plain "Connection error") "danger") p
  end.

Definition register_resume (a : AuthAnswer) (p : Page) : Page :=
  match a with
  | AuthGranted u =>
      onWorld
        (CityFix.showToast
           (CityFix.Plain (String.append "Welcome to CityFix, "
                             (String.append (User.username u) "!"))) "success")
        (hideModal RegisterModal (onWorld (signIn u) p))
  | AuthRefused error =>
      onWorld (CityFix.showToast
                 (CityFix.Plain (Js.or_default error "Registration failed")) "danger") p
  | AuthUnreachable =>
      onWorld (CityFix.showToast (CityFix.Plain "Connection error") "danger") p
  end.

Definition logout (p : Page) : Page :=
  toggleProfileMenu
    (onWorld
       (fun w =>
          CityFix.showToast (CityFix.Plain "Logged out successfully") "info"
            (CityFix.updateUserUI
               (CityFix.set_cityfix_user None
                  (CityFix.set_state
                     (STATE.set_currentUser None (CityFix.state w)) w)))) p).

(** *** Admin mode *)

Definition set_isAdmin (b : bool) (w : CityFix.World) : CityFix.World :=
  CityFix.set_state
    (STATE.mk (STATE.issues (CityFix.state w)) (STATE.users (CityFix.state w))
              (STATE.currentUser (CityFix.state w)) b (STATE.filter (CityFix.state w))) w.

Definition get (url : string) : CityFix.World -> CityFix.World :=
  CityFix.emit (CityFix.Request "GET" url None).

(** [renderAdmin]: the login panel without admin mode; with it, the
    dashboard, its statistics request, the table, and the two requests for
    the users (the users tab and the reward form). *)
Definition renderAdmin (p : Page) : CityFix.Res unit * Page :=
  let a := admin p in
  if negb (STATE.isAdmin (CityFix.state (world p))) then
    (CityFix.Ret tt,
     set_admin (mkAdminDom false true (admin_password a) (reward_user_select a)
                           (reward_select a)) p)
  else
    let p1 := set_admin (mkAdminDom true false (admin_password a)
                                    (reward_user_select a) (reward_select a)) p in
    let p2 := onWorld (get "/api/admin/stats") p1 in
    match liftM CityFix.renderAdminTable p2 with
    | (CityFix.Ret _, p3) =>
        (CityFix.Ret tt,
         onWorld (get "/api/admin/users") (onWorld (get "/api/admin/users") p3))
    | (CityFix.Throw e, p3) => (CityFix.Throw e, p3)
    end.

(** The submit listener of the admin form. *)
Definition admin_login (p : Page) : CityFix.Res unit * Page :=
  if String.eqb (admin_password (admin p)) "admin123" then
    match renderAdmin (onWorld (set_isAdmin true) p) with
    | (CityFix.Ret _, p1) =>
        (CityFix.Ret tt,
         onWorld (CityFix.showToast (CityFix.Plain "Welcome, Admin!") "success") p1)
    | (CityFix.Throw e, p1) => (CityFix.Throw e, p1)
    end
  else
    (CityFix.Ret tt,
     onWorld (CityFix.showToast (CityFix.Plain "Incorrect password") "danger") p).

Definition admin_logout (p : Page) : CityFix.Res unit * Page :=
  renderAdmin (onWorld (set_isAdmin false) p).

(** *** Admin actions *)

Definition updateStatus_call (id status : string) : Call :=
  {| call_method := "PUT";
     call_url := String.append "/api/issues/" (String.append id "/status");
     call_body := NewStatus status |}.

(** [updateStatus] once the PUT has settled: the answer is not inspected. *)
Definition updateStatus_resume (status : string) (r : FetchResult unit)
  (w : CityFix.World) : CityFix.World :=
  match r with
  | NetworkFailure =>
      CityFix.showToast (CityFix.Plain "Failed to update") "danger"
        (CityFix.emit (CityFix.ConsoleError "") w)
  | Response _ _ =>
      CityFix.fetchIssues_request
        (CityFix.showToast (CityFix.StatusUpdatedTo status) "success" w)
  end.

(** What [updateStatus] and [deleteIssue] chain to the refetch. *)
Definition refreshAdmin : CityFix.M unit :=
  CityFix.bind CityFix.renderAdminTable
    (fun _ => CityFix.act (get "/api/admin/stats")).

(** [deleteIssue]: [confirmed] is what the confirm dialog returned. *)
Definition deleteIssue_call (id : string) (confirmed : bool) : option Call :=
  if confirmed then
    Some {| call_method := "DELETE";
            call_url := String.append "/api/issues/" id;
            call_body := NoBody |}
  else None.

Definition deleteIssue_resume (r : FetchResult unit) (w : CityFix.World)
  : CityFix.World :=
  match r with
  | NetworkFailure => CityFix.showToast (CityFix.Plain "Failed to delete") "danger" w
  | Response _ _ =>
      CityFix.fetchIssues_request
        (CityFix.showToast (CityFix.Plain "Report deleted") "success" w)
  end.

(** [giveReward] up to its [await]: the page, and the request if one
    leaves. *)
Definition giveReward (p : Page) : Page * option Call :=
  let userId := reward_user_select (admin p) in
  let rewardId := reward_select (admin p) in
  if negb (Js.truthy (Js.str userId)) || negb (Js.truthy (Js.str rewardId)) then
    (onWorld (CityFix.showToast (CityFix.Plain "Please select a user and reward")
                "warning") p, None)
  else
    (p, Some {| call_method := "POST"; call_url := "/api/admin/give-reward";
                call_body := RewardFor userId rewardId |}).

(** The rest of [giveReward]; the body of the answer is [data.error]. *)
Definition giveReward_resume (r : FetchResult (option string)) (w : CityFix.World)
  : CityFix.World :=
  match r with
  | Response http_status (Some error) =>
      if ok http_status then
        get "/api/admin/users"
          (get "/api/admin/users"
             (CityFix.showToast (CityFix.Plain "Reward given successfully!") "success" w))
      else
        CityFix.showToast
          (CityFix.Plain (Js.or_default error "Failed to give reward")) "danger" w
  | _ => CityFix.showToast (CityFix.Plain "Server error") "danger" w
  end.

(** *** Navigation *)

(** [hash.substring(1)] *)
Definition dropFirst (s : string) : string :=
  match s with
  | EmptyString => EmptyString
  | String _ rest => rest
  end.

(** [window.location.hash || '#home'], without its first character. *)
Definition target (n : Nav) : string :=
  dropFirst (if String.eqb (hash n) "" then "#home" else hash n).

Definition viewId (target : string) : string := String.append target "-view".

(** [router]: links and views are switched, then the view's own refresh
    runs.  The deferred [invalidateSize] calls only recompute a layout. *)
Definition router (p : Page) : CityFix.Res unit * Page :=
  let t := target (nav p) in
  let p1 :=
    set_nav
      (mkNav (hash (nav p))
             (map (fun l => (fst l, String.eqb (fst l) t)) (links (nav p)))
             (map (fun v => (fst v, String.eqb (fst v) (viewId t))) (views (nav p))))
      p in
  let p2 := if String.eqb t "home" then onWorld CityFix.fetchIssues_request p1 else p1 in
  match
    (if String.eqb t "map" then
       match CityFix.mainMap (world p2) with
       | Some _ => liftM CityFix.renderMainMap p2
       | None => (CityFix.Ret tt, p2)
       end
     else (CityFix.Ret tt, p2))
  with
  | (CityFix.Throw e, p3) => (CityFix.Throw e, p3)
  | (CityFix.Ret _, p3) =>
      match (if String.eqb t "admin" then renderAdmin p3 else (CityFix.Ret tt, p3)) with
      | (CityFix.Throw e, p4) => (CityFix.Throw e, p4)
      | (CityFix.Ret _, p4) =>
          (CityFix.Ret tt,
           if String.eqb t "leaderboard" then
             onWorld (get "/api/rewards") (onWorld CityFix.fetchLeaderboard_request p4)
           else p4)
      end
  end.

(** *** Everything that can happen to the session *)

Inductive Reaction : Type :=
| NewIssue (issue : Issue.t)
| StatusChanged (data : StatusUpdated)
| Deleted (data : IssueDeleted)
| Points (data : PointsUpdated)
| IssuesAnswer (r : FetchResult Json)
| LeaderboardAnswer (r : FetchResult (list User.t))
| FilterClick (filter : string)
| ReportSubmit (now : string)
| ReportAnswer (r : FetchResult unit)
| LoginAnswer (a : AuthAnswer)
| RegisterAnswer (a : AuthAnswer)
| Logout
| AdminLogin
| AdminLogout
| StatusAnswer (status : string) (r : FetchResult unit)
| DeleteAnswer (r : FetchResult unit)
| RewardClick
| RewardAnswer (r : FetchResult (option string))
| Navigate (hash : string)
| Reload (markup : Page).

Definition react (p : Page) (e : Reaction) : Page :=
  match e with
  | NewIssue issue => snd (liftM (CityFix.on_new_issue issue) p)
  | StatusChanged data => snd (liftM (CityFix.on_status_updated data) p)
  | Deleted data => snd (liftM (CityFix.on_issue_deleted data) p)
  | Points data => onWorld (CityFix.on_points_updated data) p
  | IssuesAnswer r => snd (liftM (CityFix.fetchIssues_resume r) p)
  | LeaderboardAnswer r => snd (liftM (CityFix.fetchLeaderboard_resume r) p)
  | FilterClick filter => snd (liftM (CityFix.on_filter_click filter) p)
  | ReportSubmit now => onWorld (CityFix.report_submit now) p
  | ReportAnswer r => onWorld (CityFix.report_submit_resume r) p
  | LoginAnswer a => login_resume a p
  | RegisterAnswer a => register_resume a p
  | Logout => logout p
  | AdminLogin => snd (admin_login p)
  | AdminLogout => snd (admin_logout p)
  | StatusAnswer status r => onWorld (updateStatus_resume status r) p
  | DeleteAnswer r => onWorld (deleteIssue_resume r) p
  | RewardClick => fst (giveReward p)
  | RewardAnswer r => onWorld (giveReward_resume r) p
  | Navigate h =>
      snd (router (set_nav (mkNav h (links (nav p)) (views (nav p))) p))
  | Reload markup => reload markup p
  end.

(** The stored session and the session user agree. *)
Definition inSession (p : Page) : Prop :=
  CityFix.cityfix_user (world p) = STATE.currentUser (CityFix.state (world p)).

End Shell.

(* ------------------------------------------------------------------ *)
(** ** Keyboard navigation of the suggestions                           *)
(* ------------------------------------------------------------------ *)

Module Keys.

(** The suggestion items, in document order: whether each one carries the
    class 'active'. *)









End Keys.

(* ------------------------------------------------------------------ *)
(** ** Counting keystrokes and searches                                 *)
(* ------------------------------------------------------------------ *)

Definition isInput (e : Autocomplete.Event) : bool :=
  match e with
  | Autocomplete.Input _ => true
  | _ => false
  end.

(** The keystrokes among some events. *)
Definition keystrokes (events : list Autocomplete.Event) : nat :=
  length (List.filter isInput events).

(** Keystrokes that are each followed by a full quiet period. *)
Definition paused (keys : list (nat * string)) : Prop :=
  Forall (fun k => Autocomplete.quiet <= fst k) keys.

Definition longEnough (q : string) : bool := 3 <=? String.length q.

Definition allWhitespace (s : string) : Prop :=
  Forall (fun c => Js.isWhitespace c = true) (list_ascii_of_string s).



(** The number of cards of a feed. *)
Definition cardCount (f : CityFix.Feed) : nat :=
  match f with
  | CityFix.Cards cards => length cards
  | CityFix.EmptyMessage => 0
  end.

(** A reaction leaves the session alone: the stored user and the session
    user are the ones from before. *)
Definition sameSession (w w' : CityFix.World) : Prop :=
  CityFix.cityfix_user w' = CityFix.cityfix_user w /\
  STATE.currentUser (CityFix.state w') = STATE.currentUser (CityFix.state w).

Definition keepsSession {A} (c : CityFix.M A) : Prop :=
  forall w, sameSession w (snd (c w)).

(** A page of the whole client around a CityFix world, everything else
    closed and empty. *)
Definition pageOf (w : CityFix.World) : Shell.Page :=
  Shell.mkPage w (Shell.mkModals false false false false false)
               (Shell.mkAdminDom false true "" "" "")
               (Shell.mkNav "" [("home", true); ("map", false); ("report", false);
                                ("leaderboard", false); ("admin", false)]
                            [("home-view", true); ("map-view", false);
                             ("report-view", false); ("leaderboard-view", false);
                             ("admin-view", false)]).

(* ------------------------------------------------------------------ *)
(** ** The pin of the picker map                                        *)
(* ------------------------------------------------------------------ *)

Module Picker.

(** A marker on the picker map: its identity and where it stands.  The
    positions that reach the picker are numbers: the point of a click, or
    the coordinates of a suggestion read through [parseFloat]. *)
Record Pin : Type := { pin_stamp : nat; pin_at : Js.value * Js.value }.

Record t : Type := mk {
  onMap : list Pin;               (* the marker layers of the picker map *)
  held : option Pin;              (* let pickerMarker (let marker in app.js) *)
  lastStamp : nat
}.

(** The picker map before any click. *)
Definition empty : t := mk [] None 0.

Definition removeLayer (k : Pin) (pins : list Pin) : list Pin :=
  List.filter (fun x => negb (pin_stamp x =? pin_stamp k)) pins.

(** The pin logic shared by the click listener of the map and by
    [selectLocation]: the held marker is taken off the map, a new one is put
    at the position and held. *)
Definition place (at_ : Js.value * Js.value) (p : t) : t :=
  let cleared := match held p with
                 | Some k => removeLayer k (onMap p)
                 | None => onMap p
                 end in
  let pin := {| pin_stamp := S (lastStamp p); pin_at := at_ |} in
  mk (cleared ++ [pin]) (Some pin) (S (lastStamp p)).

(** What an accepted submission does to the pin in the CityFix client ... *)
Definition accepted (p : t) : t :=
  match held p with
  | Some k => mk (removeLayer k (onMap p)) None (lastStamp p)
  | None => p
  end.

(** ... and in the earlier client: [marker = null]. *)
Definition accepted_appjs (p : t) : t :=
  mk (onMap p) None (lastStamp p).

Inductive Event : Type :=
| Place (at_ : Js.value * Js.value)   (* a click on the map or a chosen suggestion *)
| Accepted.                           (* a 2xx answer to the report *)

Definition step (p : t) (e : Event) : t :=
  match e with
  | Place at_ => place at_ p
  | Accepted => accepted p
  end.

Definition step_appjs (p : t) (e : Event) : t :=
  match e with
  | Place at_ => place at_ p
  | Accepted => accepted_appjs p
  end.

(** A report pinned at a position and accepted, [n] times over. *)
Fixpoint rounds (at_ : Js.value * Js.value) (n : nat) : list Event :=
  match n with
  | 0 => []
  | S n' => Place at_ :: Accepted :: rounds at_ n'
  end.

(** The map shows the held pin and nothing else. *)
Definition tidy (p : t) : Prop :=
  onMap p = match held p with Some k => [k] | None => [] end.

End Picker.

(* ------------------------------------------------------------------ *)
(** ** More concrete pages and payloads                                 *)
(* ------------------------------------------------------------------ *)

Module More.

Definition c3 : Issue.t :=
  Issue.mk "c3" "water" "Brigade Road" (Js.number (1297 # 100)) (Js.number (7761 # 100))
           "leaking pipe" None (Some "2024-01-18T07:45:00.000Z") "in-progress"
           (Some "ravi") 10.


(** An issue whose coordinates are numbers written as text, the way the
    report form of the earlier client sends them. *)
Definition e5 : Issue.t :=
  Issue.mk "65a1f0c2e4b7" "road" "Cubbon Park" (Js.str "12.97") (Js.str "77.59")
           "broken kerb" None None "pending" None 0.

(** A second issue that carries the id of [a1]. *)
Definition a1again : Issue.t :=
  Issue.mk "a1" "pothole" "MG Road" Js.null Js.null
           "reported twice" None (Some "2024-01-15T11:30:00.000Z") "pending"
           None 0.

(** A page that holds the id "a1" twice, neither time first. *)
Definition busy : CityFix.World :=
  Sample.withIssues [Sample.b2; Sample.a1; c3; a1again] Sample.page0.




(** A page that holds an issue with a long id and no reporter, and [a1]. *)
Definition desk : CityFix.World := Sample.withIssues [e5; Sample.a1] Sample.page0.

(** A page whose storage holds asha while the session user is not set. *)
Definition stored : CityFix.World :=
  CityFix.set_cityfix_user (Some Sample.asha) Sample.page0.

Definition startWork : StatusUpdated :=
  {| su_issue_id := "a1"; su_status := "in-progress"; su_points_awarded := 10 |}.


Definition pointsForAsha : PointsUpdated :=
  {| pu_user_id := "u1"; pu_points := 50; pu_added := 20 |}.

(** The page of [Sample.cached] after the list request was answered with
    the error object. *)
Definition corrupted : CityFix.World :=
  CityFix.after (CityFix.fetchIssues_resume Sample.serverError) Sample.cached.

Definition pendingOnly : CityFix.World :=
  Sample.withFilter "pending" (Sample.withIssues [Sample.a1; Sample.b2] Sample.page0).

Definition adminPage (password : string) : Shell.Page :=
  Shell.set_admin (Shell.mkAdminDom false true password "" "") (pageOf Sample.cached).

Definition rewardPage (user reward : string) : Shell.Page :=
  Shell.set_admin (Shell.mkAdminDom true false "" user reward) (pageOf Sample.cached).

Definition at_ (hash : string) : Shell.Page :=
  Shell.set_nav
    (Shell.mkNav hash (Shell.links (Shell.nav (pageOf Sample.cached)))
                 (Shell.views (Shell.nav (pageOf Sample.cached))))
    (pageOf Sample.cached).

Definition day : list Shell.Reaction :=
  [Shell.Points pointsForAsha; Shell.NewIssue c3; Shell.Navigate "#leaderboard";
   Shell.Logout; Shell.LoginAnswer (Shell.AuthGranted Sample.asha);
   Shell.Reload (pageOf Sample.page0)].

End More.

(* ------------------------------------------------------------------ *)
(** ** Properties of the renderers                                      *)
(* ------------------------------------------------------------------ *)

Section Renderers.
Import CityFix.

Lemma countStatus_filter (s : string) (issues : list Issue.t) :
  length (List.filter (statusIs s) issues) = countStatus s issues.
Proof.
  induction issues as [|i rest IH]; simpl; [reflexivity|].
  unfold statusIs at 1. destruct (String.eqb (Issue.status i) s); simpl; auto.
Qed.

Lemma renderHome_array (w : World) (issues : list Issue.t) :
  STATE.issues (state w) = JArray issues ->
  renderHome w =
    (Ret tt,
     set_dom
       (set_issue_feed (feedHtml (filteredIssues (STATE.filter (state w)) issues))
          (set_solved_issues (Num (length (List.filter (statusIs "solved") issues)))
             (set_progress_issues
                (Num (length (List.filter (statusIs "in-progress") issues)))
                (set_total_issues (Num (length issues)) (dom w))))) w).
Proof. intros H. unfold renderHome. rewrite H. reflexivity. Qed.

(** The map renderer touches the map, the marker array and the stamp
    counter, and nothing else. *)
Lemma renderMainMap_frame (w : World) :
  state (after renderMainMap w) = state w /\
  dom (after renderMainMap w) = dom w /\
  cityfix_user (after renderMainMap w) = cityfix_user w /\
  trace (after renderMainMap w) = trace w.
Proof.
  unfold after, renderMainMap.
  destruct (mainMap w) as [m|]; [|simpl; auto].
  destruct (STATE.issues (state w)) as [issues|fields]; [|simpl; auto].
  destruct (forEach placeMarker issues (clearMarkers (issueMarkers w) m, [], lastId w))
    as [[[]|e] [[m2 placed] n]].
  - simpl; auto.
  - simpl; auto.
Qed.

Lemma reached_plottable (issues : list Issue.t) :
  plottable issues = true -> reached issues = issues.
Proof.
  induction issues as [|i rest IH]; simpl; [reflexivity|].
  destruct (plottableIssue i); simpl; [|discriminate].
  intros H. now rewrite IH.
Qed.

(** The marker loop, as a whole: the markers of the issues it gets past are
    appended to the map and to the array, and the counter moves past their
    stamps; it throws when Leaflet rejects a coordinate. *)
Lemma forEach_placeMarker (issues : list Issue.t) :
  forall (m : Leaflet.Map) (placed : list Leaflet.Marker) (n : nat),
    forEach placeMarker issues (m, placed, n) =
    ((if plottable issues then Ret tt else Throw (Error "Invalid LatLng object")),
     ({| Leaflet.layers :=
           Leaflet.layers m ++ map Leaflet.MarkerLayer (markersFor n (reached issues));
         Leaflet.view := Leaflet.view m |},
      placed ++ markersFor n (reached issues),
      n + length (markersFor n (reached issues)))).
Proof.
  induction issues as [|i rest IH]; intros m placed n; simpl.
  - rewrite !app_nil_r, Nat.add_0_r. destruct m; reflexivity.
  - unfold plottableIssue.
    destruct (hasCoordinates i) eqn:Hc; simpl.
    + destruct (invalidLatLng i); simpl.
      * rewrite !app_nil_r, Nat.add_0_r. destruct m; reflexivity.
      * rewrite IH, Hc. simpl. rewrite <- !app_assoc. simpl.
        f_equal. f_equal. lia.
    + rewrite IH, Hc. reflexivity.
Qed.


End Renderers.

(* ------------------------------------------------------------------ *)
(** ** The push-channel reactions                                       *)
(* ------------------------------------------------------------------ *)

Section Push.
Import CityFix.



Lemma find_unknown_id (id : string) (issues : list Issue.t) :
  (forall i, In i issues -> Issue.id i <> id) ->
  List.find (idIs id) issues = None.
Proof.
  intros H. induction issues as [|i rest IH]; simpl; [reflexivity|].
  unfold idIs at 1.
  destruct (String.eqb_spec (Issue.id i) id) as [E|_].
  - exfalso. apply (H i); [left; reflexivity|exact E].
  - apply IH. intros j Hj. apply H. right. exact Hj.
Qed.

(** C3, as the code has it: a [status_updated] event whose id matches no
    issue of the collection leaves the state, the rendered regions and the
    map as they were; the only thing it can still do is show the
    point-award notice, which it does exactly when [points_awarded] is
    positive. *)
Theorem status_updated_unknown_id
  (w : World) (issues : list Issue.t) (data : StatusUpdated) :
  STATE.issues (state w) = JArray issues ->
  (forall i, In i issues -> Issue.id i <> su_issue_id data) ->
  let w' := after (on_status_updated data) w in
  returns (on_status_updated data) w = true /\
  state w' = state w /\
  dom w' = dom w /\
  mainMap w' = mainMap w /\
  trace w' =
    trace w ++
    (if (0 <? su_points_awarded data)%Z
     then [Toast (PointsAwarded (su_points_awarded data)) "success"]
     else []).
Proof.
  intros H Hid w'. subst w'.
  unfold returns, after, on_status_updated, bind, when, act, ret.
  rewrite H, (find_unknown_id _ Hid).
  destruct (0 <? su_points_awarded data)%Z; simpl.
  - auto.
  - rewrite app_nil_r. auto.
Qed.

(** C4: a [points_updated] event for somebody else leaves the session user,
    the point balance and the stored session as they were, and sends the
    leaderboard request; when the leaderboard answers, the session user and
    the stored session are still the same. *)
Theorem points_updated_other_user
  (w : World) (u : User.t) (data : PointsUpdated) :
  STATE.currentUser (state w) = Some u ->
  User.id u <> pu_user_id data ->
  let w' := on_points_updated data w in
  STATE.currentUser (state w') = Some u /\
  option_map User.points (STATE.currentUser (state w')) = Some (User.points u) /\
  cityfix_user w' = cityfix_user w /\
  dom w' = dom w /\
  trace w' = trace w ++ [Request "GET" "/api/leaderboard" None] /\
  (forall r : FetchResult (list User.t),
      STATE.currentUser (state (after (fetchLeaderboard_resume r) w')) = Some u /\
      cityfix_user (after (fetchLeaderboard_resume r) w') = cityfix_user w).
Proof.
  intros Hu Hne w'. subst w'.
  unfold on_points_updated, isSessionUser. rewrite Hu.
  destruct (String.eqb_spec (User.id u) (pu_user_id data)) as [E|_]; [contradiction|].
  unfold fetchLeaderboard_request. simpl. rewrite Hu.
  repeat split; try reflexivity.
  - destruct r as [|st [parsed|]]; simpl; exact Hu.
  - destruct r as [|st [parsed|]]; reflexivity.
Qed.

End Push.

(* ------------------------------------------------------------------ *)
(** ** The main map                                                     *)
(* ------------------------------------------------------------------ *)

Section MainMap.
Import CityFix.

Lemma truthy_and (a b : Js.value) :
  Js.truthy (Js.and a b) = Js.truthy a && Js.truthy b.
Proof. unfold Js.and. destruct (Js.truthy a) eqn:E; simpl; auto. Qed.

Lemma truthy_present (v : Js.value) : Js.truthy v = true -> Js.present v = true.
Proof. destruct v; simpl; auto. Qed.

Lemma hasCoordinates_present (i : Issue.t) :
  hasCoordinates i = true -> bothPresent i = true.
Proof.
  unfold hasCoordinates, bothPresent. rewrite truthy_and.
  intros H. apply andb_prop in H as [Ha Hb].
  rewrite (truthy_present _ Ha), (truthy_present _ Hb). reflexivity.
Qed.

Lemma markers_app (l1 l2 : list Leaflet.Layer) (v1 v2 : Leaflet.View) :
  Leaflet.markers {| Leaflet.layers := l1 ++ l2; Leaflet.view := v1 |} =
  Leaflet.markers {| Leaflet.layers := l1; Leaflet.view := v2 |} ++
  Leaflet.markers {| Leaflet.layers := l2; Leaflet.view := v2 |}.
Proof. unfold Leaflet.markers. simpl. apply flat_map_app. Qed.

Lemma markers_of_marker_layers (ks : list Leaflet.Marker) (v : Leaflet.View) :
  Leaflet.markers {| Leaflet.layers := map Leaflet.MarkerLayer ks; Leaflet.view := v |} = ks.
Proof.
  unfold Leaflet.markers. simpl.
  induction ks as [|k ks IH]; simpl; [reflexivity|]. now rewrite IH.
Qed.

Lemma markersFor_length (issues : list Issue.t) (n : nat) :
  length (markersFor n issues) = length (List.filter hasCoordinates issues).
Proof.
  revert n. induction issues as [|i rest IH]; intros n; simpl; [reflexivity|].
  destruct (hasCoordinates i); simpl; auto.
Qed.

Lemma markersFor_stamps (issues : list Issue.t) (n : nat) :
  Forall (fun k => n < Leaflet.stamp k <= n + length (markersFor n issues))
         (markersFor n issues).
Proof.
  revert n. induction issues as [|i rest IH]; intros n; simpl; [constructor|].
  destruct (hasCoordinates i); simpl; [|apply IH].
  constructor; [simpl; lia|].
  eapply Forall_impl; [|apply IH]. simpl. intros k Hk. lia.
Qed.

Lemma markersFor_origin (issues : list Issue.t) (n : nat) (k : Leaflet.Marker) :
  In k (markersFor n issues) ->
  exists i s, In i issues /\ hasCoordinates i = true /\ k = newMarker s i.
Proof.
  revert n. induction issues as [|i rest IH]; intros n; simpl; [tauto|].
  destruct (hasCoordinates i) eqn:E; simpl.
  - intros [<-|H].
    + exists i, (S n). auto.
    + destruct (IH _ H) as (j & s & Hj & Hc & ->). exists j, s. auto.
  - intros H. destruct (IH _ H) as (j & s & Hj & Hc & ->). exists j, s. auto.
Qed.

Lemma markersFor_covers (issues : list Issue.t) (n : nat) (i : Issue.t) :
  In i issues -> hasCoordinates i = true ->
  exists s, In (newMarker s i) (markersFor n issues).
Proof.
  revert n. induction issues as [|j rest IH]; intros n; simpl; [tauto|].
  intros [->|H] Hc.
  - rewrite Hc. exists (S n). left. reflexivity.
  - destruct (hasCoordinates j).
    + destruct (IH (S n) H Hc) as [s Hs]. exists s. right. exact Hs.
    + apply IH; assumption.
Qed.


(** Clearing removes from the map every layer that carries the stamp of one
    of the markers of the array. *)
Lemma clearMarkers_layers (placed : list Leaflet.Marker) :
  forall m : Leaflet.Map,
    Leaflet.layers (clearMarkers placed m) =
    List.filter
      (fun l => negb (existsb (fun k => Leaflet.layer_stamp l =? Leaflet.stamp k) placed))
      (Leaflet.layers m) /\
    Leaflet.view (clearMarkers placed m) = Leaflet.view m.
Proof.
  unfold clearMarkers.
  induction placed as [|k rest IH]; intros m; simpl.
  - split; [|reflexivity].
    induction (Leaflet.layers m) as [|l ls IHl]; simpl; [reflexivity|]. now rewrite <- IHl.
  - destruct (IH (Leaflet.removeLayer k m)) as [-> ->]. simpl. split; [|reflexivity].
    induction (Leaflet.layers m) as [|l ls IHl]; simpl; [reflexivity|].
    destruct (Leaflet.layer_stamp l =? Leaflet.stamp k); simpl; [exact IHl|].
    destruct (existsb _ rest); simpl; [exact IHl|]. now rewrite IHl.
Qed.

Lemma clearMarkers_in_sync (m : Leaflet.Map) :
  Leaflet.markers (clearMarkers (Leaflet.markers m) m) = [].
Proof.
  destruct (clearMarkers_layers (Leaflet.markers m) m) as [E _].
  unfold Leaflet.markers at 1. rewrite E. clear E.
  assert (H : forall l, In l (Leaflet.layers m) ->
            forall k, l = Leaflet.MarkerLayer k -> In k (Leaflet.markers m)).
  { intros l Hl k ->. unfold Leaflet.markers. apply in_flat_map.
    exists (Leaflet.MarkerLayer k). split; [exact Hl|left; reflexivity]. }
  revert H. generalize (Leaflet.markers m) as ks.
  induction (Leaflet.layers m) as [|l ls IH]; intros ks H; simpl; [reflexivity|].
  destruct (existsb _ ks) eqn:E; simpl.
  - apply IH. intros l' Hl'. apply H. right. exact Hl'.
  - destruct l as [s|k]; simpl.
    + apply IH. intros l' Hl'. apply H. right. exact Hl'.
    + exfalso.
      assert (Hk : In k ks) by (apply (H (Leaflet.MarkerLayer k)); [left|]; reflexivity).
      assert (X : existsb (fun k0 => Leaflet.layer_stamp (Leaflet.MarkerLayer k) =? Leaflet.stamp k0) ks = true).
      { apply existsb_exists. exists k. split; [exact Hk|]. simpl. apply Nat.eqb_refl. }
      rewrite X in E. discriminate.
Qed.

Lemma clearMarkers_stamps (placed : list Leaflet.Marker) (m : Leaflet.Map) (n : nat) :
  Forall (fun l => Leaflet.layer_stamp l <= n) (Leaflet.layers m) ->
  Forall (fun l => Leaflet.layer_stamp l <= n) (Leaflet.layers (clearMarkers placed m)).
Proof.
  intros H. destruct (clearMarkers_layers placed m) as [-> _].
  apply Forall_forall. intros l Hl. apply filter_In in Hl as [Hl _].
  rewrite Forall_forall in H. auto.
Qed.

(** What one render of the main map leaves, on an initialised map and an
    array of issues, whether it returns or throws. *)
Lemma renderMainMap_array (w : World) (m : Leaflet.Map) (issues : list Issue.t) :
  mainMap w = Some m ->
  STATE.issues (state w) = JArray issues ->
  exists m',
    mainMap (after renderMainMap w) = Some m' /\
    Leaflet.layers m' =
      Leaflet.layers (clearMarkers (issueMarkers w) m) ++
      map Leaflet.MarkerLayer (markersFor (lastId w) (reached issues)) /\
    issueMarkers (after renderMainMap w) = markersFor (lastId w) (reached issues) /\
    lastId (after renderMainMap w) =
      lastId w + length (markersFor (lastId w) (reached issues)).
Proof.
  intros Hm Hi. unfold after, renderMainMap. rewrite Hm, Hi, forEach_placeMarker.
  destruct (plottable issues); simpl;
    destruct (markersFor (lastId w) (reached issues)) as [|k ks] eqn:E; simpl;
    eexists; repeat split; reflexivity.
Qed.

(** One render on a page whose map and marker array agree: the markers on
    the map afterwards are the ones this render created, one per issue that
    passes the test of the loop among those the loop gets past, and the
    page is in sync again. *)
Lemma renderMainMap_in_sync (w : World) (issues : list Issue.t) :
  mapInSync w ->
  STATE.issues (state w) = JArray issues ->
  mapInSync (after renderMainMap w) /\
  markersOnMap (after renderMainMap w) = markersFor (lastId w) (reached issues).
Proof.
  intros (m & Hm & Hs & Hb) Hi.
  destruct (renderMainMap_array w Hm Hi) as (m' & Hm' & Hl & Hk & Hn).
  assert (Hmk : Leaflet.markers m' = markersFor (lastId w) (reached issues)).
  { destruct m' as [ls v]. simpl in Hl. subst ls.
    rewrite (markers_app _ _ v v), markers_of_marker_layers.
    rewrite <- Hs.
    change (Leaflet.markers
              {| Leaflet.layers := Leaflet.layers (clearMarkers (Leaflet.markers m) m);
                 Leaflet.view := v |})
      with (Leaflet.markers (clearMarkers (Leaflet.markers m) m)).
    rewrite clearMarkers_in_sync. reflexivity. }
  split.
  - exists m'. split; [exact Hm'|]. split; [now rewrite Hk|].
    rewrite Hl, Hn. apply Forall_app. split.
    + eapply Forall_impl; [|apply (clearMarkers_stamps _ _ Hb)].
      simpl. intros l Hle. lia.
    + apply Forall_forall. intros l Hl'. apply in_map_iff in Hl' as (k & <- & Hk').
      pose proof (markersFor_stamps (reached issues) (lastId w)) as F.
      rewrite Forall_forall in F. specialize (F k Hk'). simpl. lia.
  - unfold markersOnMap. rewrite Hm'. exact Hmk.
Qed.

(** No marker leaks from one render to the next: when the map and the
    marker array agree, a render leaves as many markers as there are issues
    that pass the test of the loop among those the loop gets past, and none
    of the markers that were on the map before. *)
Lemma renderMainMap_no_leak (w : World) (issues : list Issue.t) :
  mapInSync w ->
  STATE.issues (state w) = JArray issues ->
  length (markersOnMap (after renderMainMap w)) =
    length (List.filter hasCoordinates (reached issues)) /\
  (forall k, In k (markersOnMap w) -> ~ In k (markersOnMap (after renderMainMap w))).
Proof.
  intros Hsync Hi.
  destruct (renderMainMap_in_sync Hsync Hi) as [_ E]. rewrite E.
  split; [apply markersFor_length|].
  intros k Hold Hnew.
  destruct Hsync as (m & Hm & Hs & Hb).
  unfold markersOnMap in Hold. rewrite Hm in Hold.
  assert (Hle : Leaflet.stamp k <= lastId w).
  { rewrite Forall_forall in Hb.
    apply (Hb (Leaflet.MarkerLayer k)).
    unfold Leaflet.markers in Hold. apply in_flat_map in Hold as (l & Hl & Hkl).
    destruct l as [s|k']; simpl in Hkl; [tauto|].
    destruct Hkl as [->|[]]. exact Hl. }
  pose proof (markersFor_stamps (reached issues) (lastId w)) as F.
  rewrite Forall_forall in F. specialize (F k Hnew). lia.
Qed.


Lemma mapInSync_set_state (w : World) (s : STATE.t) :
  mapInSync w -> mapInSync (set_state s w).
Proof. intros (m & Hm & Hs & Hb). exists m. auto. Qed.

(** The map is in sync once [initMainMap] has run on a page with an empty
    marker array. *)
Lemma initMainMap_in_sync (w : World) (issues : list Issue.t) :
  issueMarkers w = [] ->
  STATE.issues (state w) = JArray issues ->
  mapInSync (after initMainMap w).
Proof.
  intros Hk Hi. unfold initMainMap, after, bind, act.
  match goal with |- context [renderMainMap ?x] => set (w1 := x) end.
  destruct (renderMainMap w1) as [[[]|e] w2] eqn:E;
    (replace w2 with (after renderMainMap w1) by (unfold after; now rewrite E));
    apply (@renderMainMap_in_sync w1 issues); try exact Hi;
    (eexists; split; [reflexivity|]; simpl; split; [now rewrite Hk|];
     constructor; [simpl; lia|constructor]).
Qed.

(** Any number of renders, over any collections, returning or not: the
    markers left on the map are those of the last render alone. *)
Lemma rerender_no_leak (collections : list (list Issue.t)) (issues : list Issue.t) :
  forall w : World,
    mapInSync w ->
    mapInSync (rerender (collections ++ [issues]) w) /\
    length (markersOnMap (rerender (collections ++ [issues]) w)) =
      length (List.filter hasCoordinates (reached issues)).
Proof.
  unfold rerender.
  induction collections as [|c rest IH]; intros w Hsync; simpl.
  - set (w1 := set_state (STATE.set_issues (JArray issues) (state w)) w).
    assert (H1 : mapInSync w1) by now apply mapInSync_set_state.
    assert (Hi : STATE.issues (state w1) = JArray issues) by reflexivity.
    split; [apply (renderMainMap_in_sync H1 Hi)|apply (renderMainMap_no_leak H1 Hi)].
  - apply IH.
    set (w1 := set_state (STATE.set_issues (JArray c) (state w)) w).
    assert (H1 : mapInSync w1) by now apply mapInSync_set_state.
    assert (Hi : STATE.issues (state w1) = JArray c) by reflexivity.
    apply (renderMainMap_in_sync H1 Hi).
Qed.

(** An issue whose two coordinates are truthy gets a marker, when Leaflet
    accepts the coordinates of the collection. *)
Lemma marker_for_truthy_coordinates
  (w : World) (m : Leaflet.Map) (issues : list Issue.t) (i : Issue.t) :
  mainMap w = Some m ->
  STATE.issues (state w) = JArray issues ->
  plottable issues = true ->
  In i issues ->
  hasCoordinates i = true ->
  exists m', mainMap (after renderMainMap w) = Some m' /\ hasMarker i m'.
Proof.
  intros Hm Hi Hp Hin Hc.
  destruct (renderMainMap_array w Hm Hi) as (m' & Hm' & Hl & _).
  rewrite (reached_plottable _ Hp) in Hl.
  exists m'. split; [exact Hm'|].
  destruct (markersFor_covers issues (lastId w) i Hin Hc) as [s Hs].
  exists (newMarker s i). split; [|simpl; auto].
  unfold Leaflet.markers. rewrite Hl. apply in_flat_map.
  exists (Leaflet.MarkerLayer (newMarker s i)). split; [|left; reflexivity].
  apply in_or_app. right. apply in_map. exact Hs.
Qed.

(** An issue that misses a coordinate gets none. *)
Lemma no_marker_without_coordinates
  (w : World) (issues : list Issue.t) (i : Issue.t) (m' : Leaflet.Map) :
  mapInSync w ->
  STATE.issues (state w) = JArray issues ->
  bothPresent i = false ->
  mainMap (after renderMainMap w) = Some m' ->
  ~ hasMarker i m'.
Proof.
  intros Hsync Hi Hp Hm' (k & Hk & Hll & _).
  destruct (renderMainMap_in_sync Hsync Hi) as [_ E].
  unfold markersOnMap in E. rewrite Hm' in E. rewrite E in Hk.
  destruct (markersFor_origin _ _ _ Hk) as (j & s & _ & Hc & ->).
  simpl in Hll. injection Hll as Hlat Hlng.
  apply hasCoordinates_present in Hc. unfold bothPresent in *.
  rewrite Hlat, Hlng in Hc. congruence.
Qed.

(** The feed shows every issue that passes the active filter, whatever its
    coordinates. *)
Lemma feed_ignores_coordinates (w : World) (issues : list Issue.t) (i : Issue.t) :
  STATE.issues (state w) = JArray issues ->
  In i issues ->
  STATE.filter (state w) = "all" \/ Issue.status i = STATE.filter (state w) ->
  inFeed i (issue_feed (dom (after renderHome w))).
Proof.
  intros Hi Hin Hf. unfold after. rewrite (renderHome_array w Hi). simpl.
  assert (Hs : In i (filteredIssues (STATE.filter (state w)) issues)).
  { unfold filteredIssues.
    destruct (String.eqb_spec (STATE.filter (state w)) "all") as [_|Hne]; [exact Hin|].
    destruct Hf as [Hf|Hf]; [contradiction|].
    apply filter_In. split; [exact Hin|]. unfold statusIs. rewrite Hf. apply String.eqb_refl. }
  unfold feedHtml.
  destruct (filteredIssues (STATE.filter (state w)) issues) as [|x xs] eqn:E; [destruct Hs|].
  simpl length. cbv iota. unfold inFeed. apply in_map. exact Hs.
Qed.

End MainMap.

(* ------------------------------------------------------------------ *)
(** ** The debounced location search                                    *)
(* ------------------------------------------------------------------ *)

Section Debounce.
Import Autocomplete.

Lemma consistent_loaded : consistent loaded.
Proof.
  unfold consistent, loaded; simpl. repeat split; auto; discriminate.
Qed.

(** The first thing the listener does leaves no timer pending. *)
Lemma on_input_clears (p : Page) :
  consistent p ->
  timers (match searchTimeout p with
          | Some (S h) => clearTimeout (S h) p
          | _ => p
          end) = [].
Proof.
  intros (_ & [E|(t & E & Hs & Hpos & _)] & _).
  - destruct (searchTimeout p) as [[|h]|]; simpl; rewrite ?E; reflexivity.
  - rewrite Hs. destruct (handle t) as [|h] eqn:Eh; [lia|].
    simpl. rewrite E. simpl. rewrite Eh, Nat.eqb_refl. reflexivity.
Qed.

(** What the listener leaves: the searches sent so far and the clock are
    untouched, and either nothing is pending (short query, panel hidden) or
    exactly the search for the trimmed text is, due one quiet period from
    now. *)
Lemma on_input_spec (value : string) (p : Page) :
  consistent p ->
  let p' := on_input value p in
  searches p' = searches p /\
  clock p' = clock p /\
  (if String.length (Js.trim value) <? 3
   then timers p' = [] /\ suggestions_hidden p' = true /\
        searchTimeout p' = searchTimeout p /\ nextHandle p' = nextHandle p
   else timers p' = [{| handle := nextHandle p; due := clock p + quiet;
                        query := Js.trim value |}] /\
        searchTimeout p' = Some (nextHandle p) /\
        nextHandle p' = S (nextHandle p)).
Proof.
  intros Hc. pose proof (on_input_clears Hc) as Hclr.
  unfold on_input. cbv zeta.
  destruct (String.length (Js.trim value) <? 3) eqn:E.
  - destruct (searchTimeout p) as [[|h]|] eqn:Es; simpl in *; rewrite ?Hclr, ?Es;
      repeat split; reflexivity.
  - destruct (searchTimeout p) as [[|h]|] eqn:Es; simpl in *; rewrite ?Hclr, ?Es;
      repeat split; reflexivity.
Qed.

Lemma on_input_consistent (value : string) (p : Page) :
  consistent p -> consistent (on_input value p).
Proof.
  intros Hc. pose proof (on_input_spec value Hc) as (_ & Hk & H).
  destruct Hc as (Hn & _ & Hh). cbv zeta in *.
  destruct (String.length (Js.trim value) <? 3) eqn:E.
  - destruct H as (Ht & _ & Hs & Hn'). unfold consistent.
    rewrite Ht, Hs, Hn'. auto.
  - destruct H as (Ht & Hs & Hn'). unfold consistent.
    rewrite Ht, Hs, Hn', Hk. split; [lia|]. split.
    + right. eexists. split; [reflexivity|]. simpl.
      apply Nat.ltb_ge in E. unfold quiet. repeat split; auto; lia.
    + intros h [= <-]. lia.
Qed.

(** Time passing: a pending search that is due is sent and is no longer
    pending; one that is not due stays as it is. *)
Lemma elapse_spec (ms : nat) (p : Page) :
  consistent p ->
  let p' := elapse ms p in
  clock p' = clock p + ms /\
  searchTimeout p' = searchTimeout p /\
  nextHandle p' = nextHandle p /\
  suggestions_hidden p' = suggestions_hidden p /\
  match timers p with
  | [t] => if due t <=? clock p + ms
           then timers p' = [] /\ searches p' = searches p ++ [query t]
           else timers p' = [t] /\ searches p' = searches p
  | _ => timers p' = [] /\ searches p' = searches p
  end.
Proof.
  intros (_ & [E|(t & E & _)] & _); unfold elapse, fire; rewrite E; simpl.
  - repeat split; reflexivity.
  - destruct (due t <=? clock p + ms); simpl; repeat split; reflexivity.
Qed.

Lemma elapse_consistent (ms : nat) (p : Page) :
  consistent p -> consistent (elapse ms p).
Proof.
  intros Hc. pose proof (elapse_spec ms Hc) as (Hk & Hs & Hn & _ & H).
  destruct Hc as (Hn0 & Ht & Hh). cbv zeta in *. unfold consistent.
  rewrite Hs, Hn, Hk. split; [exact Hn0|]. split; [|exact Hh].
  destruct Ht as [E|(t & E & Hst & Hpos & Hd1 & Hd2 & Hq)]; rewrite E in H.
  - left. tauto.
  - destruct (due t <=? clock p + ms) eqn:D.
    + left. tauto.
    + right. exists t. apply Nat.leb_gt in D. destruct H as [-> _].
      repeat split; auto; lia.
Qed.

Lemma answer_consistent (r : FetchResult (list Place)) (p : Page) :
  consistent p -> consistent (searchLocation_resume r p).
Proof. intros H. exact H. Qed.

Lemma step_consistent (p : Page) (e : Event) :
  consistent p -> consistent (step p e).
Proof.
  destruct e; simpl;
    [apply on_input_consistent|apply elapse_consistent|apply answer_consistent].
Qed.

Lemma run_consistent (events : list Event) :
  forall p, consistent p -> consistent (run events p).
Proof.
  unfold run. induction events as [|e rest IH]; intros p Hc; simpl; [exact Hc|].
  apply IH, step_consistent, Hc.
Qed.

Lemma consistent_at_most_one (p : Page) :
  consistent p -> length (timers p) <= 1.
Proof.
  intros (_ & [E|(t & E & _)] & _); rewrite E; simpl; lia.
Qed.

Lemma consistent_long_queries (p : Page) (t : Timer) :
  consistent p -> In t (timers p) -> 3 <= String.length (query t).
Proof.
  intros (_ & [E|(t' & E & _ & _ & _ & _ & Hq)] & _); rewrite E; simpl; [tauto|].
  intros [<-|[]]. exact Hq.
Qed.

Lemma on_input_typed (value : string) (p : Page) :
  consistent p ->
  typed value (searches p) (clock p) (on_input value p).
Proof.
  intros Hc. pose proof (on_input_spec value Hc) as (Hs & Hk & H).
  cbv zeta in *. unfold typed.
  split; [now apply on_input_consistent|]. split; [exact Hs|]. split; [exact Hk|].
  destruct (String.length (Js.trim value) <? 3).
  - tauto.
  - destruct H as (Ht & _). eexists. split; [exact Ht|]. simpl. auto.
Qed.

Lemma last_cons {A} (a d : A) (l : list A) : last (a :: l) d = last l a.
Proof.
  revert a d. induction l as [|b l IH]; intros a d; [reflexivity|].
  change (last (a :: b :: l) d) with (last (b :: l) d).
  now rewrite (IH b d), (IH b a).
Qed.

(** Keystrokes inside the quiet period send nothing: after the burst, the
    only search that can be pending is the one for the last text. *)
Lemma burst_typed (keys : list (nat * string)) :
  forall (value : string) (sofar : list string) (since : nat) (p : Page),
    withinQuiet keys ->
    typed value sofar since p ->
    exists since',
      typed (last (map snd keys) value) sofar since' (run (burst keys) p).
Proof.
  induction keys as [|[gap v] rest IH]; intros value sofar since p Hq Ht.
  - exists since. exact Ht.
  - inversion Hq as [|k ks Hgap Hrest]; subst. simpl in Hgap.
    simpl map. rewrite last_cons.
    change (run (burst ((gap, v) :: rest)) p)
      with (run (burst rest) (on_input v (elapse gap p))).
    destruct Ht as (Hc & Hs & Hk & Hp).
    pose proof (elapse_spec gap Hc) as (_ & _ & _ & _ & He).
    pose proof (elapse_consistent gap Hc) as Hc'.
    assert (Hs' : searches (elapse gap p) = sofar).
    { cbv zeta in He. destruct (String.length (Js.trim value) <? 3).
      - rewrite Hp in He. destruct He as [_ ->]. exact Hs.
      - destruct Hp as (t & Et & Hd & _). rewrite Et in He.
        assert (D : (due t <=? clock p + gap) = false)
          by (apply Nat.leb_gt; unfold quiet in *; lia).
        rewrite D in He. destruct He as [_ ->]. exact Hs. }
    apply (IH v sofar (clock (elapse gap p)) _ Hrest).
    rewrite <- Hs'. apply on_input_typed. exact Hc'.
Qed.

(** After a quiet period, the pending search, if any, has been sent. *)
Lemma quiet_sends (value : string) (sofar : list string) (since ms : nat) (p : Page) :
  typed value sofar since p ->
  quiet <= ms ->
  searches (elapse ms p) =
    sofar ++ (if 3 <=? String.length (Js.trim value) then [Js.trim value] else []) /\
  timers (elapse ms p) = [].
Proof.
  intros (Hc & Hs & Hk & Hp) Hms.
  pose proof (elapse_spec ms Hc) as (_ & _ & _ & _ & He). cbv zeta in He.
  destruct (String.length (Js.trim value) <? 3) eqn:E.
  - apply Nat.ltb_lt in E.
    assert (E' : (3 <=? String.length (Js.trim value)) = false) by (apply Nat.leb_gt; lia).
    rewrite E', app_nil_r. rewrite Hp in He. destruct He as [-> ->]. auto.
  - apply Nat.ltb_ge in E.
    assert (E' : (3 <=? String.length (Js.trim value)) = true) by (apply Nat.leb_le; lia).
    rewrite E'. destruct Hp as (t & Et & Hd & Hq). rewrite Et in He.
    assert (D : (due t <=? clock p + ms) = true) by (apply Nat.leb_le; lia).
    rewrite D in He. destruct He as [-> ->]. rewrite Hs, Hq. auto.
Qed.

Lemma skipn_length_app {A} (l x : list A) : skipn (length l) (l ++ x) = x.
Proof. induction l as [|a l IH]; simpl; auto. Qed.


(** C9, as the code has it: at any moment at most one search is scheduled,
    and a keystroke takes every search that was scheduled before it off the
    timer list; so a burst of keystrokes inside the quiet period, followed
    by a quiet period, sends one search, for the last text trimmed, when
    that text has at least three characters, and sends none when it is
    shorter. *)
Theorem debounce_burst
  (history : list Event) (first : string) (keys : list (nat * string)) (ms : nat) :
  withinQuiet keys ->
  quiet <= ms ->
  (forall events, length (timers (run events loaded)) <= 1) /\
  (forall events value t,
      In t (timers (run events loaded)) ->
      ~ In t (timers (on_input value (run events loaded)))) /\
  sent (Input first :: burst keys ++ [Elapse ms]) (run history loaded) =
    (if 3 <=? String.length (Js.trim (last (map snd keys) first))
     then [Js.trim (last (map snd keys) first)] else []).
Proof.
  intros Hq Hms. split; [|split].
  - intros events. apply consistent_at_most_one, run_consistent, consistent_loaded.
  - intros events value t Hin Hin'.
    pose proof (run_consistent events consistent_loaded) as Hc.
    pose proof (on_input_spec value Hc) as (_ & _ & H). cbv zeta in H.
    destruct (String.length (Js.trim value) <? 3).
    + destruct H as (Ht & _). rewrite Ht in Hin'. destruct Hin'.
    + destruct H as (Ht & _). rewrite Ht in Hin'. destruct Hin' as [<-|[]].
      destruct Hc as (_ & [E|(t' & E & Hs & _)] & Hh); rewrite E in Hin;
        [destruct Hin|].
      destruct Hin as [->|[]]. specialize (Hh _ Hs). simpl in Hh. lia.
  - set (p := run history loaded).
    assert (Hc : consistent p) by apply run_consistent, consistent_loaded.
    unfold sent.
    replace (run (Input first :: burst keys ++ [Elapse ms]) p)
      with (elapse ms (run (burst keys) (on_input first p)))
      by (unfold run; simpl; rewrite fold_left_app; reflexivity).
    destruct (burst_typed Hq (on_input_typed first Hc)) as (since' & Ht).
    destruct (quiet_sends Ht Hms) as [-> _].
    apply skipn_length_app.
Qed.

(** C10: a keystroke that leaves fewer than three characters once trimmed
    schedules nothing, leaves nothing scheduled, sends nothing and hides the
    suggestions; and no search is ever scheduled for a text shorter than
    three characters. *)
Theorem short_query_schedules_nothing (history : list Event) (value : string) :
  String.length (Js.trim value) < 3 ->
  timers (on_input value (run history loaded)) = [] /\
  suggestions_hidden (on_input value (run history loaded)) = true /\
  searches (on_input value (run history loaded)) = searches (run history loaded) /\
  (forall ms, sent [Input value; Elapse ms] (run history loaded) = []) /\
  (forall events t,
      In t (timers (run events loaded)) -> 3 <= String.length (query t)).
Proof.
  intros Hlen.
  pose proof (run_consistent history consistent_loaded) as Hc.
  pose proof (on_input_spec value Hc) as (Hs & _ & H). cbv zeta in *.
  assert (E : (String.length (Js.trim value) <? 3) = true) by now apply Nat.ltb_lt.
  rewrite E in H. destruct H as (Ht & Hh & _).
  repeat split; auto.
  - intros ms. unfold sent.
    change (run [Input value; Elapse ms] (run history loaded))
      with (elapse ms (on_input value (run history loaded))).
    pose proof (elapse_spec ms (on_input_consistent value Hc)) as (_ & _ & _ & _ & He).
    cbv zeta in He. rewrite Ht in He. destruct He as [_ ->]. rewrite Hs.
    rewrite <- (app_nil_r (searches (run history loaded))) at 2.
    apply skipn_length_app.
  - intros events t. apply consistent_long_queries, run_consistent, consistent_loaded.
Qed.

End Debounce.

(* ------------------------------------------------------------------ *)
(** ** The feed counters                                                *)
(* ------------------------------------------------------------------ *)

Section Feed.
Import CityFix.

(** C8: whatever the active filter, the total, in-progress and solved
    counters that the feed renderer writes are the counts over the whole
    collection; the filter only selects the cards.  Choosing another filter
    renders the same counters again.  The earlier client has the total and
    the solved counter, and the same holds for them. *)
Theorem feed_counters_unfiltered
  (w : World) (aw : AppJs.World) (issues : list Issue.t) :
  STATE.issues (state w) = JArray issues ->
  AppJs.issues (AppJs.STATE aw) = JArray issues ->
  (total_issues (dom (after renderHome w)) = Num (length issues) /\
   progress_issues (dom (after renderHome w)) = Num (countStatus "in-progress" issues) /\
   solved_issues (dom (after renderHome w)) = Num (countStatus "solved" issues) /\
   issue_feed (dom (after renderHome w)) =
     feedHtml (filteredIssues (STATE.filter (state w)) issues)) /\
  (forall f : string,
      total_issues (dom (after (on_filter_click f) w)) = Num (length issues) /\
      progress_issues (dom (after (on_filter_click f) w)) =
        Num (countStatus "in-progress" issues) /\
      solved_issues (dom (after (on_filter_click f) w)) =
        Num (countStatus "solved" issues) /\
      issue_feed (dom (after (on_filter_click f) w)) =
        feedHtml (filteredIssues f issues)) /\
  (forall f : string,
      AppJs.totalIssuesEl (snd (AppJs.on_filter_click f aw)) = Num (length issues) /\
      AppJs.solvedIssuesEl (snd (AppJs.on_filter_click f aw)) =
        Num (countStatus "solved" issues)).
Proof.
  intros H Ha. split; [|split].
  - unfold after. rewrite (renderHome_array w H). simpl.
    rewrite !countStatus_filter. auto.
  - intros f. unfold after, on_filter_click, bind, act.
    set (w1 := set_state (STATE.set_filter f (state w)) w).
    assert (H1 : STATE.issues (state w1) = JArray issues) by exact H.
    rewrite (renderHome_array w1 H1). simpl.
    rewrite !countStatus_filter. auto.
  - intros f. unfold AppJs.on_filter_click, AppJs.renderHome. simpl. rewrite Ha.
    simpl. rewrite countStatus_filter. auto.
Qed.

End Feed.

(* ------------------------------------------------------------------ *)
(** ** Fetching the list of issues                                      *)
(* ------------------------------------------------------------------ *)

Section Fetch.
Import CityFix.

(** When the request fails in transit, or the body is not JSON, the state
    and the rendered regions stay as they were; the failure is logged. *)
Lemma fetchIssues_failure_keeps_state (w : World) (r : FetchResult Json) :
  r = NetworkFailure \/ (exists st, r = Response st None) ->
  returns (fetchIssues_resume r) w = true /\
  state (after (fetchIssues_resume r) w) = state w /\
  dom (after (fetchIssues_resume r) w) = dom w /\
  trace (after (fetchIssues_resume r) w) =
    trace w ++ [ConsoleError "Error fetching issues:"].
Proof.
  intros [->|[st ->]]; unfold returns, after; simpl; auto.
Qed.

(** Whatever the status of the response, a body that parses replaces the
    collection. *)
Lemma fetchIssues_parsed_body_replaces (w : World) (st : nat) (parsed : Json) :
  STATE.issues (state (after (fetchIssues_resume (Response st (Some parsed))) w)) = parsed.
Proof.
  unfold after, fetchIssues_resume, fetchIssues_try, try_catch, bind, act, renderHome.
  simpl. destruct parsed; reflexivity.
Qed.

Lemma app_fetchIssues_parsed_body_replaces
  (w : AppJs.World) (st : nat) (parsed : Json) :
  AppJs.issues (AppJs.STATE (AppJs.fetchIssues_resume (Response st (Some parsed)) w)) = parsed.
Proof.
  unfold AppJs.fetchIssues_resume, AppJs.renderHome. simpl. destruct parsed; reflexivity.
Qed.

(** C2 at work: a page holds one issue, the server answers the list request
    with status 500 and a JSON error object.  In both clients the collection
    is then the error object, no longer the list that was there. *)
Theorem fetchIssues_error_response_overwrites :
  ok 500 = false /\
  STATE.issues (state Sample.cached) = JArray [Sample.a1] /\
  STATE.issues (state (after (fetchIssues_resume Sample.serverError) Sample.cached)) =
    JObject [("error", "database unavailable")] /\
  trace (after (fetchIssues_resume Sample.serverError) Sample.cached) =
    [ConsoleError "Error fetching issues:"] /\
  AppJs.issues (AppJs.STATE Sample.appCached) = JArray [Sample.a1] /\
  AppJs.issues (AppJs.STATE (AppJs.fetchIssues_resume Sample.serverError Sample.appCached)) =
    JObject [("error", "database unavailable")].
Proof. repeat split; reflexivity. Qed.

End Fetch.

(* ------------------------------------------------------------------ *)
(** ** The report form                                                  *)
(* ------------------------------------------------------------------ *)

Section Report.
Import CityFix.

Lemma filter_app_one {A} (f : A -> bool) (l : list A) (x : A) :
  List.filter f (l ++ [x]) = List.filter f l ++ (if f x then [x] else []).
Proof.
  induction l as [|a l IH]; simpl; [reflexivity|].
  rewrite IH. destruct (f a); reflexivity.
Qed.

(** The CityFix client: with a coordinate input empty, the submission ends
    in the warning and no request is sent. *)
Lemma report_submit_without_coordinates (now : string) (w : World) :
  issue_lat (dom w) = "" \/ issue_lng (dom w) = "" ->
  report_submit now w =
    showToast (Plain "Please click on the map to select a location") "warning" w /\
  List.filter isRequest (trace (report_submit now w)) = List.filter isRequest (trace w).
Proof.
  intros H.
  assert (E : report_submit now w =
              showToast (Plain "Please click on the map to select a location") "warning" w).
  { unfold report_submit. cbv zeta. destruct H as [-> | ->]; simpl.
    - reflexivity.
    - rewrite orb_true_r. reflexivity. }
  split; [exact E|]. rewrite E. unfold showToast, emit. simpl.
  rewrite filter_app_one. simpl. apply app_nil_r.
Qed.

(** The earlier client sends the request whatever the inputs hold. *)
Lemma app_report_submit_always_sends (now : string) (w : AppJs.World) :
  exists body,
    AppJs.trace (AppJs.report_submit now w) =
      AppJs.trace w ++ [AppJs.Request "POST" "/api/issues" (Some body)] /\
    AppJs.ni_lat body = AppJs.issue_lat w /\
    AppJs.ni_lng body = AppJs.issue_lng w.
Proof. eexists. repeat split. Qed.

(** C6 at work: the form is filled in but no place was ever picked, so both
    coordinate inputs are empty.  The CityFix client answers with the
    warning and sends nothing; the earlier client sends the POST, with two
    empty coordinates, and shows no warning. *)
Theorem report_submit_unset_coordinates :
  trace (report_submit "2024-01-15T10:00:00.000Z" (Sample.form "" "")) =
    [Toast (Plain "Please click on the map to select a location") "warning"] /\
  AppJs.trace (AppJs.report_submit "2024-01-15T10:00:00.000Z"
                 (Sample.appPage (JArray []) "" "")) =
    [AppJs.Request "POST" "/api/issues"
       (Some {| AppJs.ni_type := "pothole";
                AppJs.ni_location := "MG Road";
                AppJs.ni_lat := "";
                AppJs.ni_lng := "";
                AppJs.ni_description := "deep pothole";
                AppJs.ni_image := None;
                AppJs.ni_date := "2024-01-15T10:00:00.000Z" |})] /\
  existsb AppJs.isWarning
    (AppJs.trace (AppJs.report_submit "2024-01-15T10:00:00.000Z"
                    (Sample.appPage (JArray []) "" ""))) = false.
Proof. repeat split; reflexivity. Qed.

End Report.

(* ------------------------------------------------------------------ *)
(** ** Coordinates that are zero                                        *)
(* ------------------------------------------------------------------ *)

Section Equator.
Import CityFix.

(** C5 at work: an issue on the equator has both coordinates, is in the
    collection and is shown in the feed, yet after a render of the
    initialised main map no marker stands for it: the only marker is the
    one of the other issue. *)
Theorem zero_coordinate_gets_no_marker :
  In Sample.z0 [Sample.z0; Sample.a1] /\
  bothPresent Sample.z0 = true /\
  hasCoordinates Sample.z0 = false /\
  markersOnMap (after renderMainMap Sample.equator) = [newMarker 2 Sample.a1] /\
  inFeed Sample.z0 (issue_feed (dom (after renderHome Sample.equator))).
Proof.
  split; [left; reflexivity|].
  repeat split; try reflexivity.
  vm_compute. left. reflexivity.
Qed.

(** C7 at work: the collection holds two issues with both coordinates, one
    of them on the equator; however often the map is rendered, one marker
    is on it, not two. *)
Theorem rerender_misses_zero_coordinate :
  countPresent [Sample.z0; Sample.a1] = 2 /\
  length (markersOnMap (rerender [[Sample.z0; Sample.a1]] Sample.mapped)) = 1 /\
  length (markersOnMap
            (rerender [[Sample.z0; Sample.a1]; [Sample.z0; Sample.a1];
                       [Sample.z0; Sample.a1]] Sample.mapped)) = 1.
Proof. repeat split; reflexivity. Qed.

End Equator.

(* ------------------------------------------------------------------ *)
(** ** The statements at concrete pages                                 *)
(* ------------------------------------------------------------------ *)

Section Instances.
Import CityFix.



(** C3 on a page that holds [a1], for an event about the unknown id "zz"
    that carries 20 points. *)
Lemma status_updated_unknown_id_witness :
  STATE.issues (state Sample.cached) = JArray [Sample.a1] /\
  (forall i, In i [Sample.a1] -> Issue.id i <> su_issue_id Sample.unknownWithPoints) /\
  state (after (on_status_updated Sample.unknownWithPoints) Sample.cached) =
    state Sample.cached /\
  dom (after (on_status_updated Sample.unknownWithPoints) Sample.cached) =
    dom Sample.cached.
Proof.
  assert (Hid : forall i, In i [Sample.a1] ->
                          Issue.id i <> su_issue_id Sample.unknownWithPoints).
  { intros i [<-|[]]. simpl. discriminate. }
  split; [reflexivity|]. split; [exact Hid|].
  pose proof (@status_updated_unknown_id Sample.cached [Sample.a1]
                Sample.unknownWithPoints eq_refl Hid) as (_ & Hs & Hd & _).
  split; [exact Hs|exact Hd].
Defined.

(** C3 as it was stated fails: the id matches no issue, and a notice is
    shown all the same, because the event carries points. *)
Lemma unknown_id_still_notifies :
  (forall i, In i [Sample.a1] -> Issue.id i <> su_issue_id Sample.unknownWithPoints) /\
  trace Sample.cached = [] /\
  trace (after (on_status_updated Sample.unknownWithPoints) Sample.cached) =
    [Toast (PointsAwarded 20) "success"] /\
  existsb isToast
    (trace (after (on_status_updated Sample.unknownWithPoints) Sample.cached)) = true.
Proof.
  split; [intros i [<-|[]]; simpl; discriminate|].
  repeat split; reflexivity.
Qed.

(** C4 on a page where asha is logged in, for points given to "u2". *)
Lemma points_updated_other_user_witness :
  STATE.currentUser (state Sample.session) = Some Sample.asha /\
  User.id Sample.asha <> pu_user_id Sample.pointsForOther /\
  option_map User.points
    (STATE.currentUser (state (on_points_updated Sample.pointsForOther Sample.session))) =
    Some 30%Z /\
  cityfix_user (on_points_updated Sample.pointsForOther Sample.session) =
    Some Sample.asha /\
  trace (on_points_updated Sample.pointsForOther Sample.session) =
    [Request "GET" "/api/leaderboard" None].
Proof.
  assert (Hne : User.id Sample.asha <> pu_user_id Sample.pointsForOther)
    by (simpl; discriminate).
  split; [reflexivity|]. split; [exact Hne|].
  pose proof (@points_updated_other_user Sample.session Sample.asha
                Sample.pointsForOther eq_refl Hne) as (_ & Hp & Hs & _ & Ht & _).
  split; [exact Hp|]. split; [exact Hs|exact Ht].
Defined.

(** C8 on a page that holds a solved and a pending issue, with the filter
    set to pending: the counters still say two in all and one solved. *)
Lemma feed_counters_unfiltered_witness :
  STATE.issues (state (Sample.withFilter "pending"
                         (Sample.withIssues [Sample.a1; Sample.b2] Sample.page0))) =
    JArray [Sample.a1; Sample.b2] /\
  AppJs.issues (AppJs.STATE (Sample.appPage (JArray [Sample.a1; Sample.b2]) "" "")) =
    JArray [Sample.a1; Sample.b2] /\
  total_issues
    (dom (after renderHome
            (Sample.withFilter "pending"
               (Sample.withIssues [Sample.a1; Sample.b2] Sample.page0)))) = Num 2 /\
  solved_issues
    (dom (after renderHome
            (Sample.withFilter "pending"
               (Sample.withIssues [Sample.a1; Sample.b2] Sample.page0)))) = Num 1 /\
  issue_feed
    (dom (after renderHome
            (Sample.withFilter "pending"
               (Sample.withIssues [Sample.a1; Sample.b2] Sample.page0)))) =
    Cards [issueCard Sample.b2].
Proof.
  split; [reflexivity|]. split; [reflexivity|].
  pose proof (@feed_counters_unfiltered
                (Sample.withFilter "pending"
                   (Sample.withIssues [Sample.a1; Sample.b2] Sample.page0))
                (Sample.appPage (JArray [Sample.a1; Sample.b2]) "" "")
                [Sample.a1; Sample.b2] eq_refl eq_refl)
    as ((Ht & _ & Hs & Hf) & _).
  split; [exact Ht|]. split; [exact Hs|exact Hf].
Defined.

End Instances.

Section DebounceInstances.
Import Autocomplete.

(** C9 on the example of the specification: "MG R", then "MG Road" 120 ms
    later, then quiet. One search leaves, for "MG Road". *)
Lemma debounce_burst_witness :
  withinQuiet [(120, "MG Road")] /\
  quiet <= 400 /\
  sent (Input "MG R" :: burst [(120, "MG Road")] ++ [Elapse 400]) (run [] loaded) =
    ["MG Road"].
Proof.
  assert (Hq : withinQuiet [(120, "MG Road")]).
  { constructor; [unfold quiet; simpl; lia|constructor]. }
  assert (Hms : quiet <= 400) by (unfold quiet; lia).
  split; [exact Hq|]. split; [exact Hms|].
  exact (proj2 (proj2 (@debounce_burst [] "MG R" [(120, "MG Road")] 400 Hq Hms))).
Defined.

(** C9 as it was stated fails: "M", then "MG" 50 ms later, then quiet.  The
    burst lies inside the quiet period and no search leaves at all, so not
    one for the final text. *)
Lemma short_burst_sends_nothing :
  withinQuiet [(50, "MG")] /\
  quiet <= 400 /\
  sent (Input "M" :: burst [(50, "MG")] ++ [Elapse 400]) loaded = [] /\
  sent (Input "M" :: burst [(50, "MG")] ++ [Elapse 400]) loaded <> [Js.trim "MG"].
Proof.
  split; [constructor; [unfold quiet; simpl; lia|constructor]|].
  split; [unfold quiet; lia|].
  split; [reflexivity|]. vm_compute. intros H. discriminate H.
Qed.

(** C10 after "MG Road" was typed: the text is cut back to "MG". *)
Lemma short_query_schedules_nothing_witness :
  String.length (Js.trim "MG") < 3 /\
  timers (run [Input "MG Road"] loaded) =
    [{| handle := 1; due := 400; query := "MG Road" |}] /\
  timers (on_input "MG" (run [Input "MG Road"] loaded)) = [] /\
  suggestions_hidden (on_input "MG" (run [Input "MG Road"] loaded)) = true.
Proof.
  assert (Hlen : String.length (Js.trim "MG") < 3) by (simpl; lia).
  split; [exact Hlen|]. split; [reflexivity|].
  pose proof (@short_query_schedules_nothing [Input "MG Road"] "MG" Hlen)
    as (Ht & Hh & _).
  split; [exact Ht|exact Hh].
Defined.

End DebounceInstances.

(* ------------------------------------------------------------------ *)
(** ** More on the push-channel reactions                               *)
(* ------------------------------------------------------------------ *)

Section PushMore.
Import CityFix.

Lemma renderHome_frame (w : World) :
  state (after renderHome w) = state w /\
  mainMap (after renderHome w) = mainMap w /\
  issueMarkers (after renderHome w) = issueMarkers w /\
  lastId (after renderHome w) = lastId w /\
  cityfix_user (after renderHome w) = cityfix_user w /\
  trace (after renderHome w) = trace w.
Proof.
  unfold after, renderHome. destruct (STATE.issues (state w)); simpl; repeat split.
Qed.

Lemma renderAdminTable_frame (w : World) :
  state (after renderAdminTable w) = state w /\
  mainMap (after renderAdminTable w) = mainMap w /\
  issueMarkers (after renderAdminTable w) = issueMarkers w /\
  lastId (after renderAdminTable w) = lastId w /\
  cityfix_user (after renderAdminTable w) = cityfix_user w /\
  trace (after renderAdminTable w) = trace w.
Proof.
  unfold after, renderAdminTable. destruct (STATE.issues (state w)); simpl; repeat split.
Qed.


(** The first issue with a given id, and what [assignStatus] does to it. *)
Lemma assignStatus_split (id status : string) (issues : list Issue.t) :
  (exists i, In i issues /\ Issue.id i = id) ->
  exists before i rest,
    issues = before ++ i :: rest /\
    (forall j, In j before -> Issue.id j <> id) /\
    Issue.id i = id /\
    List.find (idIs id) issues = Some i /\
    assignStatus id status issues = before ++ Issue.set_status status i :: rest.
Proof.
  induction issues as [|x xs IH]; intros (i & Hin & Hid); [destruct Hin|].
  simpl. unfold idIs at 1 3.
  destruct (String.eqb_spec (Issue.id x) id) as [E|N].
  - exists [], x, xs. simpl. repeat split; auto; try (intros j []).
  - destruct Hin as [->|Hin]; [contradiction|].
    destruct (IH (ex_intro _ i (conj Hin Hid))) as (b & y & r & -> & Hb & Hy & Hf & Ha).
    exists (x :: b), y, r. simpl. repeat split; auto.
    + intros j [<-|Hj]; auto.
    + now rewrite Ha.
Qed.

(** What [status_updated] leaves when the id is known. *)
Lemma on_status_updated_known
  (w : World) (issues : list Issue.t) (data : StatusUpdated) (i : Issue.t) :
  STATE.issues (state w) = JArray issues ->
  List.find (idIs (su_issue_id data)) issues = Some i ->
  let issues' := assignStatus (su_issue_id data) (su_status data) issues in
  let d1 := set_issue_feed (feedHtml (filteredIssues (STATE.filter (state w)) issues'))
              (set_solved_issues (Num (length (List.filter (statusIs "solved") issues')))
                 (set_progress_issues
                    (Num (length (List.filter (statusIs "in-progress") issues')))
                    (set_total_issues (Num (length issues')) (dom w)))) in
  returns (on_status_updated data) w = true /\
  state (after (on_status_updated data) w) =
    STATE.set_issues (JArray issues') (state w) /\
  dom (after (on_status_updated data) w) =
    (if STATE.isAdmin (state w)
     then set_admin_issues_list
            (match issues' with [] => NoIssuesRow | _ => Rows (map adminRow issues') end) d1
     else d1) /\
  mainMap (after (on_status_updated data) w) = mainMap w /\
  issueMarkers (after (on_status_updated data) w) = issueMarkers w /\
  lastId (after (on_status_updated data) w) = lastId w /\
  cityfix_user (after (on_status_updated data) w) = cityfix_user w /\
  trace (after (on_status_updated data) w) =
    trace w ++
    (if (0 <? su_points_awarded data)%Z
     then [Toast (PointsAwarded (su_points_awarded data)) "success"] else []).
Proof.
  intros H Hf. cbv zeta.
  unfold returns, after, on_status_updated, bind, act, when, ret, renderHome,
    renderAdminTable.
  rewrite H, Hf. simpl.
  destruct (STATE.isAdmin (state w)); simpl;
    destruct (0 <? su_points_awarded data)%Z; simpl;
    rewrite ?app_nil_r; repeat split; reflexivity.
Qed.

(** X1: a [status_updated] event for a known id changes, in place, the
    status of the first issue with that id and of no other entry; the
    collection keeps its length and order, the three feed counters and the
    cards are rendered from the changed collection, and the main map is not
    rendered again. *)
Theorem status_updated_in_place
  (w : World) (issues : list Issue.t) (data : StatusUpdated) :
  STATE.issues (state w) = JArray issues ->
  (exists i, In i issues /\ Issue.id i = su_issue_id data) ->
  exists before i rest,
    issues = before ++ i :: rest /\
    (forall j, In j before -> Issue.id j <> su_issue_id data) /\
    Issue.id i = su_issue_id data /\
    returns (on_status_updated data) w = true /\
    STATE.issues (state (after (on_status_updated data) w)) =
      JArray (before ++ Issue.set_status (su_status data) i :: rest) /\
    total_issues (dom (after (on_status_updated data) w)) = Num (length issues) /\
    progress_issues (dom (after (on_status_updated data) w)) =
      Num (countStatus "in-progress"
             (before ++ Issue.set_status (su_status data) i :: rest)) /\
    solved_issues (dom (after (on_status_updated data) w)) =
      Num (countStatus "solved"
             (before ++ Issue.set_status (su_status data) i :: rest)) /\
    issue_feed (dom (after (on_status_updated data) w)) =
      feedHtml (filteredIssues (STATE.filter (state w))
                  (before ++ Issue.set_status (su_status data) i :: rest)) /\
    markersOnMap (after (on_status_updated data) w) = markersOnMap w.
Proof.
  intros H Hex.
  destruct (@assignStatus_split (su_issue_id data) (su_status data) issues Hex)
    as (before & i & rest & E & Hb & Hi & Hf & Ha).
  exists before, i, rest.
  destruct (@on_status_updated_known w issues data i H Hf) as (Hr & Hs & Hd & Hm & _).
  cbv zeta in *. rewrite Ha in *.
  repeat split; auto.
  - rewrite Hs. reflexivity.
  - rewrite Hd. destruct (STATE.isAdmin (state w)); simpl; f_equal;
      rewrite E, !length_app; reflexivity.
  - rewrite Hd. destruct (STATE.isAdmin (state w)); simpl; f_equal;
      apply countStatus_filter.
  - rewrite Hd. destruct (STATE.isAdmin (state w)); simpl; f_equal;
      apply countStatus_filter.
  - rewrite Hd. destruct (STATE.isAdmin (state w)); reflexivity.
  - unfold markersOnMap. now rewrite Hm.
Qed.

Lemma assignStatus_again (id status : string) (issues : list Issue.t) :
  assignStatus id status (assignStatus id status issues) = assignStatus id status issues /\
  (forall i, List.find (idIs id) issues = Some i ->
             List.find (idIs id) (assignStatus id status issues) =
               Some (Issue.set_status status i)).
Proof.
  induction issues as [|x xs [IH1 IH2]]; simpl; [split; [reflexivity|discriminate]|].
  destruct (idIs id x) eqn:E; simpl.
  - assert (E' : idIs id (Issue.set_status status x) = true) by exact E.
    rewrite E'. split; [reflexivity|]. intros i Hi. injection Hi as <-. reflexivity.
  - rewrite E. split; [now rewrite IH1|exact IH2].
Qed.

(** X2: applying the same [status_updated] event a second time changes
    neither the state nor the rendered regions nor the map, whatever the
    collection holds; only the point-award notice is shown again. *)
Theorem status_updated_redelivery (w : World) (data : StatusUpdated) :
  state (after (on_status_updated data) (after (on_status_updated data) w)) =
    state (after (on_status_updated data) w) /\
  dom (after (on_status_updated data) (after (on_status_updated data) w)) =
    dom (after (on_status_updated data) w) /\
  mainMap (after (on_status_updated data) (after (on_status_updated data) w)) =
    mainMap (after (on_status_updated data) w) /\
  trace (after (on_status_updated data) (after (on_status_updated data) w)) =
    trace (after (on_status_updated data) w) ++
    (if returns (on_status_updated data) w && (0 <? su_points_awarded data)%Z
     then [Toast (PointsAwarded (su_points_awarded data)) "success"] else []).
Proof.
  destruct (STATE.issues (state w)) as [issues|fields] eqn:H.
  - destruct (List.find (idIs (su_issue_id data)) issues) as [i|] eqn:Hf.
    + destruct (@on_status_updated_known w issues data i H Hf)
        as (Hr & Hs & Hd & Hm & Hk & Hn & Hu & Ht). cbv zeta in *.
      set (w1 := after (on_status_updated data) w) in *.
      destruct (assignStatus_again (su_issue_id data) (su_status data) issues)
        as [Hagain Hfind].
      assert (H1 : STATE.issues (state w1) =
                   JArray (assignStatus (su_issue_id data) (su_status data) issues))
        by (rewrite Hs; reflexivity).
      destruct (@on_status_updated_known w1 _ data _ H1 (Hfind _ Hf))
        as (_ & Hs2 & Hd2 & Hm2 & _ & _ & _ & Ht2). cbv zeta in *.
      rewrite Hagain in *. rewrite Hr. simpl.
      repeat split.
      * rewrite Hs2, Hs. reflexivity.
      * rewrite Hd2, Hd, Hs. simpl.
        destruct (STATE.isAdmin (state w)); reflexivity.
      * rewrite Hm2. reflexivity.
      * exact Ht2.
    + assert (E : on_status_updated data w =
                  (Ret tt, if (0 <? su_points_awarded data)%Z
                           then showToast (PointsAwarded (su_points_awarded data)) "success" w
                           else w)).
      { unfold on_status_updated, bind, when, act, ret. rewrite H, Hf.
        destruct (0 <? su_points_awarded data)%Z; reflexivity. }
      unfold returns, after. rewrite E. simpl.
      destruct (0 <? su_points_awarded data)%Z eqn:P; simpl.
      * unfold on_status_updated, bind, when, act, ret. simpl. rewrite H, Hf, P. simpl.
        repeat split.
      * rewrite E. simpl. rewrite app_nil_r. repeat split.
  - assert (E : forall w0, STATE.issues (state w0) = JObject fields ->
                on_status_updated data w0 =
                (Throw (TypeError "STATE.issues.find is not a function"), w0)).
    { intros w0 H0. unfold on_status_updated, bind. rewrite H0. reflexivity. }
    unfold returns, after. rewrite (E w H). simpl. rewrite (E w H). simpl.
    rewrite app_nil_r. repeat split.
Qed.

End PushMore.

Section PushDelete.
Import CityFix.







(** X5: a [points_updated] event for the session user overwrites the
    balance, stores the session user as it now is, shows the new balance,
    plays the point animation exactly when [added] is not zero, and then
    asks for the leaderboard; the issues are not touched. *)
Theorem points_updated_session_user
  (w : World) (u : User.t) (data : PointsUpdated) :
  STATE.currentUser (state w) = Some u ->
  User.id u = pu_user_id data ->
  let w' := on_points_updated data w in
  STATE.currentUser (state w') = Some (User.set_points (pu_points data) u) /\
  cityfix_user w' = STATE.currentUser (state w') /\
  (exists avatar,
      user_ui (dom w') = Profile (User.username u) (pu_points data) avatar) /\
  STATE.issues (state w') = STATE.issues (state w) /\
  trace w' =
    trace w ++
    (if (pu_added data =? 0)%Z then [] else [PointsAnimation (pu_added data)]) ++
    [Request "GET" "/api/leaderboard" None].
Proof.
  intros Hu Hid w'. subst w'.
  unfold on_points_updated, isSessionUser, applyPoints. rewrite Hu, Hid, String.eqb_refl.
  destruct (pu_added data =? 0)%Z; simpl; rewrite <- ?app_assoc;
    repeat split; eexists; reflexivity.
Qed.

(** X6: once the collection is not an array, which is what an error answer
    to the list request leaves, every push reaction on the issues throws
    before it does anything: the page is exactly as before, nothing is
    rendered and no notice is shown. *)
Theorem push_on_corrupted_collection
  (w : World) (fields : list (string * string)) :
  STATE.issues (state w) = JObject fields ->
  (forall issue, returns (on_new_issue issue) w = false /\
                 after (on_new_issue issue) w = w) /\
  (forall data, returns (on_status_updated data) w = false /\
                after (on_status_updated data) w = w) /\
  (forall data, returns (on_issue_deleted data) w = false /\
                after (on_issue_deleted data) w = w).
Proof.
  intros H. repeat split;
    unfold returns, after, on_new_issue, on_status_updated, on_issue_deleted,
      bind, unshift; rewrite H; reflexivity.
Qed.

End PushDelete.

(* ------------------------------------------------------------------ *)
(** ** More on fetching and rendering                                   *)
(* ------------------------------------------------------------------ *)

Section RenderMore.
Import CityFix.

(** X7: an answer to the list request whose body parses to an array
    replaces the collection wholesale, whatever it held before (also the
    object an error answer had left there) and whatever the status of the
    answer; the counters and the feed are those of the new array and nothing
    is logged.  The earlier client does the same with its two counters. *)
Theorem fetchIssues_replaces_wholesale
  (w : World) (aw : AppJs.World) (http_status : nat) (issues : list Issue.t) :
  (returns (fetchIssues_resume (Response http_status (Some (JArray issues)))) w = true /\
   STATE.issues
     (state (after (fetchIssues_resume (Response http_status (Some (JArray issues)))) w))
     = JArray issues /\
   total_issues
     (dom (after (fetchIssues_resume (Response http_status (Some (JArray issues)))) w))
     = Num (length issues) /\
   progress_issues
     (dom (after (fetchIssues_resume (Response http_status (Some (JArray issues)))) w))
     = Num (countStatus "in-progress" issues) /\
   solved_issues
     (dom (after (fetchIssues_resume (Response http_status (Some (JArray issues)))) w))
     = Num (countStatus "solved" issues) /\
   issue_feed
     (dom (after (fetchIssues_resume (Response http_status (Some (JArray issues)))) w))
     = feedHtml (filteredIssues (STATE.filter (state w)) issues) /\
   trace (after (fetchIssues_resume (Response http_status (Some (JArray issues)))) w)
     = trace w) /\
  (AppJs.issues
     (AppJs.STATE (AppJs.fetchIssues_resume (Response http_status (Some (JArray issues))) aw))
     = JArray issues /\
   AppJs.totalIssuesEl
     (AppJs.fetchIssues_resume (Response http_status (Some (JArray issues))) aw)
     = Num (length issues) /\
   AppJs.solvedIssuesEl
     (AppJs.fetchIssues_resume (Response http_status (Some (JArray issues))) aw)
     = Num (countStatus "solved" issues) /\
   AppJs.trace (AppJs.fetchIssues_resume (Response http_status (Some (JArray issues))) aw)
     = AppJs.trace aw).
Proof.
  split.
  - unfold returns, after, fetchIssues_resume, fetchIssues_try, try_catch, bind, act,
      renderHome. simpl. rewrite !countStatus_filter. repeat split.
  - unfold AppJs.fetchIssues_resume, AppJs.renderHome. simpl.
    rewrite countStatus_filter. repeat split.
Qed.

Lemma leaderItems_spec (me : option User.t) (users : list User.t) :
  forall index : nat,
    map item_rank (leaderItems me index users) = seq (index + 1) (length users) /\
    map item_username (leaderItems me index users) = map User.username users /\
    map item_points (leaderItems me index users) = map User.points users /\
    map item_is_me (leaderItems me index users) = map (isMe me) users /\
    (forall it, In it (leaderItems me index users) ->
                item_medal it = (item_rank it <=? 3)).
Proof.
  induction users as [|u us IH]; intros index; simpl.
  - repeat split. intros it [].
  - destruct (IH (S index)) as (H1 & H2 & H3 & H4 & H5).
    rewrite H1, H2, H3, H4. replace (S index + 1) with (S (index + 1)) by lia.
    repeat split. intros it [<-|Hin]; [reflexivity|auto].
Qed.

(** X8: when the leaderboard answer parses, the users replace the old list
    and the board shows them in the order of the answer, ranked 1, 2, 3, ...,
    with a medal exactly on the ranks up to 3 and the session user's rows
    marked; an empty answer shows the placeholder.  The session user is not
    touched. *)
Theorem leaderboard_ranks
  (w : World) (http_status : nat) (users : list User.t) :
  STATE.users
    (state (after (fetchLeaderboard_resume (Response http_status (Some users))) w))
    = users /\
  STATE.currentUser
    (state (after (fetchLeaderboard_resume (Response http_status (Some users))) w))
    = STATE.currentUser (state w) /\
  match leaderboard_list
          (dom (after (fetchLeaderboard_resume (Response http_status (Some users))) w))
  with
  | NoReporters => users = []
  | Items items =>
      users <> [] /\
      map item_rank items = seq 1 (length users) /\
      map item_username items = map User.username users /\
      map item_points items = map User.points users /\
      map item_is_me items = map (isMe (STATE.currentUser (state w))) users /\
      (forall it, In it items -> item_medal it = (item_rank it <=? 3))
  end.
Proof.
  unfold after, fetchLeaderboard_resume, fetchLeaderboard_try, try_catch, bind, act,
    renderLeaderboard. simpl.
  split; [reflexivity|]. split; [reflexivity|].
  destruct users as [|u us]; [reflexivity|].
  destruct (leaderItems_spec (STATE.currentUser (state w)) (u :: us) 0)
    as (H1 & H2 & H3 & H4 & H5).
  split; [discriminate|]. auto.
Qed.

Lemma filteredIssues_spec (f : string) (issues : list Issue.t) :
  (f = "all" -> filteredIssues f issues = issues) /\
  (f <> "all" ->
   length (filteredIssues f issues) = countStatus f issues /\
   (forall i, In i (filteredIssues f issues) <-> In i issues /\ Issue.status i = f)).
Proof.
  unfold filteredIssues. split.
  - intros ->. reflexivity.
  - intros N. destruct (String.eqb_spec f "all") as [E|_]; [contradiction|].
    split; [apply countStatus_filter|].
    intros i. rewrite filter_In. unfold statusIs.
    destruct (String.eqb_spec (Issue.status i) f); intuition congruence.
Qed.

Lemma feedHtml_cards (shown : list Issue.t) :
  cardCount (feedHtml shown) = length shown /\
  (feedHtml shown = EmptyMessage <-> shown = []) /\
  (forall i, inFeed i (feedHtml shown) <-> In (issueCard i) (map issueCard shown)).
Proof.
  destruct shown as [|x xs]; simpl.
  - repeat split; auto; intros [].
  - rewrite length_map. repeat split; auto; discriminate.
Qed.

(** X9: the feed shows the cards of exactly the issues whose status is the
    active filter, in the order of the collection, or of all issues under
    the filter 'all'; the placeholder stands in exactly when no issue
    qualifies.  Under a status filter the number of cards is the number of
    issues in that status, so under 'solved' and 'in-progress' it is the
    number the counter of that status shows. *)
Theorem feed_shows_filtered (w : World) (issues : list Issue.t) :
  STATE.issues (state w) = JArray issues ->
  (STATE.filter (state w) = "all" ->
   cardCount (issue_feed (dom (after renderHome w))) = length issues /\
   (forall i, In i issues -> inFeed i (issue_feed (dom (after renderHome w))))) /\
  (STATE.filter (state w) <> "all" ->
   cardCount (issue_feed (dom (after renderHome w))) =
     countStatus (STATE.filter (state w)) issues /\
   (forall i, In i issues ->
              (inFeed i (issue_feed (dom (after renderHome w))) <->
               Issue.status i = STATE.filter (state w)))) /\
  (issue_feed (dom (after renderHome w)) = EmptyMessage <->
   filteredIssues (STATE.filter (state w)) issues = []) /\
  (STATE.filter (state w) = "solved" ->
   solved_issues (dom (after renderHome w)) =
     Num (cardCount (issue_feed (dom (after renderHome w))))) /\
  (STATE.filter (state w) = "in-progress" ->
   progress_issues (dom (after renderHome w)) =
     Num (cardCount (issue_feed (dom (after renderHome w))))).
Proof.
  intros H. unfold after. rewrite (renderHome_array w H). simpl.
  destruct (filteredIssues_spec (STATE.filter (state w)) issues) as [Fall Fst].
  destruct (feedHtml_cards (filteredIssues (STATE.filter (state w)) issues))
    as (Cn & Ce & Ci).
  split; [|split; [|split; [|split]]].
  - intros E. rewrite (Fall E) in *. rewrite Cn. split; [reflexivity|].
    intros i Hi. apply Ci. apply in_map. exact Hi.
  - intros N. destruct (Fst N) as [Flen Fin]. rewrite Cn. split; [exact Flen|].
    intros i Hi. rewrite Ci. split.
    + intros Hc. apply in_map_iff in Hc as (j & Hj & Hjin).
      apply Fin in Hjin as [_ Hs].
      assert (E : card_status (issueCard j) = card_status (issueCard i)) by now rewrite Hj.
      simpl in E. congruence.
    + intros Hs. apply in_map. apply Fin. auto.
  - exact Ce.
  - intros E. rewrite Cn.
    assert (N : STATE.filter (state w) <> "all") by (rewrite E; discriminate).
    destruct (Fst N) as [-> _]. rewrite E, countStatus_filter. reflexivity.
  - intros E. rewrite Cn.
    assert (N : STATE.filter (state w) <> "all") by (rewrite E; discriminate).
    destruct (Fst N) as [-> _]. rewrite E, countStatus_filter. reflexivity.
Qed.

Lemma countStatus_partition (a b : string) (issues : list Issue.t) :
  a <> b ->
  countStatus a issues + countStatus b issues +
  length (List.filter (fun i => negb (statusIs a i) && negb (statusIs b i)) issues)
  = length issues.
Proof.
  intros N. induction issues as [|i rest IH]; simpl; [reflexivity|].
  unfold statusIs at 1 2.
  destruct (String.eqb_spec (Issue.status i) a) as [Ea|_];
    destruct (String.eqb_spec (Issue.status i) b) as [Eb|_]; simpl; try lia.
  exfalso. apply N. congruence.
Qed.

(** X10: the three counters of the feed are consistent with one another:
    the in-progress and the solved counter together never exceed the total,
    and what is missing to the total is the number of issues in any other
    status. *)
Theorem feed_counters_add_up (w : World) (issues : list Issue.t) :
  STATE.issues (state w) = JArray issues ->
  exists total progress solved,
    total_issues (dom (after renderHome w)) = Num total /\
    progress_issues (dom (after renderHome w)) = Num progress /\
    solved_issues (dom (after renderHome w)) = Num solved /\
    progress + solved <= total /\
    total - (progress + solved) =
      length (List.filter
                (fun i => negb (statusIs "in-progress" i) && negb (statusIs "solved" i))
                issues).
Proof.
  intros H. unfold after. rewrite (renderHome_array w H). simpl.
  do 3 eexists. split; [reflexivity|]. split; [reflexivity|]. split; [reflexivity|].
  rewrite !countStatus_filter.
  assert (N : "in-progress" <> "solved") by discriminate.
  pose proof (countStatus_partition issues N) as P. lia.
Qed.

End RenderMore.

Section MapMore.
Import CityFix.





End MapMore.

Section FormsMore.
Import CityFix.

(** X13: a filled-in report with both coordinates set sends one POST with
    the content of the form and shows nothing; what follows depends on the
    answer alone.  Only a 2xx answer resets the form, drops the chosen image
    and navigates home, with the hint to log in for an anonymous reporter; a
    refusal or a failure in transit shows one danger notice and keeps the
    image, so that the report can be sent again. *)
Theorem report_answer_decides (now : string) (w : World) :
  issue_lat (dom w) <> "" ->
  issue_lng (dom w) <> "" ->
  (exists body,
      trace (report_submit now w) = trace w ++ [Request "POST" "/api/issues" (Some body)] /\
      ni_lat body = issue_lat (dom w) /\
      ni_lng body = issue_lng (dom w) /\
      ni_type body = issue_type (dom w) /\
      ni_location body = issue_location (dom w) /\
      ni_description body = issue_desc (dom w) /\
      ni_image body = currentImageBase64 w /\
      ni_date body = now) /\
  (forall http_status body,
      ok http_status = true ->
      currentImageBase64
        (report_submit_resume (Response http_status body) (report_submit now w)) = None /\
      skipn (S (length (trace w)))
        (trace (report_submit_resume (Response http_status body) (report_submit now w))) =
      [Toast (Plain "Issue reported successfully!") "success"; FormReset] ++
      (match STATE.currentUser (state w) with
       | None => [Toast (Plain "Login to earn points for your reports!") "info"]
       | Some _ => []
       end) ++ [GoHome]) /\
  (forall http_status body,
      ok http_status = false ->
      currentImageBase64
        (report_submit_resume (Response http_status body) (report_submit now w)) =
        currentImageBase64 w /\
      skipn (S (length (trace w)))
        (trace (report_submit_resume (Response http_status body) (report_submit now w))) =
      [Toast (Plain "Failed to submit report") "danger"]) /\
  (currentImageBase64 (report_submit_resume NetworkFailure (report_submit now w)) =
     currentImageBase64 w /\
   skipn (S (length (trace w)))
     (trace (report_submit_resume NetworkFailure (report_submit now w))) =
   [Toast (Plain "Server error") "danger"; ConsoleError ""]).
Proof.
  intros Hlat Hlng.
  assert (E : report_submit now w =
              emit (Request "POST" "/api/issues"
                      (Some {| ni_user_id := option_map User.id (STATE.currentUser (state w));
                               ni_type := issue_type (dom w);
                               ni_location := issue_location (dom w);
                               ni_lat := issue_lat (dom w);
                               ni_lng := issue_lng (dom w);
                               ni_description := issue_desc (dom w);
                               ni_image := currentImageBase64 w;
                               ni_date := now |})) w).
  { unfold report_submit. cbv zeta. simpl.
    destruct (String.eqb_spec (issue_lat (dom w)) "") as [E|_]; [contradiction|].
    destruct (String.eqb_spec (issue_lng (dom w)) "") as [E|_]; [contradiction|].
    reflexivity. }
  assert (Sk : forall (x : Effect) (rest : list Effect),
             skipn (S (length (trace w))) ((trace w ++ [x]) ++ rest) = rest).
  { intros x rest.
    replace (S (length (trace w))) with (length (trace w ++ [x]))
      by (rewrite length_app; simpl; lia).
    apply skipn_length_app. }
  remember (S (length (trace w))) as n eqn:En.
  rewrite E. split; [|split; [|split]].
  - eexists. split; [reflexivity|]. simpl. repeat split.
  - intros st body Hok. unfold report_submit_resume. rewrite Hok. simpl.
    destruct (STATE.currentUser (state w)); simpl; split; try reflexivity;
      repeat rewrite <- app_assoc; simpl;
      match goal with |- skipn _ (?t ++ ?x :: ?rest) = _ =>
        change (t ++ x :: rest) with (t ++ [x] ++ rest); rewrite app_assoc; apply Sk
      end.
  - intros st body Hok. unfold report_submit_resume. rewrite Hok. simpl.
    split; [reflexivity|]. apply Sk.
  - simpl. split; [reflexivity|]. repeat rewrite <- app_assoc. simpl.
    match goal with |- skipn _ (?t ++ ?x :: ?rest) = _ =>
      change (t ++ x :: rest) with (t ++ [x] ++ rest); rewrite app_assoc; apply Sk
    end.
Qed.

Lemma substring_prefix (s : string) :
  forall n : nat,
    String.prefix (substring 0 n s) s = true /\
    String.length (substring 0 n s) = Nat.min n (String.length s).
Proof.
  induction s as [|c s IH]; intros n.
  - destruct n; simpl; auto.
  - destruct n as [|n]; simpl; [auto|].
    destruct (IH n) as [Hp Hl]. rewrite Hl.
    split; [|reflexivity].
    destruct (Ascii.ascii_dec c c) as [_|N]; [exact Hp|now elim N].
Qed.

(** X14: the admin table has one row per issue, in the order of the
    collection, each with the actions bound to the full id of its issue and
    with the type, location and status of that issue; the id shown is the
    first six characters of the id (the whole id when it is shorter); the
    reporter column shows the reporter's name when the issue has one that
    is not empty, and 'Anonymous' otherwise; and an empty collection shows
    the placeholder row. *)
Theorem admin_table_rows (w : World) (issues : list Issue.t) :
  STATE.issues (state w) = JArray issues ->
  returns renderAdminTable w = true /\
  match admin_issues_list (dom (after renderAdminTable w)) with
  | NoIssuesRow => issues = []
  | Rows rows =>
      issues <> [] /\
      Forall2
        (fun i r =>
           row_actions r = Issue.id i /\
           String.prefix (row_id r) (Issue.id i) = true /\
           String.length (row_id r) = Nat.min 6 (String.length (Issue.id i)) /\
           row_type r = Issue.type i /\
           row_location r = Issue.location i /\
           row_status r = Issue.status i /\
           (forall name, Issue.reporter_name i = Some name -> name <> "" ->
                         row_reporter r = name) /\
           (Issue.reporter_name i = None \/ Issue.reporter_name i = Some "" ->
            row_reporter r = "Anonymous"))
        issues rows
  end.
Proof.
  intros H. unfold returns, after, renderAdminTable. rewrite H. simpl.
  split; [reflexivity|].
  destruct issues as [|x xs]; [reflexivity|].
  remember (x :: xs) as l eqn:El. simpl admin_issues_list.
  split; [rewrite El; discriminate|].
  clear. induction l as [|i rest IH]; simpl; constructor; [|exact IH].
  destruct (substring_prefix (Issue.id i) 6) as [Hp Hl]. simpl.
  repeat split; auto.
  - intros name E N. unfold Js.or_default. rewrite E.
    destruct (String.eqb_spec name "") as [E0|_]; [contradiction|reflexivity].
  - intros [E|E]; unfold Js.or_default; rewrite E; reflexivity.
Qed.

End FormsMore.

(* ------------------------------------------------------------------ *)
(** ** More on the location search                                      *)
(* ------------------------------------------------------------------ *)

Section DebounceMore.
Import Autocomplete.

Lemma run_snoc (events : list Event) (e : Event) (p : Page) :
  run (events ++ [e]) p = step (run events p) e.
Proof. unfold run. rewrite fold_left_app. reflexivity. Qed.

Lemma keystrokes_snoc (events : list Event) (e : Event) :
  keystrokes (events ++ [e]) = keystrokes events + (if isInput e then 1 else 0).
Proof.
  unfold keystrokes. rewrite filter_app, length_app. simpl.
  destruct (isInput e); reflexivity.
Qed.

(** Where the pending and the sent searches come from, and how many there
    can be. *)
Lemma run_history (events : list Event) :
  consistent (run events loaded) /\
  (forall t, In t (timers (run events loaded)) ->
             exists value, In (Input value) events /\ query t = Js.trim value) /\
  (forall q, In q (searches (run events loaded)) ->
             3 <= String.length q /\
             exists value, In (Input value) events /\ q = Js.trim value) /\
  length (searches (run events loaded)) + length (timers (run events loaded))
    <= keystrokes events.
Proof.
  induction events as [|e events IH] using rev_ind.
  - split; [exact consistent_loaded|]. split; [intros t []|]. split; [intros q []|].
    simpl. lia.
  - destruct IH as (Hc & Ht & Hs & Hn).
    rewrite run_snoc, keystrokes_snoc.
    set (p := run events loaded) in *.
    assert (Old : forall v, In (Input v) events -> In (Input v) (events ++ [e]))
      by (intros v Hv; apply in_or_app; left; exact Hv).
    destruct e as [value|ms|r]; simpl.
    + pose proof (on_input_spec value Hc) as (Es & _ & H). cbv zeta in H.
      split; [now apply on_input_consistent|].
      pose proof (consistent_at_most_one Hc) as Hone.
      destruct (String.length (Js.trim value) <? 3).
      * destruct H as (Et & _). rewrite Et, Es. simpl.
        split; [intros t []|]. split; [|lia].
        intros q Hq. destruct (Hs q Hq) as (Hl & v & Hv & Eq). eauto.
      * destruct H as (Et & _). rewrite Et, Es. simpl.
        split; [|split].
        -- intros t [<-|[]]. exists value. split; [|reflexivity].
           apply in_or_app. right. left. reflexivity.
        -- intros q Hq. destruct (Hs q Hq) as (Hl & v & Hv & Eq). eauto.
        -- destruct (timers p) as [|t0 [|t1 rest]]; simpl in *; lia.
    + pose proof (elapse_spec ms Hc) as (_ & _ & _ & _ & H). cbv zeta in H.
      split; [now apply elapse_consistent|].
      destruct (timers p) as [|t [|t' rest]] eqn:Et.
      * destruct H as [-> ->]. simpl.
        split; [intros t []|]. split; [|simpl in Hn; lia].
        intros q Hq. destruct (Hs q Hq) as (Hl & v & Hv & Eq). eauto.
      * destruct (due t <=? clock p + ms).
        -- destruct H as [-> ->]. simpl.
           split; [intros t0 []|]. split.
           ++ intros q Hq. apply in_app_or in Hq as [Hq|[<-|[]]].
              ** destruct (Hs q Hq) as (Hl & v & Hv & Eq). eauto.
              ** split.
                 --- apply (@consistent_long_queries p t Hc). rewrite Et. left. reflexivity.
                 --- destruct (Ht t (or_introl eq_refl)) as (v & Hv & Eq). eauto.
           ++ rewrite length_app. simpl in *. lia.
        -- destruct H as [-> ->].
           split.
           ++ intros t0 Hin. destruct (Ht t0 Hin) as (v & Hv & Eq). eauto.
           ++ split; [|simpl in *; lia].
              intros q Hq. destruct (Hs q Hq) as (Hl & v & Hv & Eq). eauto.
      * pose proof (consistent_at_most_one Hc) as Hone. rewrite Et in Hone.
        simpl in Hone. lia.
    + split; [exact Hc|]. split; [|split].
      * intros t Hin. destruct (Ht t Hin) as (v & Hv & Eq). eauto.
      * intros q Hq. destruct (Hs q Hq) as (Hl & v & Hv & Eq). eauto.
      * lia.
Qed.

(** X15: whatever is typed and however time passes, every search that is
    sent to the geocoder is the trimmed text of some keystroke that came
    before, and has at least three characters. *)
Theorem every_search_was_typed (events : list Event) (q : string) :
  In q (searches (run events loaded)) ->
  3 <= String.length q /\
  exists value, In (Input value) events /\ q = Js.trim value.
Proof. intros H. exact (proj1 (proj2 (proj2 (run_history events))) q H). Qed.

(** X16: the searches sent so far, together with the one that may be
    pending, never outnumber the keystrokes: no keystroke causes more than
    one request, and answers and the passing of time cause none. *)
Theorem searches_bounded_by_keystrokes (events : list Event) :
  length (searches (run events loaded)) + length (timers (run events loaded))
    <= keystrokes events.
Proof. exact (proj2 (proj2 (proj2 (run_history events)))). Qed.

Lemma trimEnd_whitespace (s : string) :
  allWhitespace s -> Js.trimEnd s = "".
Proof.
  unfold allWhitespace. induction s as [|c s IH]; simpl; [reflexivity|].
  intros H. inversion H as [|x l Hc Hl]; subst.
  rewrite (IH Hl), Hc. reflexivity.
Qed.

(** X17: a text made of white space only, however long, counts as empty:
    typing it schedules no search, cancels the pending one, hides the
    suggestions and sends nothing. *)
Theorem whitespace_never_searches (history : list Event) (value : string) :
  allWhitespace value ->
  Js.trim value = "" /\
  timers (on_input value (run history loaded)) = [] /\
  suggestions_hidden (on_input value (run history loaded)) = true /\
  (forall ms, sent [Input value; Elapse ms] (run history loaded) = []).
Proof.
  intros Hws.
  assert (E : Js.trim value = "") by (unfold Js.trim; now rewrite trimEnd_whitespace).
  pose proof (run_consistent history consistent_loaded) as Hc.
  pose proof (on_input_spec value Hc) as (Hs & _ & H). cbv zeta in H.
  rewrite E in H. simpl in H. destruct H as (Ht & Hh & _).
  split; [exact E|]. split; [exact Ht|]. split; [exact Hh|].
  intros ms. unfold sent.
  change (run [Input value; Elapse ms] (run history loaded))
    with (elapse ms (on_input value (run history loaded))).
  pose proof (elapse_spec ms (on_input_consistent value Hc)) as (_ & _ & _ & _ & He).
  cbv zeta in He. rewrite Ht in He. destruct He as [_ ->]. rewrite Hs.
  rewrite <- (app_nil_r (searches (run history loaded))) at 2.
  apply skipn_length_app.
Qed.

(** Keystrokes that are each followed by a quiet period are all served. *)
Lemma paused_typed (keys : list (nat * string)) :
  forall (value : string) (sofar : list string) (since : nat) (p : Page),
    paused keys ->
    typed value sofar since p ->
    exists since',
      typed (last (map snd keys) value)
            (sofar ++ List.filter longEnough
                        (removelast (map Js.trim (value :: map snd keys))))
            since' (run (burst keys) p).
Proof.
  induction keys as [|[gap v] rest IH]; intros value sofar since p Hq Ht.
  - exists since. simpl. rewrite app_nil_r. exact Ht.
  - inversion Hq as [|k ks Hgap Hrest]; subst. simpl in Hgap.
    simpl map. rewrite last_cons.
    change (run (burst ((gap, v) :: rest)) p)
      with (run (burst rest) (on_input v (elapse gap p))).
    destruct (quiet_sends Ht Hgap) as [Hs' _].
    destruct Ht as (Hc & _).
    pose proof (elapse_consistent gap Hc) as Hc'.
    pose proof (on_input_typed v Hc') as Ht'. rewrite Hs' in Ht'.
    destruct (IH v _ _ _ Hrest Ht') as (since' & Hfin).
    exists since'.
    replace (sofar ++
             List.filter longEnough
               (removelast (Js.trim value :: Js.trim v :: map Js.trim (map snd rest))))
      with ((sofar ++
             (if 3 <=? String.length (Js.trim value) then [Js.trim value] else [])) ++
            List.filter longEnough (removelast (map Js.trim (v :: map snd rest)))).
    + exact Hfin.
    + rewrite <- app_assoc. f_equal.
      change (removelast (Js.trim value :: Js.trim v :: map Js.trim (map snd rest)))
        with (Js.trim value :: removelast (Js.trim v :: map Js.trim (map snd rest))).
      simpl List.filter. unfold longEnough at 2.
      destruct (3 <=? String.length (Js.trim value)); reflexivity.
Qed.

Lemma map_removelast_last {A B} (f : A -> B) (xs : list A) :
  forall x : A,
    map f (x :: xs) = removelast (map f (x :: xs)) ++ [f (last xs x)].
Proof.
  induction xs as [|y ys IH]; intros x; [reflexivity|].
  rewrite last_cons.
  change (removelast (map f (x :: y :: ys)))
    with (f x :: removelast (map f (y :: ys))).
  change (map f (x :: y :: ys)) with (f x :: map f (y :: ys)).
  rewrite (IH y) at 1. reflexivity.
Qed.

(** X18: keystrokes that are each followed by a full quiet period are not
    coalesced: every one of them whose trimmed text has at least three
    characters sends its own search, in the order of typing, and the shorter
    ones send none. *)
Theorem paused_keystrokes_all_search
  (history : list Event) (first : string) (keys : list (nat * string)) (ms : nat) :
  paused keys ->
  quiet <= ms ->
  sent (Input first :: burst keys ++ [Elapse ms]) (run history loaded) =
    List.filter longEnough (map Js.trim (first :: map snd keys)).
Proof.
  intros Hq Hms.
  set (p := run history loaded).
  assert (Hc : consistent p) by apply run_consistent, consistent_loaded.
  unfold sent.
  replace (run (Input first :: burst keys ++ [Elapse ms]) p)
    with (elapse ms (run (burst keys) (on_input first p)))
    by (unfold run; simpl; rewrite fold_left_app; reflexivity).
  destruct (paused_typed Hq (on_input_typed first Hc)) as (since' & Ht).
  destruct (quiet_sends Ht Hms) as [-> _].
  rewrite <- app_assoc, skipn_length_app.
  rewrite (map_removelast_last Js.trim (map snd keys) first) at 2.
  rewrite filter_app. simpl List.filter at 3. unfold longEnough at 3.
  destruct (3 <=? String.length (Js.trim (last (map snd keys) first))); reflexivity.
Qed.

End DebounceMore.

(* ------------------------------------------------------------------ *)
(** ** Keyboard navigation of the suggestions                           *)
(* ------------------------------------------------------------------ *)

Section Keyboard.
Import Keys.











End Keyboard.

(* ------------------------------------------------------------------ *)
(** ** Session, admin mode and navigation                               *)
(* ------------------------------------------------------------------ *)

Section Session.
Import CityFix.

Lemma sameSession_refl (w : World) : sameSession w w.
Proof. split; reflexivity. Qed.

Lemma sameSession_trans (w1 w2 w3 : World) :
  sameSession w1 w2 -> sameSession w2 w3 -> sameSession w1 w3.
Proof. intros [A B] [C D]. split; congruence. Qed.

Lemma keeps_ret {A} (a : A) : keepsSession (ret a).
Proof. intros w. apply sameSession_refl. Qed.

Lemma keeps_bind {A B} (c : M A) (k : A -> M B) :
  keepsSession c -> (forall a, keepsSession (k a)) -> keepsSession (bind c k).
Proof.
  intros Hc Hk w. unfold bind. specialize (Hc w).
  destruct (c w) as [[a|e] w']; simpl in *; [|exact Hc].
  eapply sameSession_trans; [exact Hc|apply Hk].
Qed.

Lemma keeps_act (f : World -> World) :
  (forall w, sameSession w (f w)) -> keepsSession (act f).
Proof. intros H w. apply H. Qed.

Lemma keeps_when (b : bool) (c : M unit) :
  keepsSession c -> keepsSession (when b c).
Proof. intros H. destruct b; [exact H|apply keeps_ret]. Qed.

Lemma keeps_try_catch (c : M unit) (h : World -> World) :
  keepsSession c -> (forall w, sameSession w (h w)) -> keepsSession (try_catch c h).
Proof.
  intros Hc Hh w. unfold try_catch. specialize (Hc w).
  destruct (c w) as [[a|e] w']; simpl in *; [exact Hc|].
  eapply sameSession_trans; [exact Hc|apply Hh].
Qed.

Lemma keeps_renderHome : keepsSession renderHome.
Proof.
  intros w. pose proof (renderHome_frame w) as (Hs & _ & _ & _ & Hu & _).
  unfold after in *. split; [exact Hu|now rewrite Hs].
Qed.

Lemma keeps_renderAdminTable : keepsSession renderAdminTable.
Proof.
  intros w. pose proof (renderAdminTable_frame w) as (Hs & _ & _ & _ & Hu & _).
  unfold after in *. split; [exact Hu|now rewrite Hs].
Qed.

Lemma keeps_renderMainMap : keepsSession renderMainMap.
Proof.
  intros w. pose proof (renderMainMap_frame w) as (Hs & _ & Hu & _).
  unfold after in *. split; [exact Hu|now rewrite Hs].
Qed.

Lemma keeps_emit (e : Effect) (w : World) : sameSession w (emit e w).
Proof. split; reflexivity. Qed.

Lemma keeps_set_issues (v : Json) (w : World) :
  sameSession w (set_state (STATE.set_issues v (state w)) w).
Proof. split; reflexivity. Qed.

Lemma keeps_on_new_issue (issue : Issue.t) : keepsSession (on_new_issue issue).
Proof.
  unfold on_new_issue. apply keeps_bind.
  - intros w. unfold unshift. destruct (STATE.issues (state w)); simpl;
      [apply keeps_set_issues|apply sameSession_refl].
  - intros _. apply keeps_bind; [apply keeps_renderHome|]. intros _.
    apply keeps_bind; [apply keeps_renderMainMap|]. intros _.
    apply keeps_act. intros w. apply keeps_emit.
Qed.

Lemma keeps_on_status_updated (data : StatusUpdated) :
  keepsSession (on_status_updated data).
Proof.
  unfold on_status_updated. apply keeps_bind.
  - intros w. destruct (STATE.issues (state w)) as [issues|fields];
      [|apply sameSession_refl].
    destruct (List.find (idIs (su_issue_id data)) issues); [|apply sameSession_refl].
    apply (@keeps_bind unit unit).
    + apply keeps_act. intros w0. apply keeps_set_issues.
    + intros _. apply keeps_bind; [apply keeps_renderHome|]. intros _.
      apply keeps_when, keeps_renderAdminTable.
  - intros _. apply keeps_when, keeps_act. intros w. apply keeps_emit.
Qed.

Lemma keeps_on_issue_deleted (data : IssueDeleted) :
  keepsSession (on_issue_deleted data).
Proof.
  unfold on_issue_deleted. apply keeps_bind.
  - intros w. destruct (STATE.issues (state w)); simpl;
      [apply keeps_set_issues|apply sameSession_refl].
  - intros _. apply keeps_bind; [apply keeps_renderHome|]. intros _.
    apply keeps_renderMainMap.
Qed.

Lemma keeps_fetchIssues_resume (r : FetchResult Json) :
  keepsSession (fetchIssues_resume r).
Proof.
  unfold fetchIssues_resume. apply keeps_try_catch; [|intros w; apply keeps_emit].
  destruct r as [|st [parsed|]]; simpl; try (intros w; apply sameSession_refl).
  apply keeps_bind; [|intros _; apply keeps_renderHome].
  apply keeps_act. intros w. apply keeps_set_issues.
Qed.

Lemma keeps_fetchLeaderboard_resume (r : FetchResult (list User.t)) :
  keepsSession (fetchLeaderboard_resume r).
Proof.
  unfold fetchLeaderboard_resume. apply keeps_try_catch; [|intros w; apply keeps_emit].
  destruct r as [|st [parsed|]]; simpl; try (intros w; apply sameSession_refl).
  apply keeps_bind; [|intros _; apply keeps_act]; try apply keeps_act;
    intros w; split; reflexivity.
Qed.

Lemma keeps_on_filter_click (f : string) : keepsSession (on_filter_click f).
Proof.
  unfold on_filter_click. apply keeps_bind; [|intros _; apply keeps_renderHome].
  apply keeps_act. intros w. split; reflexivity.
Qed.

Lemma keeps_renderAdmin (p : Shell.Page) :
  sameSession (Shell.world p) (Shell.world (snd (Shell.renderAdmin p))).
Proof.
  unfold Shell.renderAdmin. cbv zeta.
  destruct (negb (STATE.isAdmin (state (Shell.world p)))); [apply sameSession_refl|].
  unfold Shell.liftM. simpl.
  match goal with |- context [renderAdminTable ?x] => set (w1 := x) end.
  pose proof (keeps_renderAdminTable w1) as K.
  assert (K0 : sameSession (Shell.world p) w1) by (split; reflexivity).
  destruct (renderAdminTable w1) as [[[]|e] w2]; simpl in *.
  - eapply sameSession_trans; [exact K0|].
    eapply sameSession_trans; [exact K|]. split; reflexivity.
  - eapply sameSession_trans; [exact K0|exact K].
Qed.

Lemma keeps_router (p : Shell.Page) :
  sameSession (Shell.world p) (Shell.world (snd (Shell.router p))).
Proof.
  unfold Shell.router, Shell.liftM. cbv zeta.
  set (t := Shell.target (Shell.nav p)).
  destruct (String.eqb t "home"); destruct (String.eqb t "map"); simpl;
    try (destruct (mainMap (Shell.world p)); simpl);
    repeat match goal with
    | |- context [renderMainMap ?w] =>
        let K := fresh "K" in
        pose proof (keeps_renderMainMap w) as K;
        destruct (renderMainMap w) as [[[]|?] ?]; simpl in *
    end;
    destruct (String.eqb t "admin"); simpl;
    repeat match goal with
    | |- context [Shell.renderAdmin ?q] =>
        let K := fresh "K" in
        pose proof (keeps_renderAdmin q) as K;
        destruct (Shell.renderAdmin q) as [[[]|?] ?]; simpl in *
    end;
    try (destruct (String.eqb t "leaderboard"); simpl);
    unfold sameSession in *; simpl in *; intuition congruence.
Qed.

(** What each reaction does to the session. *)
Lemma react_session (p : Shell.Page) (e : Shell.Reaction) :
  Shell.inSession p -> Shell.inSession (Shell.react p e).
Proof.
  unfold Shell.inSession. intros H.
  assert (Keep : forall w', sameSession (Shell.world p) w' ->
                 cityfix_user w' = STATE.currentUser (state w')).
  { intros w' [A B]. congruence. }
  destruct e; simpl.
  - apply Keep, keeps_on_new_issue.
  - apply Keep, keeps_on_status_updated.
  - apply Keep, keeps_on_issue_deleted.
  - unfold on_points_updated, isSessionUser, applyPoints.
    destruct (STATE.currentUser (state (Shell.world p))) as [u|] eqn:Eu; simpl;
      [|rewrite Eu; exact H].
    destruct (String.eqb (User.id u) (pu_user_id data)); simpl; [|rewrite Eu; exact H].
    destruct (pu_added data =? 0)%Z; reflexivity.
  - apply Keep, keeps_fetchIssues_resume.
  - apply Keep, keeps_fetchLeaderboard_resume.
  - apply Keep, keeps_on_filter_click.
  - apply Keep. unfold report_submit. cbv zeta.
    destruct (_ || _); split; reflexivity.
  - apply Keep. unfold report_submit_resume. destruct r as [|st body].
    + split; reflexivity.
    + destruct (ok st); [|split; reflexivity].
      simpl. destruct (STATE.currentUser (state (Shell.world p))); split; reflexivity.
  - destruct a; simpl; try exact H. reflexivity.
  - destruct a; simpl; try exact H. reflexivity.
  - reflexivity.
  - unfold Shell.admin_login.
    destruct (String.eqb _ "admin123"); [|exact H].
    pose proof (keeps_renderAdmin (Shell.onWorld (Shell.set_isAdmin true) p)) as K.
    destruct (Shell.renderAdmin _) as [[[]|x] p1]; simpl in *; apply Keep;
      (eapply sameSession_trans; [|eapply sameSession_trans; [exact K|]]);
      split; reflexivity.
  - unfold Shell.admin_logout.
    pose proof (keeps_renderAdmin (Shell.onWorld (Shell.set_isAdmin false) p)) as K.
    apply Keep. eapply sameSession_trans; [|exact K]. split; reflexivity.
  - apply Keep. destruct r; split; reflexivity.
  - apply Keep. destruct r; split; reflexivity.
  - apply Keep. unfold Shell.giveReward. cbv zeta.
    destruct (_ || _); split; reflexivity.
  - apply Keep. unfold Shell.giveReward_resume.
    destruct r as [|st [error|]]; try (split; reflexivity).
    destruct (ok st); split; reflexivity.
  - apply Keep.
    apply (keeps_router
             (Shell.set_nav (Shell.mkNav hash (Shell.links (Shell.nav p))
                                         (Shell.views (Shell.nav p))) p)).
  - unfold Shell.reload, Shell.init_session. simpl.
    destruct (cityfix_user (Shell.world p)); reflexivity.
Qed.

(** X20: the stored session and the session user stay in agreement.  If
    they agree, they agree again after any sequence of push events, answers,
    clicks, form submissions, navigations, logins, logouts and reloads; and
    right after a reload they agree whatever was the case before, and keep
    agreeing through whatever follows. *)
Theorem session_stays_stored (events : list Shell.Reaction) (p : Shell.Page) :
  (Shell.inSession p -> Shell.inSession (fold_left Shell.react events p)) /\
  (forall markup, Shell.inSession (Shell.reload markup p)) /\
  (forall markup, Shell.inSession (fold_left Shell.react events (Shell.reload markup p))).
Proof.
  assert (Run : forall q, Shell.inSession q ->
                          Shell.inSession (fold_left Shell.react events q)).
  { induction events as [|e rest IH]; intros q Hq; [exact Hq|].
    simpl. apply IH, react_session, Hq. }
  assert (Fresh : forall markup, Shell.inSession (Shell.reload markup p)).
  { intros markup. unfold Shell.inSession, Shell.reload, Shell.init_session. simpl.
    destruct (cityfix_user (Shell.world p)); reflexivity. }
  split; [apply Run|]. split; [exact Fresh|].
  intros markup. apply Run, Fresh.
Qed.

(** X21: logging in survives a reload and logging out does too: after a
    granted login or registration the user is stored, the form's modal is
    closed, and the reloaded page has that user as session user and shows
    the profile; after a logout the storage is empty and the reloaded page
    is anonymous.  A refused or unreachable login or registration leaves the
    state, the rendered regions, the storage and the modals as they were and
    shows one notice: the server's message, the fallback when there is none,
    or the connection error. *)
Theorem login_survives_reload
  (p markup : Shell.Page) (u : User.t) (error : option string) :
  let granted := [Shell.login_resume (Shell.AuthGranted u) p;
                  Shell.register_resume (Shell.AuthGranted u) p] in
  let failed :=
    [(Shell.login_resume (Shell.AuthRefused error) p,
      match error with
      | Some text => if String.eqb text "" then "Login failed" else text
      | None => "Login failed"
      end);
     (Shell.login_resume Shell.AuthUnreachable p, "Connection error");
     (Shell.register_resume (Shell.AuthRefused error) p,
      match error with
      | Some text => if String.eqb text "" then "Registration failed" else text
      | None => "Registration failed"
      end);
     (Shell.register_resume Shell.AuthUnreachable p, "Connection error")] in
  Forall
    (fun q =>
       cityfix_user (Shell.world q) = Some u /\
       STATE.currentUser (state (Shell.world q)) = Some u /\
       STATE.currentUser (state (Shell.world (Shell.reload markup q))) = Some u /\
       cityfix_user (Shell.world (Shell.reload markup q)) = Some u /\
       (exists avatar,
           user_ui (dom (Shell.world q)) =
             Profile (User.username u) (User.points u) avatar /\
           user_ui (dom (Shell.world (Shell.reload markup q))) =
             Profile (User.username u) (User.points u) avatar))
    granted /\
  (Shell.login_modal (Shell.modals (Shell.login_resume (Shell.AuthGranted u) p)) = false /\
   Shell.register_modal (Shell.modals (Shell.register_resume (Shell.AuthGranted u) p))
     = false) /\
  (cityfix_user (Shell.world (Shell.logout p)) = None /\
   STATE.currentUser (state (Shell.world (Shell.logout p))) = None /\
   user_ui (dom (Shell.world (Shell.logout p))) = Guest /\
   STATE.currentUser (state (Shell.world (Shell.reload markup (Shell.logout p)))) = None /\
   cityfix_user (Shell.world (Shell.reload markup (Shell.logout p))) = None /\
   user_ui (dom (Shell.world (Shell.reload markup (Shell.logout p)))) =
     user_ui (dom (Shell.world markup))) /\
  Forall
    (fun answer =>
       state (Shell.world (fst answer)) = state (Shell.world p) /\
       dom (Shell.world (fst answer)) = dom (Shell.world p) /\
       cityfix_user (Shell.world (fst answer)) = cityfix_user (Shell.world p) /\
       Shell.modals (fst answer) = Shell.modals p /\
       trace (Shell.world (fst answer)) =
         trace (Shell.world p) ++ [Toast (Plain (snd answer)) "danger"])
    failed.
Proof.
  cbv zeta. split; [|split; [|split]].
  - repeat constructor; eexists; split; reflexivity.
  - split; reflexivity.
  - repeat split.
  - repeat constructor.
Qed.

End Session.

Section AdminAndRouter.
Import CityFix.

(** X22: admin mode is granted by the one password and by nothing else.
    Any other password leaves the state and the admin panels as they were
    and shows 'Incorrect password'; without admin mode [renderAdmin] shows
    the login panel, hides the dashboard and sends no request; with the
    password, on an array of issues, admin mode is set, the dashboard is
    shown, the table is rendered and the statistics and the users are
    requested before the welcome notice; and the admin logout drops admin
    mode, hides the dashboard and sends nothing. *)
Theorem admin_gate (p : Shell.Page) (issues : list Issue.t) :
  (Shell.admin_password (Shell.admin p) <> "admin123" ->
   fst (Shell.admin_login p) = Ret tt /\
   state (Shell.world (snd (Shell.admin_login p))) = state (Shell.world p) /\
   Shell.admin (snd (Shell.admin_login p)) = Shell.admin p /\
   trace (Shell.world (snd (Shell.admin_login p))) =
     trace (Shell.world p) ++ [Toast (Plain "Incorrect password") "danger"]) /\
  (STATE.isAdmin (state (Shell.world p)) = false ->
   fst (Shell.renderAdmin p) = Ret tt /\
   Shell.world (snd (Shell.renderAdmin p)) = Shell.world p /\
   Shell.admin_auth_hidden (Shell.admin (snd (Shell.renderAdmin p))) = false /\
   Shell.admin_dash_hidden (Shell.admin (snd (Shell.renderAdmin p))) = true) /\
  (Shell.admin_password (Shell.admin p) = "admin123" ->
   STATE.issues (state (Shell.world p)) = JArray issues ->
   fst (Shell.admin_login p) = Ret tt /\
   STATE.isAdmin (state (Shell.world (snd (Shell.admin_login p)))) = true /\
   Shell.admin_auth_hidden (Shell.admin (snd (Shell.admin_login p))) = true /\
   Shell.admin_dash_hidden (Shell.admin (snd (Shell.admin_login p))) = false /\
   admin_issues_list (dom (Shell.world (snd (Shell.admin_login p)))) =
     (match issues with [] => NoIssuesRow | _ => Rows (map adminRow issues) end) /\
   trace (Shell.world (snd (Shell.admin_login p))) =
     trace (Shell.world p) ++
     [Request "GET" "/api/admin/stats" None;
      Request "GET" "/api/admin/users" None;
      Request "GET" "/api/admin/users" None;
      Toast (Plain "Welcome, Admin!") "success"]) /\
  (fst (Shell.admin_logout p) = Ret tt /\
   STATE.isAdmin (state (Shell.world (snd (Shell.admin_logout p)))) = false /\
   Shell.admin_dash_hidden (Shell.admin (snd (Shell.admin_logout p))) = true /\
   trace (Shell.world (snd (Shell.admin_logout p))) = trace (Shell.world p)).
Proof.
  split; [|split; [|split]].
  - intros N. unfold Shell.admin_login.
    destruct (String.eqb_spec (Shell.admin_password (Shell.admin p)) "admin123")
      as [E|_]; [contradiction|]. repeat split.
  - intros E. unfold Shell.renderAdmin. cbv zeta. rewrite E. simpl.
    destruct p as [w ms a n]. repeat split.
  - intros E H. unfold Shell.admin_login, Shell.renderAdmin, Shell.liftM,
      renderAdminTable. rewrite E. simpl. rewrite H. simpl.
    repeat rewrite <- app_assoc. repeat split.
  - unfold Shell.admin_logout, Shell.renderAdmin. simpl. repeat split.
Qed.

(** X23: [updateStatus] and [deleteIssue] do not look at the answer.  In
    both, every answer, whatever its status, is reported as a success and
    followed by the list request, and once the list has answered the admin
    table shows the answered list and the statistics are requested; only a
    failure in transit is reported as a failure, and then nothing is
    requested.  A declined confirmation sends no delete request. *)
Theorem admin_actions_ignore_status
  (w : World) (id status : string) (http_status listStatus : nat)
  (body : option unit) (issues : list Issue.t) :
  let listed := fetchIssues_resume (Response listStatus (Some (JArray issues))) in
  let table := match issues with [] => NoIssuesRow | _ => Rows (map adminRow issues) end in
  (Shell.call_method (Shell.updateStatus_call id status) = "PUT" /\
   Shell.call_body (Shell.updateStatus_call id status) = Shell.NewStatus status /\
   trace (Shell.updateStatus_resume status (Response http_status body) w) =
     trace w ++ [Toast (StatusUpdatedTo status) "success";
                 Request "GET" "/api/issues" None] /\
   trace (after Shell.refreshAdmin
            (after listed
               (Shell.updateStatus_resume status (Response http_status body) w))) =
     trace w ++ [Toast (StatusUpdatedTo status) "success";
                 Request "GET" "/api/issues" None;
                 Request "GET" "/api/admin/stats" None] /\
   admin_issues_list
     (dom (after Shell.refreshAdmin
             (after listed
                (Shell.updateStatus_resume status (Response http_status body) w)))) =
     table /\
   trace (Shell.updateStatus_resume status NetworkFailure w) =
     trace w ++ [ConsoleError ""; Toast (Plain "Failed to update") "danger"]) /\
  (Shell.deleteIssue_call id false = None /\
   (exists call, Shell.deleteIssue_call id true = Some call /\
                 Shell.call_method call = "DELETE") /\
   trace (Shell.deleteIssue_resume (Response http_status body) w) =
     trace w ++ [Toast (Plain "Report deleted") "success";
                 Request "GET" "/api/issues" None] /\
   trace (after Shell.refreshAdmin
            (after listed (Shell.deleteIssue_resume (Response http_status body) w))) =
     trace w ++ [Toast (Plain "Report deleted") "success";
                 Request "GET" "/api/issues" None;
                 Request "GET" "/api/admin/stats" None] /\
   admin_issues_list
     (dom (after Shell.refreshAdmin
             (after listed (Shell.deleteIssue_resume (Response http_status body) w)))) =
     table /\
   STATE.issues
     (state (after Shell.refreshAdmin
               (after listed (Shell.deleteIssue_resume (Response http_status body) w)))) =
     JArray issues /\
   trace (Shell.deleteIssue_resume NetworkFailure w) =
     trace w ++ [Toast (Plain "Failed to delete") "danger"]).
Proof.
  cbv zeta. split.
  - unfold Shell.updateStatus_resume, Shell.refreshAdmin, after, fetchIssues_resume,
      fetchIssues_try, try_catch, bind, act, renderHome, renderAdminTable,
      fetchIssues_request, Shell.get, showToast, emit. simpl.
    repeat rewrite <- app_assoc. simpl. repeat split.
  - unfold Shell.deleteIssue_resume, Shell.refreshAdmin, after, fetchIssues_resume,
      fetchIssues_try, try_catch, bind, act, renderHome, renderAdminTable,
      fetchIssues_request, Shell.get, showToast, emit. simpl.
    repeat rewrite <- app_assoc. simpl. repeat split.
    eexists. split; reflexivity.
Qed.

(** X24: [giveReward] sends its request exactly when both a user and a
    reward are selected; otherwise it shows the warning and sends nothing.
    The request carries the two selected ids and the page is not changed by
    sending it. *)
Theorem giveReward_guard (p : Shell.Page) :
  (snd (Shell.giveReward p) = None <->
   Shell.reward_user_select (Shell.admin p) = "" \/
   Shell.reward_select (Shell.admin p) = "") /\
  (snd (Shell.giveReward p) = None ->
   trace (Shell.world (fst (Shell.giveReward p))) =
     trace (Shell.world p) ++
     [Toast (Plain "Please select a user and reward") "warning"]) /\
  (forall call,
      snd (Shell.giveReward p) = Some call ->
      fst (Shell.giveReward p) = p /\
      call = {| Shell.call_method := "POST";
                Shell.call_url := "/api/admin/give-reward";
                Shell.call_body :=
                  Shell.RewardFor (Shell.reward_user_select (Shell.admin p))
                                  (Shell.reward_select (Shell.admin p)) |}).
Proof.
  unfold Shell.giveReward. cbv zeta. simpl.
  destruct (String.eqb_spec (Shell.reward_user_select (Shell.admin p)) "") as [E1|N1];
    destruct (String.eqb_spec (Shell.reward_select (Shell.admin p)) "") as [E2|N2];
    simpl; (split; [|split]); try tauto;
    try (split; [reflexivity|tauto]);
    try (split; [discriminate|intros [?|?]; contradiction]);
    try discriminate; try (intros call [= <-]; split; reflexivity);
    try (intros _; reflexivity).
Qed.

Lemma views_switched (t : string) (views : list (string * bool)) :
  map fst (map (fun v => (fst v, String.eqb (fst v) (Shell.viewId t))) views) =
    map fst views /\
  (forall id active,
      In (id, active)
         (map (fun v => (fst v, String.eqb (fst v) (Shell.viewId t))) views) ->
      (active = true <-> id = Shell.viewId t)).
Proof.
  split.
  - rewrite map_map. apply map_ext. reflexivity.
  - intros id active Hin. apply in_map_iff in Hin as (v & [= <- <-] & _).
    split; [apply String.eqb_eq|intros ->; apply String.eqb_refl].
Qed.

Lemma router_nav (p : Shell.Page) :
  Shell.nav (snd (Shell.router p)) =
    Shell.mkNav (Shell.hash (Shell.nav p))
      (map (fun l => (fst l, String.eqb (fst l) (Shell.target (Shell.nav p))))
           (Shell.links (Shell.nav p)))
      (map (fun v => (fst v,
                      String.eqb (fst v) (Shell.viewId (Shell.target (Shell.nav p)))))
           (Shell.views (Shell.nav p))).
Proof.
  unfold Shell.router, Shell.liftM. cbv zeta.
  set (t := Shell.target (Shell.nav p)).
  destruct (String.eqb t "home"); destruct (String.eqb t "map"); simpl;
    try (destruct (mainMap (Shell.world p)); simpl);
    repeat match goal with
    | |- context [renderMainMap ?w] =>
        destruct (renderMainMap w) as [[[]|?] ?]; simpl in *
    end;
    destruct (String.eqb t "admin"); simpl;
    try reflexivity;
    unfold Shell.renderAdmin, Shell.liftM; cbv zeta; simpl;
    repeat match goal with
    | |- context [if negb ?b then _ else _] => destruct b; simpl
    | |- context [renderAdminTable ?w] =>
        destruct (renderAdminTable w) as [[[]|?] ?]; simpl in *
    end;
    try (destruct (String.eqb t "leaderboard"); simpl); reflexivity.
Qed.

(** X25: after routing, a view is active exactly when its id is the target
    followed by '-view', and no view is added or removed; the empty fragment
    routes to home, but a fragment that names no view leaves no view active.
    Routing to home sends the list request, routing to the leaderboard the
    leaderboard and rewards requests, routing to admin without admin mode
    nothing, and routing anywhere never changes the collection. *)
Theorem router_switches_views (p : Shell.Page) :
  map fst (Shell.views (Shell.nav (snd (Shell.router p)))) =
    map fst (Shell.views (Shell.nav p)) /\
  (forall id active,
      In (id, active) (Shell.views (Shell.nav (snd (Shell.router p)))) ->
      (active = true <-> id = Shell.viewId (Shell.target (Shell.nav p)))) /\
  ((forall v, In v (Shell.views (Shell.nav p)) ->
              fst v <> Shell.viewId (Shell.target (Shell.nav p))) ->
   forall v, In v (Shell.views (Shell.nav (snd (Shell.router p)))) -> snd v = false) /\
  (Shell.hash (Shell.nav p) = "" -> Shell.target (Shell.nav p) = "home") /\
  (Shell.target (Shell.nav p) = "home" ->
   trace (Shell.world (snd (Shell.router p))) =
     trace (Shell.world p) ++ [Request "GET" "/api/issues" None]) /\
  (Shell.target (Shell.nav p) = "leaderboard" ->
   trace (Shell.world (snd (Shell.router p))) =
     trace (Shell.world p) ++ [Request "GET" "/api/leaderboard" None;
                               Request "GET" "/api/rewards" None]) /\
  (Shell.target (Shell.nav p) = "admin" ->
   STATE.isAdmin (state (Shell.world p)) = false ->
   trace (Shell.world (snd (Shell.router p))) = trace (Shell.world p)) /\
  STATE.issues (state (Shell.world (snd (Shell.router p)))) =
    STATE.issues (state (Shell.world p)).
Proof.
  pose proof (router_nav p) as Hnav.
  destruct (views_switched (Shell.target (Shell.nav p)) (Shell.views (Shell.nav p)))
    as [V1 V2].
  split; [rewrite Hnav; exact V1|]. split; [rewrite Hnav; exact V2|].
  split.
  { intros Hnone v Hin. rewrite Hnav in Hin. simpl in Hin.
    apply in_map_iff in Hin as (v0 & <- & Hv0). simpl.
    apply String.eqb_neq. apply Hnone. exact Hv0. }
  split.
  { intros E. unfold Shell.target. rewrite E. reflexivity. }
  unfold Shell.router, Shell.liftM. cbv zeta.
  set (t := Shell.target (Shell.nav p)).
  split; [|split; [|split]].
  - intros E. rewrite E. simpl. reflexivity.
  - intros E. rewrite E. simpl. rewrite <- app_assoc. reflexivity.
  - intros E Ha. rewrite E. simpl. unfold Shell.renderAdmin. cbv zeta. simpl.
    rewrite Ha. reflexivity.
  - destruct (String.eqb t "home"); destruct (String.eqb t "map"); simpl;
      try (destruct (mainMap (Shell.world p)); simpl);
      repeat match goal with
      | |- context [renderMainMap ?w] =>
          let F := fresh "F" in
          pose proof (renderMainMap_frame w) as (F & _); unfold after in F;
          destruct (renderMainMap w) as [[[]|?] ?]; simpl in *
      end;
      destruct (String.eqb t "admin"); simpl;
      repeat match goal with
      | |- context [Shell.renderAdmin ?q] =>
          let K := fresh "K" in
          assert (K : state (Shell.world (snd (Shell.renderAdmin q))) =
                      state (Shell.world q));
          [ unfold Shell.renderAdmin, Shell.liftM; cbv zeta;
            destruct (negb (STATE.isAdmin (state (Shell.world q)))); simpl;
            [reflexivity|];
            match goal with
            | |- context [renderAdminTable ?w0] =>
                let G := fresh "G" in
                pose proof (renderAdminTable_frame w0) as (G & _); unfold after in G;
                destruct (renderAdminTable w0) as [[[]|?] ?]; simpl in *; exact G
            end
          | destruct (Shell.renderAdmin q) as [[[]|?] ?]; simpl in * ]
      end;
      try (destruct (String.eqb t "leaderboard"); simpl);
      congruence.
Qed.

End AdminAndRouter.

(* ------------------------------------------------------------------ *)
(** ** The pin of the picker map                                        *)
(* ------------------------------------------------------------------ *)

Section Pins.
Import Picker.

Lemma removeLayer_self (k : Pin) : removeLayer k [k] = [].
Proof. unfold removeLayer. simpl. now rewrite Nat.eqb_refl. Qed.

Lemma step_tidy (p : t) (e : Event) : tidy p -> tidy (step p e).
Proof.
  unfold tidy. intros H. destruct e as [at_|]; simpl.
  - unfold place. simpl. destruct (held p) as [k|]; rewrite H; simpl;
      rewrite ?Nat.eqb_refl; reflexivity.
  - unfold accepted. destruct (held p) as [k|] eqn:E; simpl.
    + rewrite H. apply removeLayer_self.
    + rewrite H, E. reflexivity.
Qed.

(** X26: in the CityFix client the picker map never shows more than one
    pin.  After any sequence of map clicks, chosen suggestions and accepted
    submissions the pin on the map is the one the script holds, the last
    position picked since the last accepted submission, and there is none
    after an accepted submission. *)
Theorem picker_keeps_one_pin (events : list Event) :
  tidy (fold_left step events empty) /\
  length (onMap (fold_left step events empty)) <= 1 /\
  (forall at_,
      onMap (fold_left step (events ++ [Place at_]) empty) =
        [{| pin_stamp := S (lastStamp (fold_left step events empty));
            pin_at := at_ |}]) /\
  onMap (fold_left step (events ++ [Accepted]) empty) = [].
Proof.
  assert (T : forall evs p, tidy p -> tidy (fold_left step evs p)).
  { induction evs as [|e rest IH]; intros p Hp; [exact Hp|].
    simpl. apply IH, step_tidy, Hp. }
  assert (T0 : tidy empty) by reflexivity.
  pose proof (T events empty T0) as Ht.
  split; [exact Ht|]. split.
  - unfold tidy in Ht. rewrite Ht. destruct (held _); simpl; lia.
  - split.
    + intros at_. rewrite fold_left_app. simpl. unfold place. simpl.
      unfold tidy in Ht. destruct (held (fold_left step events empty)) as [k|];
        rewrite Ht; simpl; rewrite ?Nat.eqb_refl; reflexivity.
    + rewrite fold_left_app. simpl. unfold accepted.
      unfold tidy in Ht. destruct (held (fold_left step events empty)) as [k|] eqn:E;
        simpl; rewrite Ht; [apply removeLayer_self|reflexivity].
Qed.

Lemma appjs_rounds (at_ : Js.value * Js.value) (n : nat) :
  forall p : t,
    held p = None ->
    held (fold_left step_appjs (rounds at_ n) p) = None /\
    length (onMap (fold_left step_appjs (rounds at_ n) p)) = length (onMap p) + n.
Proof.
  induction n as [|n IH]; intros p Hp; simpl.
  - split; [exact Hp|lia].
  - destruct (IH (accepted_appjs (place at_ p)) eq_refl) as [H1 H2].
    split; [exact H1|]. rewrite H2. unfold place. rewrite Hp. simpl.
    rewrite length_app. simpl. lia.
Qed.

(** X27: in the earlier client an accepted submission forgets the pin
    without taking it off the map: after [n] reports, each pinned by a click
    and accepted, [n] pins are on the map and none is held, so the next click
    adds one more instead of moving the pin. *)
Theorem appjs_pins_pile_up (at_ next : Js.value * Js.value) (n : nat) :
  held (fold_left step_appjs (rounds at_ n) empty) = None /\
  length (onMap (fold_left step_appjs (rounds at_ n) empty)) = n /\
  length (onMap (fold_left step_appjs (rounds at_ n ++ [Place next]) empty)) = S n.
Proof.
  destruct (appjs_rounds at_ n empty eq_refl) as [H1 H2]. simpl in H2.
  split; [exact H1|]. split; [exact H2|].
  rewrite fold_left_app. simpl. unfold place. rewrite H1. simpl.
  rewrite length_app, H2. simpl. lia.
Qed.

End Pins.

(* ------------------------------------------------------------------ *)
(** ** The further statements at concrete pages                         *)
(* ------------------------------------------------------------------ *)

Section MoreInstances.
Import CityFix.




(** X1 on a page that holds [b2], [a1], [c3] and a second issue with the
    id of [a1]: work starts on "a1".  Only the first of the two changes. *)
Lemma status_updated_in_place_witness :
  STATE.issues (state More.busy) = JArray [Sample.b2; Sample.a1; More.c3; More.a1again] /\
  (exists i, In i [Sample.b2; Sample.a1; More.c3; More.a1again] /\
             Issue.id i = su_issue_id More.startWork) /\
  exists before i rest,
    before = [Sample.b2] /\ i = Sample.a1 /\ rest = [More.c3; More.a1again] /\
    STATE.issues (state (after (on_status_updated More.startWork) More.busy)) =
      JArray (before ++ Issue.set_status "in-progress" i :: rest) /\
    total_issues (dom (after (on_status_updated More.startWork) More.busy)) = Num 4 /\
    progress_issues (dom (after (on_status_updated More.startWork) More.busy)) = Num 2 /\
    solved_issues (dom (after (on_status_updated More.startWork) More.busy)) = Num 0.
Proof.
  assert (Hex : exists i, In i [Sample.b2; Sample.a1; More.c3; More.a1again] /\
                          Issue.id i = su_issue_id More.startWork)
    by (exists Sample.a1; split; [right; left|]; reflexivity).
  split; [reflexivity|]. split; [exact Hex|].
  destruct (@status_updated_in_place More.busy
              [Sample.b2; Sample.a1; More.c3; More.a1again] More.startWork
              eq_refl Hex)
    as (before & i & rest & E & Hb & Hi & _ & Hs & Ht & Hp & Hv & _).
  exists before, i, rest.
  assert (K : before = [Sample.b2] /\ i = Sample.a1 /\ rest = [More.c3; More.a1again]).
  { destruct before as [|x [|y before]].
    - injection E as <- _. discriminate Hi.
    - injection E as <- <- <-. repeat split.
    - exfalso. injection E as <- <- _.
      apply (Hb Sample.a1); [right; left|]; reflexivity. }
  destruct K as (-> & -> & ->).
  split; [reflexivity|]. split; [reflexivity|]. split; [reflexivity|].
  split; [exact Hs|]. split; [exact Ht|]. split; [exact Hp|exact Hv].
Defined.



(** X5 on the page where asha is logged in: she is given 20 points. *)
Lemma points_updated_session_user_witness :
  STATE.currentUser (state Sample.session) = Some Sample.asha /\
  User.id Sample.asha = pu_user_id More.pointsForAsha /\
  option_map User.points
    (cityfix_user (on_points_updated More.pointsForAsha Sample.session)) = Some 50%Z /\
  trace (on_points_updated More.pointsForAsha Sample.session) =
    [PointsAnimation 20; Request "GET" "/api/leaderboard" None].
Proof.
  split; [reflexivity|]. split; [reflexivity|].
  destruct (@points_updated_session_user Sample.session Sample.asha More.pointsForAsha
              eq_refl eq_refl) as (Hu & Hs & _ & _ & Ht).
  split; [rewrite Hs, Hu; reflexivity|exact Ht].
Defined.

(** X6 on the page the error answer left behind. *)
Lemma push_on_corrupted_collection_witness :
  STATE.issues (state More.corrupted) = JObject [("error", "database unavailable")] /\
  returns (on_new_issue More.c3) More.corrupted = false /\
  after (on_new_issue More.c3) More.corrupted = More.corrupted.
Proof.
  split; [reflexivity|].
  exact (proj1 (@push_on_corrupted_collection More.corrupted
                  [("error", "database unavailable")] eq_refl) More.c3).
Defined.

(** X9 on a page with one solved and one pending issue, filtered on
    pending. *)
Lemma feed_shows_filtered_witness :
  STATE.issues (state More.pendingOnly) = JArray [Sample.a1; Sample.b2] /\
  cardCount (issue_feed (dom (after renderHome More.pendingOnly))) = 1 /\
  (inFeed Sample.b2 (issue_feed (dom (after renderHome More.pendingOnly))) <->
   Issue.status Sample.b2 = "pending").
Proof.
  split; [reflexivity|].
  destruct (@feed_shows_filtered More.pendingOnly [Sample.a1; Sample.b2] eq_refl)
    as (_ & Hf & _).
  assert (N : STATE.filter (state More.pendingOnly) <> "all") by (simpl; discriminate).
  destruct (Hf N) as [Hc Hi].
  split; [exact Hc|]. apply Hi. right. left. reflexivity.
Defined.

(** X10 on the same page. *)
Lemma feed_counters_add_up_witness :
  STATE.issues (state More.pendingOnly) = JArray [Sample.a1; Sample.b2] /\
  exists total progress solved,
    total_issues (dom (after renderHome More.pendingOnly)) = Num total /\
    progress_issues (dom (after renderHome More.pendingOnly)) = Num progress /\
    solved_issues (dom (after renderHome More.pendingOnly)) = Num solved /\
    progress + solved <= total.
Proof.
  split; [reflexivity|].
  destruct (@feed_counters_add_up More.pendingOnly [Sample.a1; Sample.b2] eq_refl)
    as (t & p & s & H1 & H2 & H3 & H4 & _).
  exists t, p, s. auto.
Defined.



(** X13 on the form of the specification's example, with the coordinates
    set. *)
Lemma report_answer_decides_witness :
  issue_lat (dom (Sample.form "12.97" "77.59")) <> "" /\
  issue_lng (dom (Sample.form "12.97" "77.59")) <> "" /\
  currentImageBase64
    (report_submit_resume (Response 500 None)
       (report_submit "2024-01-15T10:00:00.000Z" (Sample.form "12.97" "77.59"))) =
    currentImageBase64 (Sample.form "12.97" "77.59") /\
  skipn (S (length (trace (Sample.form "12.97" "77.59"))))
    (trace (report_submit_resume (Response 500 None)
              (report_submit "2024-01-15T10:00:00.000Z" (Sample.form "12.97" "77.59")))) =
    [Toast (Plain "Failed to submit report") "danger"].
Proof.
  assert (H1 : issue_lat (dom (Sample.form "12.97" "77.59")) <> "")
    by (simpl; discriminate).
  assert (H2 : issue_lng (dom (Sample.form "12.97" "77.59")) <> "")
    by (simpl; discriminate).
  split; [exact H1|]. split; [exact H2|].
  destruct (@report_answer_decides "2024-01-15T10:00:00.000Z"
              (Sample.form "12.97" "77.59") H1 H2) as (_ & _ & Hfail & _).
  exact (Hfail 500 None eq_refl).
Defined.

(** X14 on a page that holds [e5], with its long id and no reporter, and
    [a1]. *)
Lemma admin_table_rows_witness :
  STATE.issues (state More.desk) = JArray [More.e5; Sample.a1] /\
  returns renderAdminTable More.desk = true /\
  exists r1 r2,
    admin_issues_list (dom (after renderAdminTable More.desk)) = Rows [r1; r2] /\
    (row_actions r1 = "65a1f0c2e4b7" /\ String.length (row_id r1) = 6 /\
     String.prefix (row_id r1) "65a1f0c2e4b7" = true /\
     row_reporter r1 = "Anonymous") /\
    (row_actions r2 = "a1" /\ String.length (row_id r2) = 2 /\
     String.prefix (row_id r2) "a1" = true /\
     row_reporter r2 = "asha").
Proof.
  split; [reflexivity|].
  destruct (@admin_table_rows More.desk [More.e5; Sample.a1] eq_refl) as [Hr Hrows].
  split; [exact Hr|].
  exists (adminRow More.e5), (adminRow Sample.a1). split; [reflexivity|].
  change (admin_issues_list (dom (after renderAdminTable More.desk)))
    with (Rows [adminRow More.e5; adminRow Sample.a1]) in Hrows.
  destruct Hrows as [_ F].
  apply Forall2_cons_iff in F as [(A1 & P1 & L1 & _ & _ & _ & _ & N1) F].
  apply Forall2_cons_iff in F as [(A2 & P2 & L2 & _ & _ & _ & S2 & _) _].
  split.
  - split; [exact A1|]. split; [exact L1|]. split; [exact P1|].
    apply N1. left. reflexivity.
  - split; [exact A2|]. split; [exact L2|]. split; [exact P2|].
    apply (S2 "asha"); [reflexivity|discriminate].
Defined.

End MoreInstances.

Section MoreDebounceInstances.
Import Autocomplete.

(** X15 after "MG Road" was typed and a quiet period has passed. *)
Lemma every_search_was_typed_witness :
  In "MG Road" (searches (run [Input " MG Road "; Elapse 400] loaded)) /\
  3 <= String.length "MG Road" /\
  exists value,
    In (Input value) [Input " MG Road "; Elapse 400] /\ "MG Road" = Js.trim value.
Proof.
  assert (H : In "MG Road" (searches (run [Input " MG Road "; Elapse 400] loaded)))
    by (left; reflexivity).
  split; [exact H|].
  exact (@every_search_was_typed [Input " MG Road "; Elapse 400] "MG Road" H).
Defined.

(** X17 for three blanks typed after "MG Road". *)
Lemma whitespace_never_searches_witness :
  allWhitespace "   " /\
  timers (run [Input "MG Road"] loaded) =
    [{| handle := 1; due := 400; query := "MG Road" |}] /\
  timers (on_input "   " (run [Input "MG Road"] loaded)) = [].
Proof.
  assert (H : allWhitespace "   ") by (repeat constructor).
  split; [exact H|]. split; [reflexivity|].
  exact (proj1 (proj2 (@whitespace_never_searches [Input "MG Road"] "   " H))).
Defined.

(** X18 for three texts typed with pauses of half a second. *)
Lemma paused_keystrokes_all_search_witness :
  paused [(500, "MG"); (500, "MG Road")] /\
  quiet <= 400 /\
  sent (Input "Indiranagar" :: burst [(500, "MG"); (500, "MG Road")] ++ [Elapse 400])
       (run [] loaded) = ["Indiranagar"; "MG Road"].
Proof.
  assert (Hp : paused [(500, "MG"); (500, "MG Road")])
    by (repeat constructor; unfold quiet; simpl; lia).
  assert (Hms : quiet <= 400) by (unfold quiet; lia).
  split; [exact Hp|]. split; [exact Hms|].
  exact (@paused_keystrokes_all_search [] "Indiranagar"
           [(500, "MG"); (500, "MG Road")] 400 Hp Hms).
Defined.


End MoreDebounceInstances.

Section MoreShellInstances.
Import CityFix.

(** X20 over a day of asha's: points, a new issue, a look at the
    leaderboard, a logout, a login and a reload; and on a page whose
    storage holds asha while nobody is the session user: a reload brings
    the two into agreement. *)
Lemma session_stays_stored_witness :
  Shell.inSession (pageOf Sample.session) /\
  Shell.inSession (fold_left Shell.react More.day (pageOf Sample.session)) /\
  ~ Shell.inSession (pageOf More.stored) /\
  Shell.inSession (Shell.reload (pageOf Sample.page0) (pageOf More.stored)) /\
  Shell.inSession
    (fold_left Shell.react More.day
       (Shell.reload (pageOf Sample.page0) (pageOf More.stored))).
Proof.
  assert (H : Shell.inSession (pageOf Sample.session)) by reflexivity.
  destruct (@session_stays_stored More.day (pageOf Sample.session)) as (Hrun & _).
  destruct (@session_stays_stored More.day (pageOf More.stored)) as (_ & Hfresh & Hboth).
  split; [exact H|]. split; [exact (Hrun H)|].
  split; [intros E; discriminate E|].
  split; [apply Hfresh|apply Hboth].
Defined.

(** X22 with a wrong and with the right password. *)
Lemma admin_gate_witness :
  Shell.admin_password (Shell.admin (More.adminPage "letmein")) <> "admin123" /\
  STATE.isAdmin (state (Shell.world (snd (Shell.admin_login (More.adminPage "letmein")))))
    = false /\
  Shell.admin_password (Shell.admin (More.adminPage "admin123")) = "admin123" /\
  STATE.isAdmin (state (Shell.world (snd (Shell.admin_login (More.adminPage "admin123")))))
    = true.
Proof.
  assert (N : Shell.admin_password (Shell.admin (More.adminPage "letmein")) <> "admin123")
    by (simpl; discriminate).
  split; [exact N|].
  destruct (@admin_gate (More.adminPage "letmein") [Sample.a1]) as (Hwrong & _).
  destruct (Hwrong N) as (_ & Hs & _).
  split; [rewrite Hs; reflexivity|]. split; [reflexivity|].
  destruct (@admin_gate (More.adminPage "admin123") [Sample.a1]) as (_ & _ & Hright & _).
  exact (proj1 (proj2 (Hright eq_refl eq_refl))).
Defined.

(** X24 with no reward selected, and with both selected. *)
Lemma giveReward_guard_witness :
  snd (Shell.giveReward (More.rewardPage "u1" "")) = None /\
  snd (Shell.giveReward (More.rewardPage "u1" "r2")) =
    Some {| Shell.call_method := "POST"; Shell.call_url := "/api/admin/give-reward";
            Shell.call_body := Shell.RewardFor "u1" "r2" |}.
Proof.
  split.
  - apply (proj1 (@giveReward_guard (More.rewardPage "u1" ""))). right. reflexivity.
  - reflexivity.
Defined.

(** X25 for a fragment that names no view, and for the leaderboard. *)
Lemma router_switches_views_witness :
  (forall v, In v (Shell.views (Shell.nav (snd (Shell.router (More.at_ "#rewards"))))) ->
             snd v = false) /\
  Shell.target (Shell.nav (More.at_ "")) = "home" /\
  trace (Shell.world (snd (Shell.router (More.at_ "#leaderboard")))) =
    [Request "GET" "/api/leaderboard" None; Request "GET" "/api/rewards" None].
Proof.
  destruct (@router_switches_views (More.at_ "#rewards")) as (_ & _ & Hnone & _).
  destruct (@router_switches_views (More.at_ "")) as (_ & _ & _ & Hhome & _).
  destruct (@router_switches_views (More.at_ "#leaderboard"))
    as (_ & _ & _ & _ & _ & Hboard & _).
  split; [|split].
  - apply Hnone. intros v Hv. simpl in Hv.
    destruct Hv as [<-|[<-|[<-|[<-|[<-|[]]]]]]; simpl; discriminate.
  - apply Hhome. reflexivity.
  - apply Hboard. reflexivity.
Defined.

End MoreShellInstances.
